(** * reddit-covid: a shallow embedding of the retrieval scripts

    The repository polls the pushshift.io REST API for Reddit submissions
    and comments and accumulates the answers in local JSON files.  This
    development embeds the four Python modules

      - [export_to_json.py]      (the file exporter),
      - [CollectRedditData.py]   (the data source client),
      - [CollectDataFactory.py]  (the source selector),
      - [run_retrieval.py]       (the retrieval driver),

    as functions over an explicit world (file system, log stream, issued
    HTTP requests, sleeping time) in a state-and-exception monad, and
    proves the properties the specification states about them. *)

From Stdlib Require Import ZArith List String Ascii Lia Bool DecimalString DecimalZ.
From stdpp Require Import gmap strings.

Set Warnings "-register-all".

Open Scope string_scope.
Open Scope list_scope.
Open Scope Z_scope.

(** ** Python values

    Every value the scripts handle comes out of [json.load] /
    [Response.json()] or is built from such values, so one type of parsed
    JSON documents serves as the type of Python objects: [JNull] is
    [None], [JArr] a [list], [JObj] a [dict] in insertion order (its keys
    are meant to be distinct).  Numbers are integers; the scripts never
    compute with the numbers they receive. *)

Inductive json : Type :=
| JNull
| JBool (b : bool)
| JInt (z : Z)
| JStr (s : string)
| JArr (items : list json)
| JObj (fields : list (string * json)).

(** The exceptions that can travel through the scripts.  The two classes
    named by the [except] clauses of the client come first. *)

Inductive exn : Type :=
| JSONDecodeError
| HTTPError (msg : string)
| UnboundLocalError (var : string)
| KeyError (key : string)
| TypeError
| IndexError
| AttributeError (attr : string)
| OverflowError
| OtherError (name : string).

(** The outcome of evaluating a Python expression: a value or a raised
    exception. *)

Inductive res (A : Type) : Type :=
| Ok (a : A)
| Raise (e : exn).

Arguments Ok {A} a.
Arguments Raise {A} e.

Definition res_bind {A B : Type} (r : res A) (k : A -> res B) : res B :=
  match r with
  | Ok a => k a
  | Raise e => Raise e
  end.

(** [res_all] evaluates a comprehension [[f x for x in xs]] left to right,
    stopping at the first exception. *)

Fixpoint res_all {A B : Type} (f : A -> res B) (xs : list A) : res (list B) :=
  match xs with
  | [] => Ok []
  | x :: xs' =>
      res_bind (f x) (fun y => res_bind (res_all f xs') (fun ys => Ok (y :: ys)))
  end.

(** [str(n)] for a Python [int]. *)

Definition str_of_Z (z : Z) : string := NilZero.string_of_int (Z.to_int z).

(** [dict.__getitem__] with a string key, first binding wins; subscripting
    anything but a [dict] with a string is a [TypeError]. *)

Fixpoint assoc_lookup (k : string) (fields : list (string * json)) : option json :=
  match fields with
  | [] => None
  | (k', v) :: rest => if String.eqb k k' then Some v else assoc_lookup k rest
  end.

Definition py_getitem (j : json) (k : string) : res json :=
  match j with
  | JObj fields =>
      match assoc_lookup k fields with
      | Some v => Ok v
      | None => Raise (KeyError k)
      end
  | _ => Raise TypeError
  end.

(** [iter(x)]: a list yields its elements, a string its characters, a
    dict its keys; the other values are not iterable.

    A [str] is held as the bytes of its UTF-8 encoding, and Python
    iterates its characters (code points), not its bytes: a byte
    10xxxxxx continues the character that the bytes before it began, so
    a byte is put in front of the piece that follows it when that piece
    starts with a continuation byte, and starts a piece of its own
    otherwise. *)

Definition is_continuation_byte (c : ascii) : bool :=
  let n := nat_of_ascii c in (128 <=? n)%nat && (n <? 192)%nat.

Definition starts_inside_character (s : string) : bool :=
  match s with
  | EmptyString => false
  | String c _ => is_continuation_byte c
  end.

Fixpoint code_points (s : string) : list string :=
  match s with
  | EmptyString => []
  | String c s' =>
      match code_points s' with
      | piece :: pieces =>
          if starts_inside_character piece then String c piece :: pieces
          else String c EmptyString :: piece :: pieces
      | [] => [String c EmptyString]
      end
  end.

Definition chars_of (s : string) : list json := map JStr (code_points s).

Definition py_iter (j : json) : res (list json) :=
  match j with
  | JArr items => Ok items
  | JStr s => Ok (chars_of s)
  | JObj fields => Ok (map (fun kv => JStr (fst kv)) fields)
  | _ => Raise TypeError
  end.

(** [xs[i]] on a Python list, for a non-negative index. *)

Definition list_getitem {A : Type} (xs : list A) (i : nat) : res A :=
  match xs !! i with
  | Some x => Ok x
  | None => Raise IndexError
  end.

(** [x != "..."] against a string literal: only a string can be equal to
    a string. *)

Definition py_ne_str (j : json) (lit : string) : bool :=
  match j with
  | JStr s => negb (String.eqb s lit)
  | _ => true
  end.

(** [sep.join(xs)]: every item must be a [str]. *)

Fixpoint py_join (sep : string) (xs : list json) : res string :=
  match xs with
  | [] => Ok ""
  | JStr s :: [] => Ok s
  | JStr s :: rest => res_bind (py_join sep rest) (fun t => Ok (s +:+ sep +:+ t))
  | _ :: _ => Raise TypeError
  end.

(** [str.lower()].  Strings are sequences of [ascii] code units, and
    [lower] acts on the letters A-Z.  Python lowers some characters
    outside ASCII too, but none of them to a letter of the key the
    selector compares with (the Kelvin sign becomes "k", the dotted
    capital I becomes "i" with a combining dot behind it). *)

Definition lower_ascii (c : ascii) : ascii :=
  let n := nat_of_ascii c in
  if (andb (65 <=? n) (n <=? 90))%nat then ascii_of_nat (n + 32) else c.

Fixpoint lower (s : string) : string :=
  match s with
  | EmptyString => EmptyString
  | String c s' => String (lower_ascii c) (lower s')
  end.

(** ** The world *)

(** What one [requests.get] does: it returns a response carrying a body
    text, or it raises. *)

Record response : Type := { text : string }.

Inductive get_outcome : Type :=
| Responded (r : response)
| GetRaises (e : exn).

(** The calls the driver makes on the client and on the exporter.  The
    call log is ghost state: it has no counterpart in the scripts and
    only serves to state in which order the driver works. *)

Inductive call : Type :=
| CallGetSubmissions (query subreddit before_date after_date : string)
| CallGetCommentIds (submission_id : json)
| CallGetComments (comment_ids : list json)
| CallBuildJson (payload : json) (name : string).

Record world : Type := mkWorld {
  files : gmap string string;   (* path -> contents *)
  logs : list string;           (* messages given to logging.info *)
  requests : list string;       (* URLs handed to requests.get, oldest first *)
  slept : Z;                    (* seconds spent in time.sleep *)
  today : string;               (* datetime.now().strftime("%Y-%m-%d") *)
  calls : list call             (* ghost call log *)
}.

Definition set_files (f : gmap string string -> gmap string string) (w : world) : world :=
  mkWorld (f (files w)) (logs w) (requests w) (slept w) (today w) (calls w).

Definition add_log (msg : string) (w : world) : world :=
  mkWorld (files w) (logs w ++ [msg]) (requests w) (slept w) (today w) (calls w).

Definition add_request (url : string) (w : world) : world :=
  mkWorld (files w) (logs w) (requests w ++ [url]) (slept w) (today w) (calls w).

Definition add_sleep (secs : Z) (w : world) : world :=
  mkWorld (files w) (logs w) (requests w) (slept w + secs) (today w) (calls w).

Definition add_call (c : call) (w : world) : world :=
  mkWorld (files w) (logs w) (requests w) (slept w) (today w) (calls w ++ [c]).

Definition set_today (day : string) (w : world) : world :=
  mkWorld (files w) (logs w) (requests w) (slept w) day (calls w).

(** ** The monad of statements: state passing with exceptions *)

Definition M (A : Type) : Type := world -> res A * world.

Definition ret {A : Type} (a : A) : M A := fun w => (Ok a, w).

Definition raise {A : Type} (e : exn) : M A := fun w => (Raise e, w).

Definition bind {A B : Type} (m : M A) (k : A -> M B) : M B :=
  fun w =>
    match m w with
    | (Ok a, w') => k a w'
    | (Raise e, w') => (Raise e, w')
    end.

Definition lift {A : Type} (r : res A) : M A := fun w => (r, w).

Definition modify (f : world -> world) : M unit := fun w => (Ok tt, f w).

Definition gets {A : Type} (f : world -> A) : M A := fun w => (Ok (f w), w).

(** [try: m  except <the clauses of h>]: the effects of [m] up to the
    raise stay; [h] decides what to do with the exception. *)

Definition try_catch {A : Type} (m : M A) (h : exn -> M A) : M A :=
  fun w =>
    match m w with
    | (Ok a, w') => (Ok a, w')
    | (Raise e, w') => h e w'
    end.

Notation "x <- m ;; k" := (bind m (fun x => k))
  (at level 100, m at next level, right associativity).
Notation "m ;;; k" := (bind m (fun _ => k))
  (at level 100, right associativity).

(** A [for] loop whose body ends in [continue] (or falls off its end) or
    in [break], threading the local variables [S] the body assigns. *)

Inductive ctl : Type := Continue | Break.

Fixpoint for_loop {A S : Type} (xs : list A) (body : A -> S -> M (ctl * S)) (s : S) : M S :=
  match xs with
  | [] => ret s
  | x :: xs' =>
      r <- body x s ;;
      match fst r with
      | Continue => for_loop xs' body (snd r)
      | Break => ret (snd r)
      end
  end.

(** A [for] loop without [break] and without local variables. *)

Fixpoint for_each {A : Type} (xs : list A) (body : A -> M unit) : M unit :=
  match xs with
  | [] => ret tt
  | x :: xs' => body x ;;; for_each xs' body
  end.

(** [range(n)] *)

Definition py_range (n : Z) : list nat := seq 0 (Z.to_nat n).

(** [logging.info], [time.sleep].  The seconds slept add up in [slept];
    the day is not a function of them here: a run of the driver reads
    the day once, at its start, and the script that makes several runs
    reads its clock in front of each (see [read_clock]). *)

Definition logging_info (msg : string) : M unit := modify (add_log msg).

Definition time_sleep (secs : Z) : M unit := modify (add_sleep secs).

(** ** export_to_json.py *)

Section Exporter.

(** [json.dumps(_, ensure_ascii=False, indent=4)] and [json.loads]; the
    latter answers [None] where Python raises [JSONDecodeError]. *)
Variable json_dumps : json -> string.
Variable json_loads : string -> option json.

(** [with open(path, "r") as f: json.load(f)].  A file is taken to hold
    text: the contents of a file of the world are a [str], which the
    read decodes without failure ([UnicodeDecodeError] on bytes that
    are no text is not modelled). *)
Definition json_load (path : string) : M json :=
  fun w =>
    match files w !! path with
    | None => (Raise (OtherError "FileNotFoundError"), w)
    | Some s =>
        match json_loads s with
        | Some j => (Ok j, w)
        | None => (Raise JSONDecodeError, w)
        end
    end.

(** [with open(path, "w") as f: json.dump(data, f, ...)].  The document
    is taken to be one whose text can be encoded (a [str] of the model
    holds no lone surrogate), so the write runs to its end; a write
    that breaks off in the middle is not modelled. *)
Definition json_dump (data : json) (path : string) : M unit :=
  modify (set_files (insert path (json_dumps data))).

Definition os_path_exists (path : string) : M bool :=
  gets (fun w => match files w !! path with Some _ => true | None => false end).

(** [existing_data.append(new_data)]: only a list has [append]. *)
Definition py_append (existing_data new_data : json) : res json :=
  match existing_data with
  | JArr items => Ok (JArr (items ++ [new_data]))
  | _ => Raise (AttributeError "append")
  end.

Definition build_json_file (new_data : json) (file_export_name : string) : M unit :=
  modify (add_call (CallBuildJson new_data file_export_name)) ;;;
  let file_export_name := file_export_name +:+ ".json" in
  ex <- os_path_exists file_export_name ;;
  if negb ex then
    json_dump new_data file_export_name
  else
    existing_data <- json_load file_export_name ;;
    existing_data <- lift (py_append existing_data new_data) ;;
    json_dump existing_data file_export_name.

(** [open(path, 'a')] then [write]: the text goes behind what the file
    holds, and the file is created when it is absent. *)
Definition append_text (path : string) (s : string) : M unit :=
  modify (set_files (fun fs =>
    <[path := match fs !! path with Some old => old +:+ s | None => s end]> fs)).

Definition newline : string := String (ascii_of_nat 10) EmptyString.

Definition build_error_text_file (new_data : string) (file_export_name : string) : M unit :=
  append_text (file_export_name +:+ ".txt") (new_data +:+ newline).

End Exporter.

(** ** CollectRedditData.py *)

(** [CollectRedditPSIOData]: the two attributes [__init__] sets.  The
    abstract base class only declares the names of the three methods. *)

Record CollectRedditPSIOData : Type := {
  time_delay : Z;
  number_results : Z
}.

Definition CollectRedditPSIOData_init : CollectRedditPSIOData :=
  {| time_delay := 2; number_results := 500 |}.

Section Client.

(** The network: what [requests.get(url)] does after the requests of
    the history were issued. *)
Variable http_get : list string -> string -> get_outcome.

(** [json.loads], as used by [Response.json()]. *)
Variable json_loads : string -> option json.

(** [repr] of a list or a dict, needed only when such a value is
    formatted into a URL. *)
Variable py_repr : json -> string.

(** What an f-string makes of [{x}]. *)
Definition py_str (j : json) : string :=
  match j with
  | JStr s => s
  | JInt z => str_of_Z z
  | JNull => "None"
  | JBool true => "True"
  | JBool false => "False"
  | _ => py_repr j
  end.

Definition requests_get (url : string) : M response :=
  fun w =>
    match http_get (requests w) url with
    | Responded r => (Ok r, add_request url w)
    | GetRaises e => (Raise e, add_request url w)
    end.

(** [Response.json()] *)
Definition response_json (r : response) : res json :=
  match json_loads (text r) with
  | Some j => Ok j
  | None => Raise JSONDecodeError
  end.

(** The two [except] clauses every fetch operation has; [local] is the
    value the loop's variables have when the handler runs.  Any other
    exception passes through. *)
Definition on_error {S : Type} (api_call error_file : string) (local : S)
    (e : exn) : M (ctl * S) :=
  match e with
  | JSONDecodeError =>
      logging_info ("Failed to parse: " +:+ api_call) ;;;
      logging_info "Export error file." ;;;
      build_error_text_file api_call error_file ;;;
      logging_info "Retrying request." ;;;
      ret (Continue, local)
  | HTTPError http_error =>
      logging_info ("HTTP error: " +:+ http_error) ;;;
      logging_info "Retrying request." ;;;
      ret (Continue, local)
  | _ => raise e
  end.

Definition submissions_url (self : CollectRedditPSIOData)
    (query subreddit before_date after_date : string) : string :=
  "https://api.pushshift.io/reddit/search/submission/?q=" +:+ query
    +:+ "&subreddit=" +:+ subreddit
    +:+ "&after=" +:+ before_date
    +:+ "&before=" +:+ after_date
    +:+ "&limit=" +:+ str_of_Z (number_results self).

(** One pass through the body of the retry loop of [get_submissions];
    the local variable is [submissions_requests], unbound ([None])
    until a request returns. *)
Definition submissions_attempt (self : CollectRedditPSIOData)
    (query subreddit before_date after_date : string)
    (submissions_requests : option response) : M (ctl * option response) :=
  let submissions_api_call :=
    submissions_url self query subreddit before_date after_date in
  try_catch
    (r <- requests_get submissions_api_call ;;
     time_sleep (time_delay self) ;;;
     ret (Break, Some r))
    (on_error submissions_api_call "submissions_error" submissions_requests).

Definition get_submissions (self : CollectRedditPSIOData)
    (query subreddit before_date after_date : string) (num_retries : Z) : M json :=
  modify (add_call (CallGetSubmissions query subreddit before_date after_date)) ;;;
  submissions_requests <-
    for_loop (py_range (num_retries + 1))
      (fun _ => submissions_attempt self query subreddit before_date after_date)
      None ;;
  match submissions_requests with
  | None => raise (UnboundLocalError "submissions_requests")
  | Some r => lift (response_json r)
  end.

Definition comment_ids_url (submission_id : json) : string :=
  "https://api.pushshift.io/reddit/submission/comment_ids/" +:+ py_str submission_id.

(** [{"submission_id": submission_id, "comment_id": comment_id}] *)
Definition id_pair (submission_id comment_id : json) : json :=
  JObj [("submission_id", submission_id); ("comment_id", comment_id)].

(** One pass through the retry loop of
    [get_comments_id_from_submissions_id]; the local variable is
    [list_comments_submission_id]. *)
Definition comment_ids_attempt (self : CollectRedditPSIOData) (submission_id : json)
    (list_comments_submission_id : list json) : M (ctl * list json) :=
  let submission_id_api_call := comment_ids_url submission_id in
  try_catch
    (r <- requests_get submission_id_api_call ;;
     time_sleep (time_delay self) ;;;
     body <- lift (response_json r) ;;
     sub_id_to_comment_id_requests <- lift (py_getitem body "data") ;;
     comment_ids <- lift (py_iter sub_id_to_comment_id_requests) ;;
     ret (Break, list_comments_submission_id ++ map (id_pair submission_id) comment_ids))
    (on_error submission_id_api_call "submission_id_error" list_comments_submission_id).

Definition get_comments_id_from_submissions_id (self : CollectRedditPSIOData)
    (submission_id : json) (num_retries : Z) : M (list json) :=
  modify (add_call (CallGetCommentIds submission_id)) ;;;
  list_comments_submission_id <-
    for_loop (py_range (num_retries + 1))
      (fun _ => comment_ids_attempt self submission_id)
      [] ;;
  if (length list_comments_submission_id =? 0)%nat then
    ret [id_pair submission_id (JStr "N/A")]
  else
    ret list_comments_submission_id.

Definition comments_url (strings_comments : string) : string :=
  "https://api.pushshift.io/reddit/search/comment?ids=" +:+ strings_comments.

Definition comments_attempt (self : CollectRedditPSIOData) (strings_comments : string)
    (comments_requests : option response) : M (ctl * option response) :=
  let comments_api_call := comments_url strings_comments in
  try_catch
    (r <- requests_get comments_api_call ;;
     time_sleep (time_delay self) ;;;
     ret (Break, Some r))
    (on_error comments_api_call "comment_error" comments_requests).

Definition get_comments (self : CollectRedditPSIOData)
    (list_comments_ids : list json) (num_retries : Z) : M json :=
  modify (add_call (CallGetComments list_comments_ids)) ;;;
  strings_comments <- lift (py_join "," list_comments_ids) ;;
  comments_requests <-
    for_loop (py_range (num_retries + 1))
      (fun _ => comments_attempt self strings_comments)
      None ;;
  match comments_requests with
  | None => raise (UnboundLocalError "comments_requests")
  | Some r => lift (response_json r)
  end.

End Client.

(** ** CollectDataFactory.py *)

(** [None] is Python's [None]. *)
Definition get_data_source (data_source : string) : option CollectRedditPSIOData :=
  if String.eqb (lower data_source) "reddit-historical" then
    Some CollectRedditPSIOData_init
  else
    None.

(** ** run_retrieval.py *)

(** [datetime.date] and [datetime.timedelta], by proleptic Gregorian
    ordinal (day 1 is 0001-01-01) and by number of days. *)

Record date : Type := { toordinal : Z }.
Record timedelta : Type := { days : Z }.

Definition date_max_ordinal : Z := 3652059.   (* date(9999, 12, 31) *)
Definition epoch_ordinal : Z := 719163.       (* date(1970, 1, 1) *)

Definition valid_date (d : date) : Prop := 1 <= toordinal d <= date_max_ordinal.

(** [datetime.date(year, month, day)] *)

Definition is_leap (y : Z) : bool :=
  (y mod 4 =? 0) && (negb (y mod 100 =? 0) || (y mod 400 =? 0)).

Definition days_before_year (y : Z) : Z :=
  let y1 := y - 1 in y1 * 365 + y1 / 4 - y1 / 100 + y1 / 400.

Definition days_in_month (y m : Z) : Z :=
  if m =? 2 then (if is_leap y then 29 else 28)
  else if (m =? 4) || (m =? 6) || (m =? 9) || (m =? 11) then 30
  else 31.

Definition days_before_month (y m : Z) : Z :=
  fold_left (fun acc k => acc + days_in_month y (Z.of_nat k)) (seq 1 (Z.to_nat (m - 1))) 0.

Definition date_of_ymd (y m d : Z) : res date :=
  if (1 <=? y) && (y <=? 9999) && (1 <=? m) && (m <=? 12)
     && (1 <=? d) && (d <=? days_in_month y m)
  then Ok {| toordinal := days_before_year y + days_before_month y m + d |}
  else Raise (OtherError "ValueError").

(** [end_date - start_date] and [start_date + timedelta(days=n)] *)

Definition date_sub (a b : date) : timedelta :=
  {| days := toordinal a - toordinal b |}.

Definition date_add (d : date) (delta : timedelta) : res date :=
  let o := toordinal d + days delta in
  if (1 <=? o) && (o <=? date_max_ordinal) then Ok {| toordinal := o |}
  else Raise OverflowError.

(** A [for] loop of a function without effects on the world. *)

Fixpoint res_loop {A S : Type} (xs : list A) (body : A -> S -> res S) (s : S) : res S :=
  match xs with
  | [] => Ok s
  | x :: xs' => res_bind (body x s) (res_loop xs' body)
  end.

Section LocalTime.

(** The time zone of the process: [utcoffset o] is the number of
    seconds local time is ahead of UTC at the local midnight that
    starts the day of ordinal [o]. *)
Variable utcoffset : Z -> Z.

(** [int(time.mktime(day.timetuple()))] for a [date]: the UNIX time of
    the local midnight that starts the day (every day is taken to start
    with a midnight that exists on the local clock, and [mktime] to
    accept every date). *)
Definition mktime_midnight (day : date) : Z :=
  86400 * (toordinal day - epoch_ordinal) - utcoffset (toordinal day).

Definition make_date_range (start_date end_date : date) : res (list string) :=
  let time_delta := date_sub end_date start_date in
  res_loop (py_range (days time_delta + 1))
    (fun num_days time_stamps =>
       res_bind (date_add start_date {| days := Z.of_nat num_days |}) (fun day =>
       let unix_timestamp := str_of_Z (mktime_midnight day) in
       Ok (time_stamps ++ [unix_timestamp])))
    [].

End LocalTime.

Section Driver.

Variable http_get : list string -> string -> get_outcome.
Variable json_dumps : json -> string.
Variable json_loads : string -> option json.
Variable py_repr : json -> string.
Variable utcoffset : Z -> Z.

(** A method call on what the selector returned: [None] has no
    methods. *)
Definition method {A : Type} (obj : option CollectRedditPSIOData) (name : string)
    (f : CollectRedditPSIOData -> M A) : M A :=
  match obj with
  | Some self => f self
  | None => raise (AttributeError name)
  end.

(** The body of the inner loop of [run_reddit_psio_query], for one
    submission id. *)
Definition retrieve_comments (reddit_historical : option CollectRedditPSIOData)
    (curr_datetime : string) (sub_id : json) : M unit :=
  subs_id_to_comm_id <-
    method reddit_historical "get_comments_id_from_submissions_id" (fun self =>
      get_comments_id_from_submissions_id http_get json_loads py_repr self sub_id 1) ;;
  build_json_file json_dumps json_loads (JArr subs_id_to_comm_id)
    ("submission_id_to_comment_id_" +:+ curr_datetime) ;;;
  list_comments_ids <-
    lift (res_all (fun comment => py_getitem comment "comment_id") subs_id_to_comm_id) ;;
  first_id <- lift (list_getitem list_comments_ids 0) ;;
  if py_ne_str first_id "N/A" then
    comments <-
      method reddit_historical "get_comments" (fun self =>
        get_comments http_get json_loads self list_comments_ids 1) ;;
    comments_data <- lift (py_getitem comments "data") ;;
    build_json_file json_dumps json_loads comments_data ("comments_" +:+ curr_datetime)
  else
    ret tt.

(** The body of the outer loop, for one index into the date range. *)
Definition retrieve_window (reddit_historical : option CollectRedditPSIOData)
    (curr_datetime query subreddit : string) (date_range : list string)
    (idx : nat) : M unit :=
  start_date <- lift (list_getitem date_range idx) ;;
  end_date <- lift (list_getitem date_range (idx + 1)) ;;
  submissions <-
    method reddit_historical "get_submissions" (fun self =>
      get_submissions http_get json_loads self query subreddit start_date end_date 1) ;;
  submissions_data <- lift (py_getitem submissions "data") ;;
  build_json_file json_dumps json_loads submissions_data
    ("submissions_" +:+ curr_datetime) ;;;
  submissions_data <- lift (py_getitem submissions "data") ;;
  submission_list <- lift (py_iter submissions_data) ;;
  subs_id <- lift (res_all (fun submission_id => py_getitem submission_id "id")
                     submission_list) ;;
  for_each subs_id (retrieve_comments reddit_historical curr_datetime).

Definition run_reddit_psio_query (query subreddit : string)
    (start_date end_date : date) : M unit :=
  let reddit_historical := get_data_source "reddit-historical" in
  curr_datetime <- gets today ;;
  date_range <- lift (make_date_range utcoffset start_date end_date) ;;
  let size_date_range := Z.of_nat (length date_range) in
  for_each (py_range (size_date_range - 1))
    (retrieve_window reddit_historical curr_datetime query subreddit date_range).

(** The block under [if __name__ == "__main__"].

    Every run of the driver reads [datetime.now()] anew, and the runs of
    one script are hours of sleeping and waiting apart: the day can
    change from one run to the next.  [clock] is the day the calendar
    shows after the requests issued and the seconds slept so far;
    [read_clock] brings the day of the world up to it, and the script
    does so in front of each run, where the run reads the day. *)
Variable clock : list string -> Z -> string.

Definition read_clock : M unit :=
  modify (fun w => set_today (clock (requests w) (slept w)) w).

Definition queries : list string := ["covid"; "coronavirus"; "sars-cov-2"].

Definition subreddits : list string :=
  ["Canada"; "CanadaPolitics"; "CanadaCoronavirus";
   "Vancouver"; "Edmonton"; "Winnipeg";
   "Montreal"; "Ottawa"; "Saskatoon";
   "Calgary"; "Toronto"; "Ontario"; "onguardforthee"].

Definition main : M unit :=
  start_date <- lift (date_of_ymd 2020 1 1) ;;
  end_date <- lift (date_of_ymd 2020 3 30) ;;
  for_each queries (fun query =>
    logging_info ("Running query: " +:+ query) ;;;
    for_each subreddits (fun subreddit =>
      logging_info ("Running in subreddit: " +:+ subreddit) ;;;
      read_clock ;;;
      run_reddit_psio_query query subreddit start_date end_date)).

End Driver.

(** * A concrete platform, to run the scripts on

    The scripts are parametric in the JSON codec, the network and the
    time zone.  The instances below make them executable: a codec for
    JSON text without insignificant white space, a network that replays a
    fixed list of outcomes, and three time zones. *)

Module CompactJson.

Definition dquote : ascii := ascii_of_nat 34.
Definition backslash : ascii := ascii_of_nat 92.

Fixpoint escape (s : string) : string :=
  match s with
  | EmptyString => EmptyString
  | String c s' =>
      if (Ascii.eqb c dquote || Ascii.eqb c backslash)%bool
      then String backslash (String c (escape s'))
      else String c (escape s')
  end.

Definition quote (s : string) : string :=
  String dquote (escape s +:+ String dquote EmptyString).

Fixpoint dumps (j : json) : string :=
  match j with
  | JNull => "null"
  | JBool true => "true"
  | JBool false => "false"
  | JInt z => str_of_Z z
  | JStr s => quote s
  | JArr items =>
      "[" +:+
      (fix go (l : list json) : string :=
         match l with
         | [] => ""
         | [x] => dumps x
         | x :: rest => dumps x +:+ "," +:+ go rest
         end) items
      +:+ "]"
  | JObj fields =>
      "{" +:+
      (fix go (l : list (string * json)) : string :=
         match l with
         | [] => ""
         | [(k, v)] => quote k +:+ ":" +:+ dumps v
         | (k, v) :: rest => quote k +:+ ":" +:+ dumps v +:+ "," +:+ go rest
         end) fields
      +:+ "}"
  end.

(** The text of a string literal, read from behind its opening quote. *)
Fixpoint read_string (s : string) : option (string * string) :=
  match s with
  | EmptyString => None
  | String c s' =>
      if Ascii.eqb c dquote then Some (EmptyString, s')
      else if Ascii.eqb c backslash then
        match s' with
        | EmptyString => None
        | String d s'' =>
            match read_string s'' with
            | Some (t, r) => Some (String d t, r)
            | None => None
            end
        end
      else
        match read_string s' with
        | Some (t, r) => Some (String c t, r)
        | None => None
        end
  end.

(** The characters of a decimal numeral, and the longest run of them at
    the head of a text. *)
Definition is_number_char (c : ascii) : bool :=
  let n := nat_of_ascii c in
  (Ascii.eqb c "-" || ((48 <=? n) && (n <=? 57))%nat)%bool.

Fixpoint span_number (s : string) : string * string :=
  match s with
  | EmptyString => (EmptyString, EmptyString)
  | String c s' =>
      if is_number_char c then
        let (numeral, rest) := span_number s' in (String c numeral, rest)
      else (EmptyString, s)
  end.

Definition read_int (s : string) : option (Z * string) :=
  let (numeral, rest) := span_number s in
  match NilZero.int_of_string numeral with
  | Some d => Some (Z.of_int d, rest)
  | None => None
  end.

Fixpoint strip (prefix s : string) : option string :=
  match prefix, s with
  | EmptyString, _ => Some s
  | String p prefix', String c s' =>
      if Ascii.eqb p c then strip prefix' s' else None
  | _, _ => None
  end.

Fixpoint parse_value (fuel : nat) (s : string) {struct fuel} : option (json * string) :=
  match fuel with
  | O => None
  | S fuel' =>
      match s with
      | String "n" _ => option_map (pair JNull) (strip "null" s)
      | String "t" _ => option_map (pair (JBool true)) (strip "true" s)
      | String "f" _ => option_map (pair (JBool false)) (strip "false" s)
      | String "[" (String "]" r) => Some (JArr [], r)
      | String "[" r =>
          match parse_items fuel' r with
          | Some (items, r') => Some (JArr items, r')
          | None => None
          end
      | String "{" (String "}" r) => Some (JObj [], r)
      | String "{" r =>
          match parse_fields fuel' r with
          | Some (fields, r') => Some (JObj fields, r')
          | None => None
          end
      | String c r =>
          if Ascii.eqb c dquote then
            match read_string r with
            | Some (t, r') => Some (JStr t, r')
            | None => None
            end
          else
            match read_int s with
            | Some (z, r') => Some (JInt z, r')
            | None => None
            end
      | EmptyString => None
      end
  end

with parse_items (fuel : nat) (s : string) {struct fuel} : option (list json * string) :=
  match fuel with
  | O => None
  | S fuel' =>
      match parse_value fuel' s with
      | Some (v, String "," r) =>
          match parse_items fuel' r with
          | Some (vs, r') => Some (v :: vs, r')
          | None => None
          end
      | Some (v, String "]" r) => Some ([v], r)
      | _ => None
      end
  end

with parse_fields (fuel : nat) (s : string) {struct fuel}
    : option (list (string * json) * string) :=
  match fuel with
  | O => None
  | S fuel' =>
      match s with
      | String c r =>
          if Ascii.eqb c dquote then
            match read_string r with
            | Some (k, String ":" r1) =>
                match parse_value fuel' r1 with
                | Some (v, String "," r2) =>
                    match parse_fields fuel' r2 with
                    | Some (kvs, r') => Some ((k, v) :: kvs, r')
                    | None => None
                    end
                | Some (v, String "}" r2) => Some ([(k, v)], r2)
                | _ => None
                end
            | _ => None
            end
          else None
      | EmptyString => None
      end
  end.

Definition loads (s : string) : option json :=
  match parse_value (2 * String.length s + 2) s with
  | Some (j, EmptyString) => Some j
  | _ => None
  end.

End CompactJson.

(** A network that replays [outcomes], one per request, whatever the
    URL; when they are used up, the connection fails. *)

Definition replay (outcomes : list get_outcome) : list string -> string -> get_outcome :=
  fun history _ =>
    nth (length history) outcomes (GetRaises (OtherError "ConnectionError")).

(** A response with the body [dumps j]. *)
Definition answer (j : json) : get_outcome :=
  Responded {| text := CompactJson.dumps j |}.

(** No [repr] of containers is needed for string ids. *)
Definition no_repr : json -> string := fun _ => "<object>".

(** UTC, and Toronto in the first half of 2020: daylight saving time
    starts on March 8 at 2 a.m., so the midnight of March 9 (ordinal
    737493) is the first one at UTC-4. *)
Definition tz_utc : Z -> Z := fun _ => 0.
Definition tz_toronto_2020 : Z -> Z :=
  fun o => if o <=? 737492 then -18000 else -14400.

(** Apia at the end of 2011: Samoa moved across the date line and left
    out December 30, going from UTC-10 to UTC+14.  [mktime] takes the
    midnight of the day that was left out (ordinal 734501) at the old
    offset. *)
Definition tz_apia_2011 : Z -> Z :=
  fun o => if o <=? 734501 then -36000 else 50400.

Definition empty_world (curr_datetime : string) : world :=
  mkWorld ∅ [] [] 0 curr_datetime [].

(** * Vocabulary of the specification *)

(** ** The file exporter *)

(** The codec reads back from its own text the document it wrote. *)
Definition faithful (json_dumps : json -> string) (json_loads : string -> option json)
    (j : json) : Prop :=
  json_loads (json_dumps j) = Some j.

(** The document a JSON file of the world parses to, if any. *)
Definition parsed_file (json_loads : string -> option json) (w : world)
    (path : string) : option json :=
  match files w !! path with
  | Some s => json_loads s
  | None => None
  end.

(** The number of nodes of a document. *)
Fixpoint json_size (j : json) : nat :=
  match j with
  | JArr items => S (fold_right (fun x n => json_size x + n)%nat O items)
  | JObj fields => S (fold_right (fun kv n => json_size (snd kv) + n)%nat O fields)
  | _ => 1%nat
  end.

(** What the specification says of a first export: the new file holds a
    one-element array around the payload. *)
Definition creates_singleton_array (json_dumps : json -> string)
    (json_loads : string -> option json) (new_data : json) (name : string)
    (w : world) : Prop :=
  files w !! (name +:+ ".json") = None ->
  exists w',
    build_json_file json_dumps json_loads new_data name w = (Ok tt, w') /\
    parsed_file json_loads w' (name +:+ ".json") = Some (JArr [new_data]).

(** What the specification says of two exports in a row: the new file
    holds the array of the two payloads. *)
Definition creates_pair_array (json_dumps : json -> string)
    (json_loads : string -> option json) (first second : json) (name : string)
    (w : world) : Prop :=
  files w !! (name +:+ ".json") = None ->
  exists w1 w2,
    build_json_file json_dumps json_loads first name w = (Ok tt, w1) /\
    build_json_file json_dumps json_loads second name w1 = (Ok tt, w2) /\
    parsed_file json_loads w2 (name +:+ ".json") = Some (JArr [first; second]).

(** ** The source selector *)

(** Two strings are the same up to the case of the letters A-Z. *)

Definition is_upper (c : ascii) : bool :=
  let n := nat_of_ascii c in ((65 <=? n) && (n <=? 90))%nat.

Definition same_letter (c d : ascii) : bool :=
  Ascii.eqb c d
  || (is_upper c && (nat_of_ascii d =? nat_of_ascii c + 32)%nat)
  || (is_upper d && (nat_of_ascii c =? nat_of_ascii d + 32)%nat).

Fixpoint eq_ignore_case (a b : string) : bool :=
  match a, b with
  | EmptyString, EmptyString => true
  | String c a', String d b' => same_letter c d && eq_ignore_case a' b'
  | _, _ => false
  end.

Fixpoint no_upper (s : string) : bool :=
  match s with
  | EmptyString => true
  | String c s' => negb (is_upper c) && no_upper s'
  end.

(** ** The data source client *)

(** The exceptions the [except] clauses of the client name. *)
Definition caught (e : exn) : Prop :=
  match e with
  | JSONDecodeError | HTTPError _ => True
  | _ => False
  end.

(** The next requests for [url], issued after [history], meet [outcomes]
    in this order. *)
Fixpoint plays (http_get : list string -> string -> get_outcome) (url : string)
    (history : list string) (outcomes : list get_outcome) : Prop :=
  match outcomes with
  | [] => True
  | o :: rest => http_get history url = o /\ plays http_get url (history ++ [url]) rest
  end.

(** What a failed attempt leaves behind: after a JSON-decode failure,
    three log messages and the URL as one more line of the error file;
    after an HTTP error, two log messages and no change to any file. *)
Definition json_failure_effect (url error_file : string) (w w' : world) : Prop :=
  logs w' = logs w ++ ["Failed to parse: " +:+ url; "Export error file.";
                       "Retrying request."] /\
  files w' = <[error_file +:+ ".txt" :=
                 default "" (files w !! (error_file +:+ ".txt")) +:+ (url +:+ newline)]>
               (files w) /\
  requests w' = requests w ++ [url].

Definition http_failure_effect (url msg : string) (w w' : world) : Prop :=
  logs w' = logs w ++ ["HTTP error: " +:+ msg; "Retrying request."] /\
  files w' = files w /\
  requests w' = requests w ++ [url].

(** An attempt (the body of a retry loop, for the request [url] and the
    error file [error_file]) goes on to the next pass of the loop, its
    local variable untouched, when the request raises one of the two
    caught exceptions. *)
Definition retries_on_failure {S : Type}
    (http_get : list string -> string -> get_outcome)
    (attempt : S -> M (ctl * S)) (url error_file : string) : Prop :=
  forall (local : S) (w : world),
    (http_get (requests w) url = GetRaises JSONDecodeError ->
       exists w', attempt local w = (Ok (Continue, local), w') /\
                  json_failure_effect url error_file w w') /\
    (forall msg, http_get (requests w) url = GetRaises (HTTPError msg) ->
       exists w', attempt local w = (Ok (Continue, local), w') /\
                  http_failure_effect url msg w w').

(** The lines of a text: the pieces its line feeds end. *)
Fixpoint text_lines_from (s : string) (line : string) : list string :=
  match s with
  | EmptyString => match line with EmptyString => [] | _ => [line] end
  | String c s' =>
      if Ascii.eqb c (ascii_of_nat 10) then line :: text_lines_from s' EmptyString
      else text_lines_from s' (line +:+ String c EmptyString)
  end.

Definition text_lines (s : string) : list string := text_lines_from s EmptyString.

Fixpoint one_line (s : string) : bool :=
  match s with
  | EmptyString => true
  | String c s' => negb (Ascii.eqb c (ascii_of_nat 10)) && one_line s'
  end.

(** The number of lines of a file of the world; an absent file has
    none. *)
Definition file_line_count (w : world) (path : string) : nat :=
  match files w !! path with
  | Some s => length (text_lines s)
  | None => O
  end.

(** What the specification says of a fetch of submissions whose first
    two requests fail with caught errors and whose third one is
    answered: the payload comes back and the error file, absent before,
    has two lines. *)
Definition two_failures_two_lines (http_get : list string -> string -> get_outcome)
    (json_loads : string -> option json) (self : CollectRedditPSIOData)
    (query subreddit before_date after_date : string) (w : world) : Prop :=
  forall (e1 e2 : exn) (r : response) (payload : json),
    caught e1 -> caught e2 ->
    plays http_get (submissions_url self query subreddit before_date after_date)
      (requests w) [GetRaises e1; GetRaises e2; Responded r] ->
    json_loads (text r) = Some payload ->
    files w !! "submissions_error.txt" = None ->
    exists w',
      get_submissions http_get json_loads self query subreddit before_date after_date 2 w
        = (Ok payload, w') /\
      file_line_count w' "submissions_error.txt" = 2%nat.


(** What can make an attempt of the comment-id lookup fail and be
    retried: a caught exception of the request, or a body that does not
    decode. *)
Definition lookup_fails (json_loads : string -> option json) (o : get_outcome) : Prop :=
  match o with
  | GetRaises e => caught e
  | Responded r => json_loads (text r) = None
  end.



(** ** The day buckets *)

(** What the specification says of the day buckets of every range of
    dates: the timestamps are strictly increasing. *)
Definition days_strictly_increasing (utcoffset : Z -> Z) (start_date end_date : date)
    : Prop :=
  exists stamps : list Z,
    make_date_range utcoffset start_date end_date = Ok (map str_of_Z stamps) /\
    forall (i : nat) (a b : Z),
      stamps !! i = Some a -> stamps !! S i = Some b -> a < b.

(** ** The retrieval driver *)

(** The windows of a day-bucket list: its pairs of neighbours. *)
Fixpoint consecutive {A : Type} (xs : list A) : list (A * A) :=
  match xs with
  | a :: (b :: _) as rest => (a, b) :: consecutive rest
  | _ => []
  end.

(** [chain R xs w w' cs]: starting in [w], one step [R x] for each [x] of
    [xs], in order, leads to [w']; [cs] are the calls the steps make. *)
Inductive chain {A : Type} (R : A -> world -> world -> list call -> Prop)
    : list A -> world -> world -> list call -> Prop :=
| chain_nil (w : world) : chain R [] w w []
| chain_cons (x : A) (xs : list A) (w w1 w2 : world) (cs1 cs2 : list call) :
    R x w w1 cs1 -> chain R xs w1 w2 cs2 -> chain R (x :: xs) w w2 (cs1 ++ cs2).

Definition is_submissions_fetch (c : call) : bool :=
  match c with
  | CallGetSubmissions _ _ _ _ => true
  | _ => false
  end.

Fixpoint count_calls (p : call -> bool) (cs : list call) : nat :=
  match cs with
  | [] => O
  | c :: cs' => ((if p c then 1 else 0) + count_calls p cs')%nat
  end.

Section Schedule.

Variable http_get : list string -> string -> get_outcome.
Variable json_dumps : json -> string.
Variable json_loads : string -> option json.
Variable py_repr : json -> string.

(** What the driver does for one submission id, as the specification
    tells it: fetch the comment-id mapping and persist it; then, when
    the first comment id of the mapping is not "N/A", fetch the comments
    and persist them. *)
Inductive submission_steps (curr_datetime : string) (sub_id : json)
    : world -> world -> list call -> Prop :=
| steps_with_comments (w w1 w2 w3 w4 : world) (mapping ids : list json)
    (first comments comments_data : json) :
    get_comments_id_from_submissions_id http_get json_loads py_repr
      CollectRedditPSIOData_init sub_id 1 w = (Ok mapping, w1) ->
    build_json_file json_dumps json_loads (JArr mapping)
      ("submission_id_to_comment_id_" +:+ curr_datetime) w1 = (Ok tt, w2) ->
    res_all (fun comment => py_getitem comment "comment_id") mapping = Ok ids ->
    ids !! 0%nat = Some first ->
    first <> JStr "N/A" ->
    get_comments http_get json_loads CollectRedditPSIOData_init ids 1 w2
      = (Ok comments, w3) ->
    py_getitem comments "data" = Ok comments_data ->
    build_json_file json_dumps json_loads comments_data
      ("comments_" +:+ curr_datetime) w3 = (Ok tt, w4) ->
    submission_steps curr_datetime sub_id w w4
      [CallGetCommentIds sub_id;
       CallBuildJson (JArr mapping) ("submission_id_to_comment_id_" +:+ curr_datetime);
       CallGetComments ids;
       CallBuildJson comments_data ("comments_" +:+ curr_datetime)]
| steps_without_comments (w w1 w2 : world) (mapping ids : list json) (first : json) :
    get_comments_id_from_submissions_id http_get json_loads py_repr
      CollectRedditPSIOData_init sub_id 1 w = (Ok mapping, w1) ->
    build_json_file json_dumps json_loads (JArr mapping)
      ("submission_id_to_comment_id_" +:+ curr_datetime) w1 = (Ok tt, w2) ->
    res_all (fun comment => py_getitem comment "comment_id") mapping = Ok ids ->
    ids !! 0%nat = Some first ->
    first = JStr "N/A" ->
    submission_steps curr_datetime sub_id w w2
      [CallGetCommentIds sub_id;
       CallBuildJson (JArr mapping) ("submission_id_to_comment_id_" +:+ curr_datetime)].

(** What the driver does for one window: fetch the submissions between
    the two timestamps, persist them, extract their ids and work through
    the ids in order. *)
Inductive window_steps (curr_datetime query subreddit : string)
    (window : string * string) : world -> world -> list call -> Prop :=
| steps_window (w w1 w2 w3 : world) (submissions submissions_data : json)
    (submission_list subs_id : list json) (cs : list call) :
    get_submissions http_get json_loads CollectRedditPSIOData_init
      query subreddit (fst window) (snd window) 1 w = (Ok submissions, w1) ->
    py_getitem submissions "data" = Ok submissions_data ->
    build_json_file json_dumps json_loads submissions_data
      ("submissions_" +:+ curr_datetime) w1 = (Ok tt, w2) ->
    py_iter submissions_data = Ok submission_list ->
    res_all (fun submission_id => py_getitem submission_id "id") submission_list
      = Ok subs_id ->
    chain (submission_steps curr_datetime) subs_id w2 w3 cs ->
    window_steps curr_datetime query subreddit window w w3
      (CallGetSubmissions query subreddit (fst window) (snd window)
       :: CallBuildJson submissions_data ("submissions_" +:+ curr_datetime)
       :: cs).

End Schedule.

(** ** The compact codec *)

(** Texts made of numeral characters only, and texts that cannot prolong
    a numeral written in front of them. *)
Fixpoint all_number_chars (s : string) : bool :=
  match s with
  | EmptyString => true
  | String c s' => CompactJson.is_number_char c && all_number_chars s'
  end.

Definition ends_numeral (rest : string) : bool :=
  match rest with
  | EmptyString => true
  | String c _ => negb (CompactJson.is_number_char c)
  end.

(** The items of an array and the fields of an object, as [dumps] writes
    them between the brackets. *)
Fixpoint dumps_items (l : list json) : string :=
  match l with
  | [] => ""
  | [x] => CompactJson.dumps x
  | x :: rest => CompactJson.dumps x +:+ "," +:+ dumps_items rest
  end.

Fixpoint dumps_fields (l : list (string * json)) : string :=
  match l with
  | [] => ""
  | [(k, v)] => CompactJson.quote k +:+ ":" +:+ CompactJson.dumps v
  | (k, v) :: rest =>
      CompactJson.quote k +:+ ":" +:+ CompactJson.dumps v +:+ "," +:+ dumps_fields rest
  end.

Definition items_size (l : list json) : nat :=
  fold_right (fun x n => json_size x + n)%nat O l.

Definition fields_size (l : list (string * json)) : nat :=
  fold_right (fun kv n => json_size (snd kv) + n)%nat O l.

(** With enough fuel, the parser reads a document back from the head of
    a text that goes on with something other than a numeral. *)
Definition reads_value (j : json) : Prop :=
  forall (fuel : nat) (rest : string),
    (2 * json_size j <= fuel)%nat ->
    ends_numeral rest = true ->
    CompactJson.parse_value fuel (CompactJson.dumps j +:+ rest) = Some (j, rest).

(** ** Sample data *)

(** Answers of the three endpoints, failures, and days of March 2020. *)

Definition two_submissions : json :=
  JArr [JObj [("id", JStr "fk3a1")]; JObj [("id", JStr "fk3b2")]].

Definition one_submission : json :=
  JArr [JObj [("id", JStr "fk4c3")]].

Definition submissions_answer : json := JObj [("data", two_submissions)].

Definition comment_ids_answer : json := JObj [("data", JArr [JStr "c1"; JStr "c2"])].

Definition comments_answer : json :=
  JObj [("data", JArr [JObj [("id", JStr "c1")]; JObj [("id", JStr "c2")]])].

Definition empty_answer : json := JObj [("data", JArr [])].

Definition bad_gateway : get_outcome := GetRaises (HTTPError "502 Bad Gateway").
Definition bad_body : get_outcome := GetRaises JSONDecodeError.

Definition march_7 : date := {| toordinal := 737491 |}.
Definition march_9 : date := {| toordinal := 737493 |}.
Definition march_10 : date := {| toordinal := 737494 |}.

Definition december_29_2011 : date := {| toordinal := 734500 |}.
Definition december_31_2011 : date := {| toordinal := 734502 |}.

(** A run over two windows: the first has two submissions, one with two
    comments and one without; the second needs a retry and is empty. *)
Definition two_window_outcomes : list get_outcome :=
  [answer submissions_answer;
   answer comment_ids_answer;
   answer comments_answer;
   answer empty_answer;
   bad_gateway;
   answer empty_answer].

(** ** Further vocabulary: files, failures, footprints *)

(** What [open(path, 'a')] followed by one [write] does to the files. *)
Definition append_line (path line : string) (fs : gmap string string)
    : gmap string string :=
  <[path := default "" (fs !! path) +:+ line]> fs.

(** [n] copies of a text, and the text of a list of lines. *)
Fixpoint repeat_text (s : string) (n : nat) : string :=
  match n with
  | O => EmptyString
  | S n' => s +:+ repeat_text s n'
  end.

Fixpoint join_lines (lines : list string) : string :=
  match lines with
  | [] => EmptyString
  | l :: rest => (l +:+ newline) +:+ join_lines rest
  end.

(** The messages a caught exception makes the client log, and the number
    of decode failures among exceptions. *)
Definition failure_messages (url : string) (e : exn) : list string :=
  match e with
  | JSONDecodeError =>
      ["Failed to parse: " +:+ url; "Export error file."; "Retrying request."]
  | HTTPError msg => ["HTTP error: " +:+ msg; "Retrying request."]
  | _ => []
  end.

Fixpoint decode_failures (es : list exn) : nat :=
  match es with
  | [] => O
  | JSONDecodeError :: rest => S (decode_failures rest)
  | _ :: rest => decode_failures rest
  end.

(** The same for the outcomes of requests of the comment-id lookup, where
    an answer whose body does not decode counts as a decode failure; and
    the number of requests that were answered. *)
Definition outcome_messages (url : string) (o : get_outcome) : list string :=
  match o with
  | GetRaises e => failure_messages url e
  | Responded _ => failure_messages url JSONDecodeError
  end.

Fixpoint outcome_decode_failures (os : list get_outcome) : nat :=
  match os with
  | [] => O
  | GetRaises JSONDecodeError :: rest => S (outcome_decode_failures rest)
  | Responded _ :: rest => S (outcome_decode_failures rest)
  | _ :: rest => outcome_decode_failures rest
  end.

Fixpoint answered (os : list get_outcome) : nat :=
  match os with
  | [] => O
  | Responded _ :: rest => S (answered rest)
  | _ :: rest => answered rest
  end.

(** What the failed attempts [es] of a retry loop (request [url], error
    file [error_file]) leave behind, from [w] to [w']. *)
Definition failures_effect (url error_file : string) (es : list exn)
    (w w' : world) : Prop :=
  logs w' = logs w ++ flat_map (failure_messages url) es /\
  files w' = Nat.iter (decode_failures es)
               (append_line (error_file +:+ ".txt") (url +:+ newline)) (files w) /\
  requests w' = requests w ++ replicate (length es) url /\
  slept w' = slept w /\ calls w' = calls w /\ today w' = today w.

(** From [w] to [w'] the world has only grown, and only inside [paths]:
    the day is the same, no file outside [paths] has changed, no file
    has gone, and the requests and the log have been added to at their
    ends. *)
Definition grows (paths : list string) (w w' : world) : Prop :=
  today w' = today w /\
  (forall p : string, p ∉ paths -> files w' !! p = files w !! p) /\
  (forall p : string, is_Some (files w !! p) -> is_Some (files w' !! p)) /\
  (exists more, requests w' = requests w ++ more) /\
  (exists more, logs w' = logs w ++ more).

(** A computation that, started on the day [curr_datetime], leaves a
    world grown inside [paths], whether it returns or raises. *)
Definition within {A : Type} (curr_datetime : string) (paths : list string)
    (m : M A) : Prop :=
  forall w : world, today w = curr_datetime -> grows paths w (snd (m w)).

(** The same without the day, for a script that runs across days: the
    world has only grown, and only in files that [allowed] holds of. *)
Definition grows_where (allowed : string -> Prop) (w w' : world) : Prop :=
  (forall p : string, ~ allowed p -> files w' !! p = files w !! p) /\
  (forall p : string, is_Some (files w !! p) -> is_Some (files w' !! p)) /\
  (exists more, requests w' = requests w ++ more) /\
  (exists more, logs w' = logs w ++ more).

(** The six files a run of the driver started on the day [curr_datetime]
    can write. *)
Definition driver_files (curr_datetime : string) : list string :=
  [("submissions_" +:+ curr_datetime) +:+ ".json";
   ("submission_id_to_comment_id_" +:+ curr_datetime) +:+ ".json";
   ("comments_" +:+ curr_datetime) +:+ ".json";
   "submissions_error" +:+ ".txt";
   "submission_id_error" +:+ ".txt";
   "comment_error" +:+ ".txt"].

(** The files of the driver for the days a clock can show. *)
Definition script_files (clock : list string -> Z -> string) (p : string) : Prop :=
  exists (history : list string) (secs : Z), p ∈ driver_files (clock history secs).

(** A Python [str]. *)
Definition is_str (j : json) : bool :=
  match j with
  | JStr _ => true
  | _ => false
  end.

Fixpoint join_strings (sep : string) (ss : list string) : string :=
  match ss with
  | [] => EmptyString
  | [s] => s
  | s :: rest => s +:+ sep +:+ join_strings sep rest
  end.

(** What the failed attempts of the comment-id lookup leave behind: as
    for the searches, and one sleep for every request that was
    answered. *)
Definition lookup_effect (url error_file : string) (delay : Z) (os : list get_outcome)
    (w w' : world) : Prop :=
  logs w' = logs w ++ flat_map (outcome_messages url) os /\
  files w' = Nat.iter (outcome_decode_failures os)
               (append_line (error_file +:+ ".txt") (url +:+ newline)) (files w) /\
  requests w' = requests w ++ replicate (length os) url /\
  slept w' = slept w + delay * Z.of_nat (answered os) /\
  calls w' = calls w /\ today w' = today w.


(** What the comment-id lookup makes of an answer that decodes: the pairs
    for the elements of its "data". *)
Definition pairs_of_body (submission_id body : json) : res (list json) :=
  res_bind (py_getitem body "data")
    (fun data => res_bind (py_iter data)
       (fun comment_ids => Ok (map (id_pair submission_id) comment_ids))).

(** * Properties *)

(** ** The file exporter *)

Lemma json_size_singleton (j : json) : json_size (JArr [j]) = S (json_size j + 0).
Proof. reflexivity. Qed.

Lemma singleton_array_differs (j : json) : JArr [j] <> j.
Proof.
  intros H. apply (f_equal json_size) in H.
  rewrite json_size_singleton in H. lia.
Qed.

Section ExporterProperties.

Variable json_dumps : json -> string.
Variable json_loads : string -> option json.

Local Abbreviation export := (build_json_file json_dumps json_loads).
Local Abbreviation reads_back := (faithful json_dumps json_loads).

(** The first export: the file absent, the payload goes in as it is. *)
Lemma export_absent (new_data : json) (name : string) (w : world) :
  files w !! (name +:+ ".json") = None ->
  export new_data name w =
    (Ok tt,
     set_files (insert (name +:+ ".json") (json_dumps new_data))
       (add_call (CallBuildJson new_data name) w)).
Proof.
  intros Habsent.
  unfold build_json_file, bind, modify, os_path_exists, gets, json_dump; simpl.
  rewrite Habsent. reflexivity.
Qed.

(** A later export: the file holds an array, the payload goes behind
    its elements. *)
Lemma export_present_array (new_data : json) (name : string) (w : world)
    (s : string) (old : list json) :
  files w !! (name +:+ ".json") = Some s ->
  json_loads s = Some (JArr old) ->
  export new_data name w =
    (Ok tt,
     set_files (insert (name +:+ ".json") (json_dumps (JArr (old ++ [new_data]))))
       (add_call (CallBuildJson new_data name) w)).
Proof.
  intros Hfile Hparse.
  unfold build_json_file, bind, modify, os_path_exists, gets, json_load, json_dump, lift;
    simpl.
  repeat (rewrite ?Hfile, ?Hparse; simpl). reflexivity.
Qed.

(** A later export onto a document that is no array: [append] is
    missing, and the file stays as it was. *)
Lemma export_present_other (new_data : json) (name : string) (w : world)
    (s : string) (doc : json) :
  files w !! (name +:+ ".json") = Some s ->
  json_loads s = Some doc ->
  (forall items, doc <> JArr items) ->
  export new_data name w =
    (Raise (AttributeError "append"), add_call (CallBuildJson new_data name) w).
Proof.
  intros Hfile Hparse Hdoc.
  unfold build_json_file, bind, modify, os_path_exists, gets, json_load, json_dump, lift;
    simpl.
  repeat (rewrite ?Hfile, ?Hparse; simpl).
  destruct doc; try reflexivity. exfalso. eapply Hdoc. reflexivity.
Qed.

Lemma parsed_file_insert (w : world) (path : string) (j : json) :
  reads_back j ->
  parsed_file json_loads (set_files (insert path (json_dumps j)) w) path = Some j.
Proof.
  intros Hj. unfold parsed_file; simpl. rewrite lookup_insert_eq. exact Hj.
Qed.

(** C4 (as amended).  Exporting a payload under a name whose file does
    not exist succeeds and creates the file with the serialised payload
    itself as its whole contents; every other file is left alone.  When
    the codec reads the payload back, the new file parses to the
    payload, and so never to a one-element array holding the payload. *)
Theorem build_json_file_creates_payload_document :
  forall (new_data : json) (name : string) (w : world),
    files w !! (name +:+ ".json") = None ->
    exists w',
      export new_data name w = (Ok tt, w') /\
      files w' = <[name +:+ ".json" := json_dumps new_data]> (files w) /\
      (reads_back new_data ->
         parsed_file json_loads w' (name +:+ ".json") = Some new_data /\
         parsed_file json_loads w' (name +:+ ".json") <> Some (JArr [new_data])).
Proof.
  intros new_data name w Habsent.
  eexists. split; [apply export_absent; exact Habsent |].
  split; [reflexivity |].
  intros Hback.
  rewrite parsed_file_insert by exact Hback.
  split; [reflexivity |].
  intros Heq. injection Heq as Heq. symmetry in Heq.
  exact (singleton_array_differs new_data Heq).
Qed.

(** C5 (as amended).  Two payloads exported in a row under a name whose
    file does not exist: when the first payload is an array, both
    exports succeed and the file parses to the elements of the first
    payload followed by the second payload as one more element; when
    the first payload is no array, the second export raises and the
    file still holds the first payload alone. *)
Theorem build_json_file_twice :
  forall (first second : json) (name : string) (w : world),
    files w !! (name +:+ ".json") = None ->
    reads_back first ->
    (forall items,
        first = JArr items ->
        reads_back (JArr (items ++ [second])) ->
        exists w1 w2,
          export first name w = (Ok tt, w1) /\
          export second name w1 = (Ok tt, w2) /\
          parsed_file json_loads w2 (name +:+ ".json")
            = Some (JArr (items ++ [second])) /\
          length (items ++ [second]) = S (length items)) /\
    ((forall items, first <> JArr items) ->
        exists w1 w2,
          export first name w = (Ok tt, w1) /\
          export second name w1 = (Raise (AttributeError "append"), w2) /\
          parsed_file json_loads w2 (name +:+ ".json") = Some first).
Proof.
  intros first second name w Habsent Hfirst.
  pose proof (export_absent first name w Habsent) as Hone.
  set (w1 := set_files (insert (name +:+ ".json") (json_dumps first))
               (add_call (CallBuildJson first name) w)) in *.
  assert (Hfile : files w1 !! (name +:+ ".json") = Some (json_dumps first)).
  { subst w1; simpl. apply lookup_insert_eq. }
  split.
  - intros items -> Hback.
    exists w1. eexists. split; [exact Hone |].
    split; [eapply export_present_array; [exact Hfile | exact Hfirst] |].
    split; [apply parsed_file_insert; exact Hback |].
    rewrite length_app; simpl. lia.
  - intros Hother.
    exists w1. eexists. split; [exact Hone |].
    split; [eapply export_present_other; [exact Hfile | exact Hfirst | exact Hother] |].
    unfold parsed_file; simpl. subst w1; simpl.
    rewrite lookup_insert_eq. exact Hfirst.
Qed.

(** C9.  Exporting a payload under a name whose file exists and parses
    to an array succeeds; afterwards the file parses to an array that is
    one element longer, starts with the elements it had, in their
    order, and ends with the payload.  No other file changes, and
    neither do the log, the request history and the clock. *)
Theorem build_json_file_appends_one :
  forall (new_data : json) (name : string) (w : world) (s : string)
         (old : list json),
    files w !! (name +:+ ".json") = Some s ->
    json_loads s = Some (JArr old) ->
    reads_back (JArr (old ++ [new_data])) ->
    exists w' items,
      export new_data name w = (Ok tt, w') /\
      parsed_file json_loads w' (name +:+ ".json") = Some (JArr items) /\
      length items = S (length old) /\
      firstn (length old) items = old /\
      nth_error items (length old) = Some new_data /\
      (forall path, path <> name +:+ ".json" -> files w' !! path = files w !! path) /\
      logs w' = logs w /\ requests w' = requests w /\
      slept w' = slept w /\ today w' = today w.
Proof.
  intros new_data name w s old Hfile Hparse Hback.
  eexists. exists (old ++ [new_data]).
  split; [eapply export_present_array; eassumption |].
  split; [apply parsed_file_insert; exact Hback |].
  split; [rewrite length_app; simpl; lia |].
  split; [rewrite firstn_app, Nat.sub_diag, firstn_all; simpl; apply app_nil_r |].
  split; [rewrite nth_error_app2 by lia; rewrite Nat.sub_diag; reflexivity |].
  split; [| repeat split].
  intros path Hpath; simpl. apply lookup_insert_ne. congruence.
Qed.

End ExporterProperties.

(** ** The source selector *)

Lemma lower_ascii_same_letter (c d : ascii) :
  is_upper d = false -> Ascii.eqb (lower_ascii c) d = same_letter c d.
Proof.
  intros Hd. unfold same_letter. rewrite Hd, orb_false_r.
  unfold lower_ascii, is_upper in *.
  pose proof (nat_ascii_bounded c) as Hc.
  destruct ((65 <=? nat_of_ascii c)%nat && (nat_of_ascii c <=? 90)%nat) eqn:Hup.
  - apply andb_true_iff in Hup as [H1 H2].
    apply Nat.leb_le in H1, H2.
    assert (Hne : Ascii.eqb c d = false).
    { apply Ascii.eqb_neq. intros ->.
      apply Nat.leb_le in H1, H2. rewrite H1, H2 in Hd. discriminate. }
    rewrite Hne. simpl.
    destruct (Nat.eqb_spec (nat_of_ascii d) (nat_of_ascii c + 32)) as [E | E].
    + apply Ascii.eqb_eq. rewrite <- E. apply ascii_nat_embedding.
    + apply Ascii.eqb_neq. intros E'. apply E. rewrite <- E'.
      rewrite nat_ascii_embedding; lia.
  - simpl. rewrite orb_false_r. reflexivity.
Qed.

Lemma lower_eqb_ignore_case (key lit : string) :
  no_upper lit = true -> String.eqb (lower key) lit = eq_ignore_case key lit.
Proof.
  revert lit. induction key as [| c key IH]; intros [| d lit] Hlit; simpl; try reflexivity.
  simpl in Hlit. apply andb_true_iff in Hlit as [Hd Hlit].
  apply negb_true_iff in Hd.
  rewrite lower_ascii_same_letter by exact Hd.
  rewrite IH by exact Hlit.
  destruct (same_letter c d); reflexivity.
Qed.

(** C7.  The selector returns a freshly constructed client (delay 2,
    page size 500) exactly for the keys that are "reddit-historical" up
    to letter case, and [None] for every other key. *)
Theorem get_data_source_by_key :
  forall key : string,
    get_data_source key =
      if eq_ignore_case key "reddit-historical"
      then Some CollectRedditPSIOData_init
      else None.
Proof.
  intros key. unfold get_data_source.
  rewrite lower_eqb_ignore_case by reflexivity. reflexivity.
Qed.

Example get_data_source_mixed_case :
  get_data_source "Reddit-HISTORICAL" = Some {| time_delay := 2; number_results := 500 |}.
Proof. reflexivity. Qed.

Example get_data_source_other_key :
  get_data_source "reddit-live" = None.
Proof. reflexivity. Qed.

(** ** Lines of text *)

Lemma append_assoc_string (a b c : string) : (a +:+ b) +:+ c = a +:+ (b +:+ c).
Proof.
  induction a as [| x a IH]; [reflexivity |].
  change (String x ((a +:+ b) +:+ c) = String x (a +:+ (b +:+ c))).
  f_equal. exact IH.
Qed.

Lemma append_empty_l (a : string) : EmptyString +:+ a = a.
Proof. reflexivity. Qed.

Lemma append_empty_r (a : string) : a +:+ EmptyString = a.
Proof.
  induction a as [| x a IH]; [reflexivity |].
  change (String x (a +:+ EmptyString) = String x a). f_equal. exact IH.
Qed.

Lemma text_lines_from_cons (c : ascii) (s line : string) :
  text_lines_from (String c s) line
  = if Ascii.eqb c (ascii_of_nat 10) then line :: text_lines_from s EmptyString
    else text_lines_from s (line +:+ String c EmptyString).
Proof. reflexivity. Qed.

Lemma text_lines_from_line (u rest line : string) :
  one_line u = true ->
  text_lines_from (u +:+ newline +:+ rest) line
  = (line +:+ u) :: text_lines_from rest EmptyString.
Proof.
  revert line. induction u as [| c u IH]; intros line Hu.
  - change (EmptyString +:+ newline +:+ rest) with (String (ascii_of_nat 10) rest).
    rewrite text_lines_from_cons, append_empty_r. reflexivity.
  - simpl in Hu. apply andb_true_iff in Hu as [Hc Hu].
    apply negb_true_iff in Hc.
    change (String c u +:+ newline +:+ rest) with (String c (u +:+ newline +:+ rest)).
    rewrite text_lines_from_cons, Hc.
    rewrite IH by exact Hu. rewrite append_assoc_string. reflexivity.
Qed.

Lemma text_lines_two (u : string) :
  one_line u = true ->
  text_lines ((u +:+ newline) +:+ (u +:+ newline)) = [u; u].
Proof.
  intros Hu. unfold text_lines.
  rewrite append_assoc_string.
  rewrite text_lines_from_line by exact Hu.
  replace (u +:+ newline) with (u +:+ newline +:+ EmptyString)
    by (rewrite (append_empty_r newline); reflexivity).
  rewrite text_lines_from_line by exact Hu. reflexivity.
Qed.
(** ** The data source client *)

Section ClientProperties.

Variable http_get : list string -> string -> get_outcome.
Variable json_loads : string -> option json.
Variable py_repr : json -> string.

(** *** One attempt *)

Section Attempt.

Context {S : Type} (rest : response -> M (ctl * S)).
Variables (url error_file : string) (local : S).

Local Abbreviation attempt :=
  (try_catch (r <- requests_get http_get url ;; rest r) (on_error url error_file local)).

Lemma attempt_json_failure (w : world) :
  http_get (requests w) url = GetRaises JSONDecodeError ->
  exists w',
    attempt w = (Ok (Continue, local), w') /\
    json_failure_effect url error_file w w' /\
    slept w' = slept w /\ calls w' = calls w /\ today w' = today w.
Proof.
  intros Hget. unfold try_catch, bind, requests_get. rewrite Hget. simpl.
  eexists. split; [reflexivity |].
  unfold json_failure_effect; simpl.
  repeat split.
  - rewrite <- !app_assoc. reflexivity.
  - destruct (files w !! (error_file +:+ ".txt")); reflexivity.
Qed.

Lemma attempt_http_failure (w : world) (msg : string) :
  http_get (requests w) url = GetRaises (HTTPError msg) ->
  exists w',
    attempt w = (Ok (Continue, local), w') /\
    http_failure_effect url msg w w' /\
    slept w' = slept w /\ calls w' = calls w /\ today w' = today w.
Proof.
  intros Hget. unfold try_catch, bind, requests_get. rewrite Hget. simpl.
  eexists. split; [reflexivity |].
  unfold http_failure_effect; simpl.
  repeat split. rewrite <- !app_assoc. reflexivity.
Qed.

Lemma attempt_retries_on_failure (w : world) :
  (http_get (requests w) url = GetRaises JSONDecodeError ->
     exists w', attempt w = (Ok (Continue, local), w') /\
                json_failure_effect url error_file w w') /\
  (forall msg, http_get (requests w) url = GetRaises (HTTPError msg) ->
     exists w', attempt w = (Ok (Continue, local), w') /\
                http_failure_effect url msg w w').
Proof.
  split.
  - intros Hget. destruct (attempt_json_failure w Hget) as (w' & ? & ? & _). eauto.
  - intros msg Hget. destruct (attempt_http_failure w msg Hget) as (w' & ? & ? & _). eauto.
Qed.

(** A caught exception of the request: on to the next pass, one more
    request in the history. *)
Lemma attempt_caught (w : world) (e : exn) :
  caught e ->
  http_get (requests w) url = GetRaises e ->
  exists w',
    attempt w = (Ok (Continue, local), w') /\
    requests w' = requests w ++ [url] /\ calls w' = calls w /\ today w' = today w.
Proof.
  intros He Hget. destruct e; try contradiction.
  - destruct (attempt_json_failure w Hget) as (w' & ? & (_ & _ & ?) & _ & ? & ?). eauto.
  - destruct (attempt_http_failure w _ Hget) as (w' & ? & (_ & _ & ?) & _ & ? & ?). eauto.
Qed.

End Attempt.

Lemma submissions_attempt_retries (self : CollectRedditPSIOData)
    (query subreddit before_date after_date : string) :
  retries_on_failure http_get
    (submissions_attempt http_get self query subreddit before_date after_date)
    (submissions_url self query subreddit before_date after_date)
    "submissions_error".
Proof. intros local w. apply attempt_retries_on_failure. Qed.

Lemma comment_ids_attempt_retries (self : CollectRedditPSIOData) (submission_id : json) :
  retries_on_failure http_get
    (comment_ids_attempt http_get json_loads py_repr self submission_id)
    (comment_ids_url py_repr submission_id)
    "submission_id_error".
Proof. intros local w. apply attempt_retries_on_failure. Qed.

Lemma comments_attempt_retries (self : CollectRedditPSIOData) (strings_comments : string) :
  retries_on_failure http_get
    (comments_attempt http_get self strings_comments)
    (comments_url strings_comments)
    "comment_error".
Proof. intros local w. apply attempt_retries_on_failure. Qed.

(** The comment-id lookup decodes the body inside its [try]: a body that
    does not decode is handled like a decode failure of the request,
    after the sleep. *)
Lemma comment_ids_attempt_bad_body (self : CollectRedditPSIOData) (submission_id : json)
    (acc : list json) (w : world) (r : response) :
  http_get (requests w) (comment_ids_url py_repr submission_id) = Responded r ->
  json_loads (text r) = None ->
  exists w',
    comment_ids_attempt http_get json_loads py_repr self submission_id acc w
      = (Ok (Continue, acc), w') /\
    json_failure_effect (comment_ids_url py_repr submission_id) "submission_id_error" w w' /\
    slept w' = slept w + time_delay self /\ calls w' = calls w /\ today w' = today w.
Proof.
  intros Hget Hbody.
  unfold comment_ids_attempt, try_catch, bind, requests_get, lift, response_json.
  rewrite Hget. simpl. rewrite Hbody. simpl.
  eexists. split; [reflexivity |].
  unfold json_failure_effect; simpl.
  repeat split.
  - rewrite <- !app_assoc. reflexivity.
  - destruct (files w !! ("submission_id_error" +:+ ".txt")); reflexivity.
Qed.

(** A request that is answered ends the loops of the two searches. *)
Lemma submissions_attempt_answered (self : CollectRedditPSIOData)
    (query subreddit before_date after_date : string)
    (local : option response) (w : world) (r : response) :
  http_get (requests w) (submissions_url self query subreddit before_date after_date)
    = Responded r ->
  submissions_attempt http_get self query subreddit before_date after_date local w
    = (Ok (Break, Some r),
       add_sleep (time_delay self)
         (add_request (submissions_url self query subreddit before_date after_date) w)).
Proof.
  intros Hget. unfold submissions_attempt, try_catch, bind, requests_get.
  rewrite Hget. reflexivity.
Qed.

Lemma comments_attempt_answered (self : CollectRedditPSIOData) (strings_comments : string)
    (local : option response) (w : world) (r : response) :
  http_get (requests w) (comments_url strings_comments) = Responded r ->
  comments_attempt http_get self strings_comments local w
    = (Ok (Break, Some r),
       add_sleep (time_delay self) (add_request (comments_url strings_comments) w)).
Proof.
  intros Hget. unfold comments_attempt, try_catch, bind, requests_get.
  rewrite Hget. reflexivity.
Qed.

Lemma comment_ids_attempt_answered (self : CollectRedditPSIOData) (submission_id : json)
    (acc : list json) (w : world) (r : response) (body : json) (comment_ids : list json) :
  http_get (requests w) (comment_ids_url py_repr submission_id) = Responded r ->
  json_loads (text r) = Some body ->
  py_getitem body "data" = Ok (JArr comment_ids) ->
  comment_ids_attempt http_get json_loads py_repr self submission_id acc w
    = (Ok (Break, acc ++ map (id_pair submission_id) comment_ids),
       add_sleep (time_delay self)
         (add_request (comment_ids_url py_repr submission_id) w)).
Proof.
  intros Hget Hbody Hdata.
  unfold comment_ids_attempt, try_catch, bind, requests_get, lift, response_json.
  rewrite Hget. simpl. rewrite Hbody. simpl. rewrite Hdata. reflexivity.
Qed.

(** *** The retry loop *)

Lemma plays_app (url : string) (history : list string) (os1 os2 : list get_outcome) :
  plays http_get url history (os1 ++ os2) <->
  plays http_get url history os1 /\
  plays http_get url (history ++ replicate (length os1) url) os2.
Proof.
  revert history. induction os1 as [| o os1 IH]; intros history; simpl.
  - rewrite app_nil_r. tauto.
  - rewrite IH, <- app_assoc. simpl. tauto.
Qed.

Section RetryLoop.

Context {S : Type} (attempt : S -> M (ctl * S)).
Variable url : string.
Variable fails : get_outcome -> Prop.

Hypothesis attempt_fails :
  forall (local : S) (w : world),
    fails (http_get (requests w) url) ->
    exists w',
      attempt local w = (Ok (Continue, local), w') /\
      requests w' = requests w ++ [url].

(** The passes that fail are skipped: the loop goes on with the passes
    that are left, the local variable as it was. *)
Lemma retry_loop_skips (os : list get_outcome) :
  forall (xs : list nat) (local : S) (w : world),
    Forall fails os ->
    plays http_get url (requests w) os ->
    (length os <= length xs)%nat ->
    exists w',
      for_loop xs (fun _ => attempt) local w
        = for_loop (drop (length os) xs) (fun _ => attempt) local w' /\
      requests w' = requests w ++ replicate (length os) url.
Proof.
  induction os as [| o os IH]; intros xs local w Hfail Hplay Hlen.
  - exists w. simpl. rewrite drop_0, app_nil_r. auto.
  - destruct xs as [| x xs].
    + simpl in Hlen. lia.
    + inversion Hfail as [| ? ? Ho Hos]; subst.
      destruct Hplay as [Hget Hplay].
      rewrite <- Hget in Ho.
      destruct (attempt_fails local w Ho) as (w1 & Hrun & Hreq).
      rewrite <- Hreq in Hplay.
      destruct (IH xs local w1 Hos Hplay) as (w' & Hloop & Hreq');
        [simpl in Hlen; lia |].
      exists w'. split.
      * simpl. unfold bind at 1. rewrite Hrun. simpl. exact Hloop.
      * rewrite Hreq', Hreq, <- app_assoc. reflexivity.
Qed.

End RetryLoop.



Lemma comment_ids_attempt_fails (self : CollectRedditPSIOData) (submission_id : json)
    (acc : list json) (w : world) :
  lookup_fails json_loads (http_get (requests w) (comment_ids_url py_repr submission_id)) ->
  exists w',
    comment_ids_attempt http_get json_loads py_repr self submission_id acc w
      = (Ok (Continue, acc), w') /\
    requests w' = requests w ++ [comment_ids_url py_repr submission_id].
Proof.
  intros Hfail.
  destruct (http_get _ _) as [r | e] eqn:Hget.
  - destruct (comment_ids_attempt_bad_body self submission_id acc w r Hget Hfail)
      as (w' & ? & (_ & _ & ?) & _).
    eauto.
  - unfold comment_ids_attempt.
    match goal with
    | |- context [try_catch (r <- requests_get http_get ?u ;; @?k r) (on_error ?u ?f ?l)] =>
        destruct (attempt_caught k u f l w e Hfail Hget) as (w' & ? & ? & _)
    end.
    eauto.
Qed.


Lemma py_range_length (n : Z) : length (py_range n) = Z.to_nat n.
Proof. apply length_seq. Qed.

(** *** Every attempt fails *)





(** *** Failures, then an answer *)

Lemma py_range_drop (n : Z) (k : nat) :
  (k < Z.to_nat n)%nat -> drop k (py_range n) = k :: drop (S k) (py_range n).
Proof.
  intros Hk. apply drop_S. unfold py_range. apply lookup_seq_lt. exact Hk.
Qed.

Lemma get_comment_ids_never_empty (self : CollectRedditPSIOData) (submission_id : json)
    (num_retries : Z) (w w' : world) (pairs : list json) :
  get_comments_id_from_submissions_id http_get json_loads py_repr self submission_id
    num_retries w = (Ok pairs, w') ->
  pairs <> [].
Proof.
  unfold get_comments_id_from_submissions_id, bind, modify.
  destruct (for_loop _ _ _ _) as [[acc | e] w1]; [| discriminate].
  destruct acc; simpl; unfold ret; intros H; injection H as <- _; discriminate.
Qed.

(** C3.  When the comment-id endpoint, possibly after failed attempts
    that the retry budget covers, answers with the ids [comment_ids],
    the lookup returns one pair per id, in the order of the answer: the
    i-th pair is the dict with the two keys "submission_id", bound to
    the submission id asked for, and "comment_id", bound to the i-th id.
    For an answer without ids it returns the single sentinel pair, whose
    "comment_id" is "N/A".  The list it returns is never empty. *)
Theorem get_comment_ids_pairs :
  forall (self : CollectRedditPSIOData) (submission_id : json) (num_retries : Z)
         (w : world) (os : list get_outcome) (r : response) (body : json)
         (comment_ids : list json),
    Forall (lookup_fails json_loads) os ->
    (length os < Z.to_nat (num_retries + 1))%nat ->
    plays http_get (comment_ids_url py_repr submission_id) (requests w)
      (os ++ [Responded r]) ->
    json_loads (text r) = Some body ->
    py_getitem body "data" = Ok (JArr comment_ids) ->
    exists (w' : world) (pairs : list json),
      get_comments_id_from_submissions_id http_get json_loads py_repr self
        submission_id num_retries w = (Ok pairs, w') /\
      pairs = match comment_ids with
              | [] => [JObj [("submission_id", submission_id);
                             ("comment_id", JStr "N/A")]]
              | _ :: _ =>
                  map (fun comment_id =>
                         JObj [("submission_id", submission_id);
                               ("comment_id", comment_id)])
                    comment_ids
              end /\
      (forall (i : nat) (comment_id : json),
          comment_ids !! i = Some comment_id ->
          exists pair,
            pairs !! i = Some pair /\
            py_getitem pair "submission_id" = Ok submission_id /\
            py_getitem pair "comment_id" = Ok comment_id) /\
      (comment_ids <> [] -> length pairs = length comment_ids) /\
      pairs <> [].
Proof.
  intros self submission_id num_retries w os r body comment_ids
    Hfail Hlen Hplay Hbody Hdata.
  apply plays_app in Hplay as [Hplay [Hget _]].
  destruct (retry_loop_skips
              (comment_ids_attempt http_get json_loads py_repr self submission_id)
              _ (lookup_fails json_loads) (comment_ids_attempt_fails self _)
              os (py_range (num_retries + 1)) []
              (add_call (CallGetCommentIds submission_id) w)
              Hfail Hplay) as (w1 & Hloop & Hreq).
  { rewrite py_range_length. lia. }
  rewrite py_range_drop in Hloop by exact Hlen.
  simpl in Hreq. rewrite <- Hreq in Hget.
  assert (Hrun : exists w',
    get_comments_id_from_submissions_id http_get json_loads py_repr self
      submission_id num_retries w
    = (Ok match comment_ids with
          | [] => [id_pair submission_id (JStr "N/A")]
          | _ :: _ => map (id_pair submission_id) comment_ids
          end, w')).
  { eexists. unfold get_comments_id_from_submissions_id, bind at 1, modify.
    unfold bind at 1. rewrite Hloop. simpl. unfold bind at 1.
    rewrite (comment_ids_attempt_answered self submission_id [] w1 r body comment_ids
               Hget Hbody Hdata).
    simpl. destruct comment_ids; reflexivity. }
  destruct Hrun as (w' & Hrun).
  exists w'. eexists. split; [exact Hrun |].
  split; [destruct comment_ids; reflexivity |].
  split; [| split].
  - intros i comment_id Hi.
    destruct comment_ids as [| c cs]; [discriminate Hi |].
    exists (id_pair submission_id comment_id).
    split; [| split; reflexivity].
    rewrite list_lookup_fmap, Hi. reflexivity.
  - destruct comment_ids; [congruence |]. intros _. apply length_map.
  - eapply get_comment_ids_never_empty. exact Hrun.
Qed.

(** *** Two decode failures, then an answer *)

Lemma get_submissions_third_attempt (self : CollectRedditPSIOData)
    (query subreddit before_date after_date : string) (w : world)
    (r : response) (payload : json) :
  let url := submissions_url self query subreddit before_date after_date in
  plays http_get url (requests w)
    [GetRaises JSONDecodeError; GetRaises JSONDecodeError; Responded r] ->
  json_loads (text r) = Some payload ->
  exists w',
    get_submissions http_get json_loads self query subreddit before_date after_date 2 w
      = (Ok payload, w') /\
    files w' = <["submissions_error.txt" :=
                   (default "" (files w !! "submissions_error.txt")
                      +:+ (url +:+ newline)) +:+ (url +:+ newline)]> (files w) /\
    requests w' = requests w ++ [url; url; url].
Proof.
  intros url (Hget1 & Hget2 & Hget3 & _) Hpayload.
  set (w0 := add_call (CallGetSubmissions query subreddit before_date after_date) w).
  destruct (attempt_json_failure
              (fun r => time_sleep (time_delay self) ;;; ret (Break, Some r))
              url "submissions_error" None w0 Hget1)
    as (w1 & Hrun1 & (_ & Hfiles1 & Hreq1) & _).
  change (requests w ++ [url]) with (requests w0 ++ [url]) in Hget2.
  rewrite <- Hreq1 in Hget2.
  destruct (attempt_json_failure
              (fun r => time_sleep (time_delay self) ;;; ret (Break, Some r))
              url "submissions_error" None w1 Hget2)
    as (w2 & Hrun2 & (_ & Hfiles2 & Hreq2) & _).
  change ((requests w ++ [url]) ++ [url]) with ((requests w0 ++ [url]) ++ [url]) in Hget3.
  rewrite <- Hreq1, <- Hreq2 in Hget3.
  pose proof (submissions_attempt_answered self query subreddit before_date after_date
                None w2 r Hget3) as Hrun3.
  eexists. split; [| split].
  - unfold get_submissions, bind at 1, modify. fold w0.
    change (py_range (2 + 1)) with [0%nat; 1%nat; 2%nat].
    unfold for_loop. unfold bind at 1. unfold bind at 1.
    change (submissions_attempt http_get self query subreddit before_date after_date None w0)
      with (try_catch
              (r <- requests_get http_get url ;;
               time_sleep (time_delay self) ;;; ret (Break, Some r))
              (on_error url "submissions_error" None) w0).
    rewrite Hrun1. simpl. unfold bind at 1.
    change (submissions_attempt http_get self query subreddit before_date after_date None w1)
      with (try_catch
              (r <- requests_get http_get url ;;
               time_sleep (time_delay self) ;;; ret (Break, Some r))
              (on_error url "submissions_error" None) w1).
    rewrite Hrun2. simpl. unfold bind at 1.
    fold url. rewrite Hrun3. simpl.
    unfold lift, response_json. rewrite Hpayload. reflexivity.
  - simpl. rewrite Hfiles2, Hfiles1. simpl.
    rewrite lookup_insert_eq. simpl. apply insert_insert_eq.
  - simpl. rewrite Hreq2, Hreq1. simpl. rewrite <- !app_assoc. reflexivity.
Qed.

(** C1 (as amended).  In each of the three fetch operations, an attempt
    whose request raises a JSON-decode failure logs three messages,
    appends the request URL as one line to the error file of the stage
    and passes on to the next attempt; so does, after its sleep, an
    attempt of the comment-id lookup whose answer does not decode.  An
    attempt whose request raises an HTTP error logs two messages and
    passes on to the next attempt; it writes to no file.  In particular,
    when the first two requests of a fetch of submissions called with two
    retries raise JSON-decode failures and the third is answered, the
    fetch returns the parsed answer and has added to the error file
    exactly two lines, each the request URL. *)
Theorem failed_attempts_logged :
  forall self : CollectRedditPSIOData,
    (forall query subreddit before_date after_date,
        retries_on_failure http_get
          (submissions_attempt http_get self query subreddit before_date after_date)
          (submissions_url self query subreddit before_date after_date)
          "submissions_error") /\
    (forall submission_id,
        retries_on_failure http_get
          (comment_ids_attempt http_get json_loads py_repr self submission_id)
          (comment_ids_url py_repr submission_id)
          "submission_id_error") /\
    (forall submission_id acc w r,
        http_get (requests w) (comment_ids_url py_repr submission_id) = Responded r ->
        json_loads (text r) = None ->
        exists w',
          comment_ids_attempt http_get json_loads py_repr self submission_id acc w
            = (Ok (Continue, acc), w') /\
          json_failure_effect (comment_ids_url py_repr submission_id)
            "submission_id_error" w w') /\
    (forall strings_comments,
        retries_on_failure http_get
          (comments_attempt http_get self strings_comments)
          (comments_url strings_comments)
          "comment_error") /\
    (forall query subreddit before_date after_date w r payload,
        let url := submissions_url self query subreddit before_date after_date in
        plays http_get url (requests w)
          [GetRaises JSONDecodeError; GetRaises JSONDecodeError; Responded r] ->
        json_loads (text r) = Some payload ->
        exists w',
          get_submissions http_get json_loads self query subreddit before_date
            after_date 2 w = (Ok payload, w') /\
          files w' !! "submissions_error.txt"
            = Some ((default "" (files w !! "submissions_error.txt")
                       +:+ (url +:+ newline)) +:+ (url +:+ newline)) /\
          (files w !! "submissions_error.txt" = None ->
           one_line url = true ->
           file_line_count w' "submissions_error.txt" = 2%nat)).
Proof.
  intros self.
  split; [intros; apply submissions_attempt_retries |].
  split; [intros; apply comment_ids_attempt_retries |].
  split.
  { intros submission_id acc w r Hget Hbody.
    destruct (comment_ids_attempt_bad_body self submission_id acc w r Hget Hbody)
      as (w' & ? & ? & _).
    eauto. }
  split; [intros; apply comments_attempt_retries |].
  intros query subreddit before_date after_date w r payload url Hplay Hpayload.
  destruct (get_submissions_third_attempt self query subreddit before_date after_date
              w r payload Hplay Hpayload) as (w' & Hrun & Hfiles & _).
  exists w'. split; [exact Hrun |].
  split.
  - rewrite Hfiles. apply lookup_insert_eq.
  - intros Habsent Hline. unfold file_line_count.
    rewrite Hfiles, lookup_insert_eq, Habsent. simpl default.
    rewrite append_empty_l.
    rewrite text_lines_two by exact Hline. reflexivity.
Qed.

End ClientProperties.

(** ** The day buckets *)

Section DateRangeProperties.

Variable utcoffset : Z -> Z.

Local Abbreviation stamp_of start :=
  (fun k : nat => mktime_midnight utcoffset {| toordinal := toordinal start + Z.of_nat k |}).

Lemma date_add_in_range (d : date) (n : Z) :
  1 <= toordinal d + n <= date_max_ordinal ->
  date_add d {| days := n |} = Ok {| toordinal := toordinal d + n |}.
Proof.
  intros [Hlo Hhi]. unfold date_add; simpl.
  apply Z.leb_le in Hlo, Hhi. rewrite Hlo, Hhi. reflexivity.
Qed.

Lemma make_date_range_loop (start : date) (xs : list nat) (time_stamps : list string) :
  Forall (fun k => 1 <= toordinal start + Z.of_nat k <= date_max_ordinal) xs ->
  res_loop xs
    (fun num_days time_stamps =>
       res_bind (date_add start {| days := Z.of_nat num_days |}) (fun day =>
       Ok (time_stamps ++ [str_of_Z (mktime_midnight utcoffset day)])))
    time_stamps
  = Ok (time_stamps ++ map (fun k => str_of_Z (stamp_of start k)) xs).
Proof.
  intros Hxs. revert time_stamps.
  induction Hxs as [| k xs Hk _ IH]; intros time_stamps; simpl.
  - rewrite app_nil_r. reflexivity.
  - rewrite date_add_in_range by exact Hk. simpl.
    rewrite IH, <- app_assoc. reflexivity.
Qed.

Lemma make_date_range_stamps (start_date end_date : date) :
  valid_date start_date -> valid_date end_date ->
  make_date_range utcoffset start_date end_date
  = Ok (map str_of_Z
          (map (stamp_of start_date)
             (seq 0 (Z.to_nat (toordinal end_date - toordinal start_date + 1))))).
Proof.
  intros Hs He. unfold make_date_range, py_range; simpl.
  rewrite make_date_range_loop.
  - simpl. rewrite map_map. reflexivity.
  - apply Forall_forall. intros k Hk. apply elem_of_seq in Hk.
    unfold valid_date in *. lia.
Qed.

(** C6.  For a start date and an end date N days later (N >= 0) the
    generator returns N+1 strings, the decimal numerals of N+1 UNIX
    times: the i-th is the local midnight that starts the i-th day of
    the range.  From one to the next the UNIX time grows by 86400
    seconds less what the UTC offset has gained between the two
    midnights: by exactly 86400 where the offset is the same at both,
    and it does grow exactly where the offset has gained less than a
    whole day. *)
Theorem make_date_range_days :
  forall start_date end_date : date,
    valid_date start_date -> valid_date end_date ->
    toordinal start_date <= toordinal end_date ->
    let N := toordinal end_date - toordinal start_date in
    exists stamps : list Z,
      make_date_range utcoffset start_date end_date
        = Ok (map (fun unix => NilZero.string_of_int (Z.to_int unix)) stamps) /\
      Z.of_nat (length stamps) = N + 1 /\
      (forall i : nat, Z.of_nat i <= N ->
         stamps !! i =
           Some (mktime_midnight utcoffset
                   {| toordinal := toordinal start_date + Z.of_nat i |})) /\
      (forall (i : nat) (a b : Z),
         stamps !! i = Some a -> stamps !! S i = Some b ->
         let day := toordinal start_date + Z.of_nat i in
         b - a = 86400 - (utcoffset (day + 1) - utcoffset day) /\
         (b - a = 86400 <-> utcoffset (day + 1) = utcoffset day) /\
         (a < b <-> utcoffset (day + 1) - utcoffset day < 86400)).
Proof.
  intros start_date end_date Hs He Hle N.
  exists (map (stamp_of start_date) (seq 0 (Z.to_nat (N + 1)))).
  assert (Hnth : forall i : nat, Z.of_nat i <= N ->
            map (stamp_of start_date) (seq 0 (Z.to_nat (N + 1))) !! i
            = Some (stamp_of start_date i)).
  { intros i Hi. rewrite list_lookup_fmap.
    rewrite (lookup_seq_lt 0 (Z.to_nat (N + 1)) i) by lia. reflexivity. }
  split; [| split; [| split]].
  - apply make_date_range_stamps; assumption.
  - rewrite length_map, length_seq. lia.
  - exact Hnth.
  - intros i a b Ha Hb day.
    assert (Hi : Z.of_nat (S i) <= N).
    { apply lookup_lt_Some in Hb. rewrite length_map, length_seq in Hb. lia. }
    rewrite Hnth in Ha by lia. rewrite Hnth in Hb by lia.
    injection Ha as <-. injection Hb as <-.
    unfold mktime_midnight; simpl.
    replace (toordinal start_date + Z.of_nat (S i)) with (day + 1) by (unfold day; lia).
    fold day. split; [| split]; lia.
Qed.

End DateRangeProperties.

(** Across the start of daylight saving time the UNIX times of two
    consecutive local midnights are 23 hours apart, not 24. *)
Example toronto_spring_forward :
  make_date_range tz_toronto_2020 {| toordinal := 737492 |} {| toordinal := 737493 |}
    = Ok ["1583643600"; "1583726400"] /\
  1583726400 - 1583643600 = 82800.
Proof. split; reflexivity. Qed.

(** ** The retrieval driver on one day *)

(** C10.  Started with the same date as start and as end, the driver
    computes a day-bucket list of length one and then returns with the
    world as it found it: no request issued, no call made on the client
    or on the exporter, no file created or changed, nothing logged. *)
Theorem run_reddit_psio_query_same_day :
  forall (http_get : list string -> string -> get_outcome)
         (json_dumps : json -> string) (json_loads : string -> option json)
         (py_repr : json -> string) (utcoffset : Z -> Z)
         (query subreddit : string) (day : date) (w : world),
    valid_date day ->
    (exists stamp, make_date_range utcoffset day day = Ok [stamp]) /\
    run_reddit_psio_query http_get json_dumps json_loads py_repr utcoffset
      query subreddit day day w = (Ok tt, w).
Proof.
  intros http_get json_dumps json_loads py_repr utcoffset query subreddit day w Hday.
  assert (Hrange : make_date_range utcoffset day day
                   = Ok [str_of_Z (mktime_midnight utcoffset
                                     {| toordinal := toordinal day + 0 |})]).
  { rewrite make_date_range_stamps by exact Hday.
    rewrite Z.sub_diag. reflexivity. }
  split; [eexists; exact Hrange |].
  unfold run_reddit_psio_query, bind, gets, lift. rewrite Hrange. reflexivity.
Qed.

(** ** The retrieval driver *)

Lemma consecutive_length {A : Type} (xs : list A) :
  length (consecutive xs) = (length xs - 1)%nat.
Proof.
  induction xs as [| a xs IH]; [reflexivity |].
  destruct xs as [| b xs]; [reflexivity |].
  change (consecutive (a :: b :: xs)) with ((a, b) :: consecutive (b :: xs)).
  simpl length in *. rewrite IH. lia.
Qed.

Lemma consecutive_lookup {A : Type} (xs : list A) (i : nat) (a b : A) :
  consecutive xs !! i = Some (a, b) <-> xs !! i = Some a /\ xs !! S i = Some b.
Proof.
  revert i. induction xs as [| x xs IH]; intros i.
  - simpl. split; [discriminate | intros [H _]; discriminate].
  - destruct xs as [| y xs].
    + simpl. split; [discriminate |]. intros [_ H]. discriminate.
    + change (consecutive (x :: y :: xs)) with ((x, y) :: consecutive (y :: xs)).
      destruct i as [| i].
      * simpl. split; [intros H; injection H as -> ->; auto |].
        intros [H1 H2]. congruence.
      * change (((x, y) :: consecutive (y :: xs)) !! S i)
          with (consecutive (y :: xs) !! i).
        rewrite IH. reflexivity.
Qed.

Lemma count_calls_app (p : call -> bool) (cs1 cs2 : list call) :
  count_calls p (cs1 ++ cs2) = (count_calls p cs1 + count_calls p cs2)%nat.
Proof. induction cs1 as [| c cs1 IH]; simpl; [reflexivity | rewrite IH; lia]. Qed.

Lemma chain_calls {A : Type} (R : A -> world -> world -> list call -> Prop) :
  (forall x w w' cs, R x w w' cs -> calls w' = calls w ++ cs) ->
  forall xs w w' cs, chain R xs w w' cs -> calls w' = calls w ++ cs.
Proof.
  intros HR xs w w' cs Hchain.
  induction Hchain as [w | x xs w w1 w2 cs1 cs2 Hstep _ IH].
  - rewrite app_nil_r. reflexivity.
  - rewrite IH, (HR _ _ _ _ Hstep), <- app_assoc. reflexivity.
Qed.

Lemma chain_count {A : Type} (R : A -> world -> world -> list call -> Prop)
    (p : call -> bool) (n : nat) :
  (forall x w w' cs, R x w w' cs -> count_calls p cs = n) ->
  forall xs w w' cs, chain R xs w w' cs -> count_calls p cs = (n * length xs)%nat.
Proof.
  intros HR xs w w' cs Hchain.
  induction Hchain as [w | x xs w w1 w2 cs1 cs2 Hstep _ IH].
  - simpl. lia.
  - rewrite count_calls_app, IH, (HR _ _ _ _ Hstep). simpl. lia.
Qed.

(** A loop that completes went through one step per element. *)
Lemma for_each_chain {A : Type} (R : A -> world -> world -> list call -> Prop)
    (body : A -> M unit) :
  (forall x w w', body x w = (Ok tt, w') -> exists cs, R x w w' cs) ->
  forall xs w w', for_each xs body w = (Ok tt, w') -> exists cs, chain R xs w w' cs.
Proof.
  intros Hbody xs. induction xs as [| x xs IH]; intros w w' Hrun.
  - injection Hrun as <-. exists []. constructor.
  - simpl in Hrun. unfold bind in Hrun.
    destruct (body x w) as [[[] | e] w1] eqn:Hx; [| discriminate].
    destruct (Hbody _ _ _ Hx) as (cs1 & Hstep).
    destruct (IH _ _ Hrun) as (cs2 & Hchain).
    exists (cs1 ++ cs2). econstructor; eassumption.
Qed.

(** The same for a loop over the indices of a list. *)
Lemma for_each_seq_chain {W : Type} (R : W -> world -> world -> list call -> Prop)
    (body : nat -> M unit) (ws : list W) :
  forall k : nat,
    (forall i x w w', ws !! i = Some x -> body (k + i)%nat w = (Ok tt, w') ->
                      exists cs, R x w w' cs) ->
    forall w w', for_each (seq k (length ws)) body w = (Ok tt, w') ->
                 exists cs, chain R ws w w' cs.
Proof.
  induction ws as [| x ws IH]; intros k Hbody w w' Hrun.
  - injection Hrun as <-. exists []. constructor.
  - simpl in Hrun. unfold bind in Hrun.
    destruct (body k w) as [[[] | e] w1] eqn:Hx; [| discriminate].
    destruct (Hbody 0%nat x w w1 eq_refl) as (cs1 & Hstep).
    { rewrite Nat.add_0_r. exact Hx. }
    destruct (IH (S k)) with (w := w1) (w' := w') as (cs2 & Hchain); [| exact Hrun |].
    { intros i y v v' Hy Hrun'. apply (Hbody (S i) y v v' Hy).
      rewrite Nat.add_succ_r. exact Hrun'. }
    exists (cs1 ++ cs2). econstructor; eassumption.
Qed.

Section DriverProperties.

Variable http_get : list string -> string -> get_outcome.
Variable json_dumps : json -> string.
Variable json_loads : string -> option json.
Variable py_repr : json -> string.

(** *** The ghost call log *)

Lemma for_loop_calls {A S : Type} (body : A -> S -> M (ctl * S)) :
  (forall x s w, calls (snd (body x s w)) = calls w) ->
  forall xs s w, calls (snd (for_loop xs body s w)) = calls w.
Proof.
  intros Hbody xs. induction xs as [| x xs IH]; intros s w; [reflexivity |].
  simpl. unfold bind. specialize (Hbody x s w).
  destruct (body x s w) as [[[c s'] | e] w1]; simpl in *; [| exact Hbody].
  destruct c; simpl; [rewrite IH |]; exact Hbody.
Qed.

Lemma on_error_calls {S : Type} (url error_file : string) (local : S) (e : exn)
    (w : world) :
  calls (snd (on_error url error_file local e w)) = calls w.
Proof. destruct e; reflexivity. Qed.

Lemma submissions_attempt_calls (self : CollectRedditPSIOData)
    (query subreddit before_date after_date : string) (local : option response)
    (w : world) :
  calls (snd (submissions_attempt http_get self query subreddit before_date after_date
                local w)) = calls w.
Proof.
  unfold submissions_attempt, try_catch, bind, requests_get.
  destruct (http_get _ _) as [r | e]; simpl; [reflexivity |].
  rewrite on_error_calls. reflexivity.
Qed.

Lemma comments_attempt_calls (self : CollectRedditPSIOData) (strings_comments : string)
    (local : option response) (w : world) :
  calls (snd (comments_attempt http_get self strings_comments local w)) = calls w.
Proof.
  unfold comments_attempt, try_catch, bind, requests_get.
  destruct (http_get _ _) as [r | e]; simpl; [reflexivity |].
  rewrite on_error_calls. reflexivity.
Qed.

Lemma comment_ids_attempt_calls (self : CollectRedditPSIOData) (submission_id : json)
    (acc : list json) (w : world) :
  calls (snd (comment_ids_attempt http_get json_loads py_repr self submission_id acc w))
  = calls w.
Proof.
  unfold comment_ids_attempt, try_catch, bind, requests_get, lift, response_json.
  destruct (http_get _ _) as [r | e]; simpl.
  - destruct (json_loads (text r)) as [body |]; simpl; [| reflexivity].
    destruct (py_getitem body "data") as [data | e]; simpl.
    + destruct (py_iter data) as [ids | e]; simpl; [reflexivity |].
      rewrite on_error_calls. reflexivity.
    + rewrite on_error_calls. reflexivity.
  - rewrite on_error_calls. reflexivity.
Qed.

Lemma get_submissions_calls (self : CollectRedditPSIOData)
    (query subreddit before_date after_date : string) (num_retries : Z) (w : world) :
  calls (snd (get_submissions http_get json_loads self query subreddit before_date
                after_date num_retries w))
  = calls w ++ [CallGetSubmissions query subreddit before_date after_date].
Proof.
  unfold get_submissions, bind, modify.
  pose proof (for_loop_calls
                (fun _ : nat => submissions_attempt http_get self query subreddit
                                  before_date after_date)
                (fun _ => submissions_attempt_calls self _ _ _ _)
                (py_range (num_retries + 1)) None
                (add_call (CallGetSubmissions query subreddit before_date after_date) w))
    as Hloop.
  destruct (for_loop _ _ _ _) as [[[r |] | e] w1]; simpl in *; exact Hloop.
Qed.

Lemma get_comments_calls (self : CollectRedditPSIOData) (list_comments_ids : list json)
    (num_retries : Z) (w : world) :
  calls (snd (get_comments http_get json_loads self list_comments_ids num_retries w))
  = calls w ++ [CallGetComments list_comments_ids].
Proof.
  unfold get_comments, bind, modify, lift.
  destruct (py_join "," list_comments_ids) as [strings_comments | e]; [| reflexivity].
  pose proof (for_loop_calls
                (fun _ : nat => comments_attempt http_get self strings_comments)
                (fun _ => comments_attempt_calls self _)
                (py_range (num_retries + 1)) None
                (add_call (CallGetComments list_comments_ids) w))
    as Hloop.
  destruct (for_loop _ _ _ _) as [[[r |] | e] w1]; simpl in *; exact Hloop.
Qed.

Lemma get_comment_ids_calls (self : CollectRedditPSIOData) (submission_id : json)
    (num_retries : Z) (w : world) :
  calls (snd (get_comments_id_from_submissions_id http_get json_loads py_repr self
                submission_id num_retries w))
  = calls w ++ [CallGetCommentIds submission_id].
Proof.
  unfold get_comments_id_from_submissions_id, bind, modify.
  pose proof (for_loop_calls
                (fun _ : nat => comment_ids_attempt http_get json_loads py_repr self
                                  submission_id)
                (fun _ => comment_ids_attempt_calls self _)
                (py_range (num_retries + 1)) []
                (add_call (CallGetCommentIds submission_id) w))
    as Hloop.
  destruct (for_loop _ _ _ _) as [[acc | e] w1]; simpl in *; [| exact Hloop].
  destruct acc; simpl; exact Hloop.
Qed.

Lemma build_json_file_calls (new_data : json) (name : string) (w : world) :
  calls (snd (build_json_file json_dumps json_loads new_data name w))
  = calls w ++ [CallBuildJson new_data name].
Proof.
  unfold build_json_file, bind, modify, os_path_exists, gets, json_load, json_dump, lift.
  simpl.
  destruct (files w !! (name +:+ ".json")) as [s |] eqn:Hfile; simpl;
    rewrite ?Hfile; simpl; [| reflexivity].
  destruct (json_loads s) as [doc |]; simpl; [| reflexivity].
  destruct (py_append doc new_data); reflexivity.
Qed.

Lemma calls_of_run {A : Type} (m : M A) (w w' : world) (a : res A) (cs : list call) :
  calls (snd (m w)) = calls w ++ cs -> m w = (a, w') -> calls w' = calls w ++ cs.
Proof. intros Hcalls Hrun. rewrite Hrun in Hcalls. exact Hcalls. Qed.

(** *** One submission, one window *)

Local Abbreviation one_submission_steps :=
  (submission_steps http_get json_dumps json_loads py_repr).
Local Abbreviation one_window_steps :=
  (window_steps http_get json_dumps json_loads py_repr).

(** [x != "N/A"] holds of everything but the string "N/A". *)
Lemma py_ne_str_true (j : json) (lit : string) :
  py_ne_str j lit = true <-> j <> JStr lit.
Proof.
  destruct j; simpl; try (split; [discriminate | reflexivity]).
  destruct (String.eqb_spec s lit) as [-> | Hne]; simpl.
  - split; [discriminate | intros H; contradiction H; reflexivity].
  - split; [intros _; congruence | reflexivity].
Qed.

Lemma py_ne_str_false (j : json) (lit : string) :
  py_ne_str j lit = false <-> j = JStr lit.
Proof.
  destruct j; simpl; try (split; discriminate).
  destruct (String.eqb_spec s lit) as [-> | Hne]; simpl.
  - split; reflexivity.
  - split; [discriminate | congruence].
Qed.

Lemma retrieve_comments_steps (curr_datetime : string) (sub_id : json) (w w' : world) :
  retrieve_comments http_get json_dumps json_loads py_repr
    (Some CollectRedditPSIOData_init) curr_datetime sub_id w = (Ok tt, w') ->
  exists cs, one_submission_steps curr_datetime sub_id w w' cs.
Proof.
  unfold retrieve_comments, method, bind, lift, list_getitem.
  destruct (get_comments_id_from_submissions_id _ _ _ _ _ _ w)
    as [[mapping | e] w1] eqn:Hids; [| discriminate].
  destruct (build_json_file _ _ (JArr mapping) _ w1) as [[[] | e] w2] eqn:Hsave;
    [| discriminate].
  destruct (res_all _ mapping) as [ids | e] eqn:Hextract; [| discriminate].
  destruct (ids !! 0%nat) as [first |] eqn:Hfirst; [| discriminate].
  destruct (py_ne_str first "N/A") eqn:Hna;
    [apply py_ne_str_true in Hna | apply py_ne_str_false in Hna].
  - destruct (get_comments _ _ _ ids 1 w2) as [[comments | e] w3] eqn:Hcomments;
      [| discriminate].
    destruct (py_getitem comments "data") as [comments_data | e] eqn:Hdata;
      [| discriminate].
    intros Hsave2. eexists. eapply steps_with_comments; eassumption.
  - intros Hret. injection Hret as <-.
    eexists. eapply steps_without_comments; eassumption.
Qed.

Lemma retrieve_window_steps (curr_datetime query subreddit : string)
    (date_range : list string) (idx : nat) (a b : string) (w w' : world) :
  date_range !! idx = Some a ->
  date_range !! S idx = Some b ->
  retrieve_window http_get json_dumps json_loads py_repr
    (Some CollectRedditPSIOData_init) curr_datetime query subreddit date_range idx w
    = (Ok tt, w') ->
  exists cs, one_window_steps curr_datetime query subreddit (a, b) w w' cs.
Proof.
  intros Ha Hb.
  unfold retrieve_window, method, bind, lift, list_getitem.
  rewrite Ha, Nat.add_1_r, Hb.
  destruct (get_submissions _ _ _ query subreddit a b 1 w)
    as [[submissions | e] w1] eqn:Hsubs; [| discriminate].
  destruct (py_getitem submissions "data") as [submissions_data | e] eqn:Hdata;
    [| discriminate].
  destruct (build_json_file _ _ submissions_data _ w1) as [[[] | e] w2] eqn:Hsave;
    [| discriminate].
  destruct (py_iter submissions_data) as [submission_list | e] eqn:Hiter;
    [| discriminate].
  destruct (res_all _ submission_list) as [subs_id | e] eqn:Hextract; [| discriminate].
  intros Hloop.
  destruct (for_each_chain (one_submission_steps curr_datetime) _
              (retrieve_comments_steps curr_datetime) _ _ _ Hloop) as (cs & Hchain).
  eexists. eapply steps_window with (w1 := w1) (w2 := w2); eassumption.
Qed.

Lemma submission_steps_calls (curr_datetime : string) (sub_id : json) (w w' : world)
    (cs : list call) :
  one_submission_steps curr_datetime sub_id w w' cs -> calls w' = calls w ++ cs.
Proof.
  intros Hsteps.
  destruct Hsteps as [w w1 w2 w3 w4 mapping ids first comments comments_data
                        Hids Hsave _ _ _ Hcomments _ Hsave2
                     | w w1 w2 mapping ids first Hids Hsave _ _ _].
  - rewrite (calls_of_run _ _ _ _ _ (build_json_file_calls _ _ _) Hsave2).
    rewrite (calls_of_run _ _ _ _ _ (get_comments_calls _ _ _ _) Hcomments).
    rewrite (calls_of_run _ _ _ _ _ (build_json_file_calls _ _ _) Hsave).
    rewrite (calls_of_run _ _ _ _ _ (get_comment_ids_calls _ _ _ _) Hids).
    rewrite <- !app_assoc. reflexivity.
  - rewrite (calls_of_run _ _ _ _ _ (build_json_file_calls _ _ _) Hsave).
    rewrite (calls_of_run _ _ _ _ _ (get_comment_ids_calls _ _ _ _) Hids).
    rewrite <- !app_assoc. reflexivity.
Qed.

Lemma submission_steps_no_fetch (curr_datetime : string) (sub_id : json) (w w' : world)
    (cs : list call) :
  one_submission_steps curr_datetime sub_id w w' cs ->
  count_calls is_submissions_fetch cs = 0%nat.
Proof. intros Hsteps. destruct Hsteps; reflexivity. Qed.

Lemma window_steps_calls (curr_datetime query subreddit : string)
    (window : string * string) (w w' : world) (cs : list call) :
  one_window_steps curr_datetime query subreddit window w w' cs ->
  calls w' = calls w ++ cs.
Proof.
  intros Hsteps.
  destruct Hsteps as [w w1 w2 w3 submissions submissions_data submission_list subs_id cs
                        Hsubs _ Hsave _ _ Hchain].
  rewrite (chain_calls _ (submission_steps_calls curr_datetime) _ _ _ _ Hchain).
  rewrite (calls_of_run _ _ _ _ _ (build_json_file_calls _ _ _) Hsave).
  rewrite (calls_of_run _ _ _ _ _ (get_submissions_calls _ _ _ _ _ _ _) Hsubs).
  rewrite <- !app_assoc. reflexivity.
Qed.

Lemma window_steps_one_fetch (curr_datetime query subreddit : string)
    (window : string * string) (w w' : world) (cs : list call) :
  one_window_steps curr_datetime query subreddit window w w' cs ->
  count_calls is_submissions_fetch cs = 1%nat.
Proof.
  intros Hsteps.
  destruct Hsteps as [w w1 w2 w3 submissions submissions_data submission_list subs_id cs
                        _ _ _ _ _ Hchain].
  simpl.
  rewrite (chain_count _ _ 0 (submission_steps_no_fetch curr_datetime) _ _ _ _ Hchain).
  reflexivity.
Qed.

(** In the steps for one submission the comments are fetched if and only
    if the first comment id of the mapping is not "N/A". *)
Lemma submission_steps_comments_iff (curr_datetime : string) (sub_id : json)
    (w w' : world) (cs : list call) :
  one_submission_steps curr_datetime sub_id w w' cs ->
  exists (mapping ids : list json) (first : json),
    In (CallBuildJson (JArr mapping) ("submission_id_to_comment_id_" +:+ curr_datetime)) cs /\
    res_all (fun comment => py_getitem comment "comment_id") mapping = Ok ids /\
    ids !! 0%nat = Some first /\
    ((exists fetched, In (CallGetComments fetched) cs) <-> first <> JStr "N/A").
Proof.
  intros Hsteps.
  destruct Hsteps as [w w1 w2 w3 w4 mapping ids first comments comments_data
                        _ _ Hids Hfirst Hne _ _ _
                     | w w1 w2 mapping ids first _ _ Hids Hfirst Hna];
    exists mapping, ids, first.
  - split; [simpl; auto |]. split; [exact Hids |]. split; [exact Hfirst |].
    split; [intros _; exact Hne | intros _; exists ids; simpl; auto].
  - split; [simpl; auto |]. split; [exact Hids |]. split; [exact Hfirst |].
    split.
    + intros [fetched [Hin | [Hin | []]]]; discriminate Hin.
    + intros Hne. contradiction.
Qed.

(** C8.  A run of the driver that completes has gone, in order, through
    one window per pair of neighbouring timestamps of the day-bucket
    list (window i is made of the timestamps i and i+1, so there are
    L-1 windows for L timestamps).  In each window it has fetched the
    submissions between the two timestamps once and persisted them, and
    then, for each submission id in order, fetched the comment-id mapping
    and persisted it and, if and only if the first comment id of the
    mapping is not "N/A", fetched the comments and persisted them.  The
    call log grows by exactly these calls; L-1 of them are fetches of
    submissions. *)
Theorem run_reddit_psio_query_schedule :
  forall (utcoffset : Z -> Z) (query subreddit : string) (start_date end_date : date)
         (w w' : world),
    run_reddit_psio_query http_get json_dumps json_loads py_repr utcoffset
      query subreddit start_date end_date w = (Ok tt, w') ->
    exists (date_range : list string) (cs : list call),
      make_date_range utcoffset start_date end_date = Ok date_range /\
      chain (one_window_steps (today w) query subreddit)
        (consecutive date_range) w w' cs /\
      (forall sub_id v v' cs',
          one_submission_steps (today w) sub_id v v' cs' ->
          exists (mapping ids : list json) (first : json),
            In (CallBuildJson (JArr mapping)
                  ("submission_id_to_comment_id_" +:+ today w)) cs' /\
            res_all (fun comment => py_getitem comment "comment_id") mapping = Ok ids /\
            ids !! 0%nat = Some first /\
            ((exists fetched, In (CallGetComments fetched) cs') <->
             first <> JStr "N/A")) /\
      length (consecutive date_range) = (length date_range - 1)%nat /\
      (forall i a b, consecutive date_range !! i = Some (a, b) <->
                     date_range !! i = Some a /\ date_range !! S i = Some b) /\
      calls w' = calls w ++ cs /\
      count_calls is_submissions_fetch cs = (length date_range - 1)%nat.
Proof.
  intros utcoffset query subreddit start_date end_date w w'.
  unfold run_reddit_psio_query, bind, gets, lift.
  destruct (make_date_range utcoffset start_date end_date) as [date_range | e];
    [| discriminate].
  unfold py_range.
  replace (Z.to_nat (Z.of_nat (length date_range) - 1))
    with (length (consecutive date_range)) by (rewrite consecutive_length; lia).
  change (get_data_source "reddit-historical") with (Some CollectRedditPSIOData_init).
  intros Hrun.
  destruct (for_each_seq_chain (one_window_steps (today w) query subreddit)
              (retrieve_window http_get json_dumps json_loads py_repr
                 (Some CollectRedditPSIOData_init) (today w) query subreddit date_range)
              (consecutive date_range) 0) with (w := w) (w' := w')
    as (cs & Hchain); [| exact Hrun |].
  { intros i [a b] v v' Hwindow Hbody.
    apply consecutive_lookup in Hwindow as [Ha Hb].
    eapply retrieve_window_steps; eassumption. }
  exists date_range, cs.
  split; [reflexivity |].
  split; [exact Hchain |].
  split; [intros sub_id v v' cs'; apply submission_steps_comments_iff |].
  split; [apply consecutive_length |].
  split; [intros; apply consecutive_lookup |].
  split.
  - eapply chain_calls; [| exact Hchain].
    intros x v v' cs'. apply window_steps_calls.
  - rewrite (chain_count _ _ 1 (window_steps_one_fetch (today w) query subreddit)
               _ _ _ _ Hchain).
    rewrite consecutive_length. lia.
Qed.

End DriverProperties.

(** ** The compact codec reads back what it writes *)

Lemma append_cons (c : ascii) (a b : string) : String c a +:+ b = String c (a +:+ b).
Proof. reflexivity. Qed.

(** *** Numerals *)

Lemma string_of_uint_number_chars (u : Decimal.uint) :
  all_number_chars (NilEmpty.string_of_uint u) = true.
Proof. induction u; simpl; auto. Qed.

Lemma nilzero_number_chars (u : Decimal.uint) :
  all_number_chars (NilZero.string_of_uint u) = true.
Proof.
  destruct u; [reflexivity | ..];
    match goal with
    | |- all_number_chars (NilZero.string_of_uint ?d) = true =>
        exact (string_of_uint_number_chars d)
    end.
Qed.

Lemma str_of_Z_number_chars (z : Z) : all_number_chars (str_of_Z z) = true.
Proof.
  unfold str_of_Z, NilZero.string_of_int.
  destruct (Z.to_int z) as [u | u].
  - apply nilzero_number_chars.
  - change (all_number_chars (String "-" (NilZero.string_of_uint u)))
      with (all_number_chars (NilZero.string_of_uint u)).
    apply nilzero_number_chars.
Qed.

Lemma span_number_prefix (numeral rest : string) :
  all_number_chars numeral = true ->
  ends_numeral rest = true ->
  CompactJson.span_number (numeral +:+ rest) = (numeral, rest).
Proof.
  intros Hnum Hrest. induction numeral as [| c numeral IH].
  - rewrite append_empty_l. destruct rest as [| c rest]; [reflexivity |].
    simpl in *. apply negb_true_iff in Hrest. rewrite Hrest. reflexivity.
  - simpl in Hnum. apply andb_true_iff in Hnum as [Hc Hnum].
    rewrite append_cons. simpl. rewrite Hc, (IH Hnum). reflexivity.
Qed.

Lemma to_int_not_nil (z : Z) :
  Z.to_int z <> Decimal.Pos Decimal.Nil /\ Z.to_int z <> Decimal.Neg Decimal.Nil.
Proof.
  destruct z as [| p | p]; simpl; split; try discriminate;
    intros H; injection H as H;
    exact (DecimalPos.Unsigned.to_uint_nonnil p H).
Qed.

Lemma read_int_str_of_Z (z : Z) (rest : string) :
  ends_numeral rest = true ->
  CompactJson.read_int (str_of_Z z +:+ rest) = Some (z, rest).
Proof.
  intros Hrest. unfold CompactJson.read_int.
  rewrite span_number_prefix by (try apply str_of_Z_number_chars; exact Hrest).
  unfold str_of_Z.
  destruct (to_int_not_nil z) as [Hpos Hneg].
  rewrite (NilZero.isi _ Hpos Hneg), DecimalZ.of_to. reflexivity.
Qed.

Lemma str_of_Z_head (z : Z) :
  exists c r, str_of_Z z = String c r /\ CompactJson.is_number_char c = true.
Proof.
  pose proof (str_of_Z_number_chars z) as Hnum.
  destruct (str_of_Z z) as [| c r] eqn:Hstr.
  - exfalso. unfold str_of_Z, NilZero.string_of_int in Hstr.
    destruct (Z.to_int z) as [u | u] eqn:Hz; [| discriminate].
    destruct u; discriminate.
  - simpl in Hnum. apply andb_true_iff in Hnum as [Hc _]. eauto.
Qed.

(** *** String literals *)

Lemma escape_cons (c : ascii) (s : string) :
  CompactJson.escape (String c s)
  = if (Ascii.eqb c CompactJson.dquote || Ascii.eqb c CompactJson.backslash)%bool
    then String CompactJson.backslash (String c (CompactJson.escape s))
    else String c (CompactJson.escape s).
Proof. reflexivity. Qed.

Lemma read_string_escaped (c : ascii) (r : string) :
  CompactJson.read_string (String CompactJson.backslash (String c r))
  = match CompactJson.read_string r with
    | Some (t, r') => Some (String c t, r')
    | None => None
    end.
Proof. reflexivity. Qed.

Lemma read_string_plain (c : ascii) (r : string) :
  Ascii.eqb c CompactJson.dquote = false ->
  Ascii.eqb c CompactJson.backslash = false ->
  CompactJson.read_string (String c r)
  = match CompactJson.read_string r with
    | Some (t, r') => Some (String c t, r')
    | None => None
    end.
Proof. intros Hq Hb. simpl. rewrite Hq, Hb. reflexivity. Qed.

Lemma read_string_escape (s rest : string) :
  CompactJson.read_string (CompactJson.escape s +:+ String CompactJson.dquote rest)
  = Some (s, rest).
Proof.
  induction s as [| c s IH]; [reflexivity |].
  rewrite escape_cons.
  destruct (Ascii.eqb c CompactJson.dquote || Ascii.eqb c CompactJson.backslash)%bool
    eqn:Hesc.
  - rewrite !append_cons, read_string_escaped, IH. reflexivity.
  - apply orb_false_iff in Hesc as [Hq Hb].
    rewrite append_cons, (read_string_plain _ _ Hq Hb), IH. reflexivity.
Qed.

Lemma read_string_quote (s rest : string) :
  exists r,
    CompactJson.quote s +:+ rest = String CompactJson.dquote r /\
    CompactJson.read_string r = Some (s, rest).
Proof.
  eexists. split.
  - unfold CompactJson.quote. rewrite append_cons, append_assoc_string, append_cons.
    rewrite append_empty_l. reflexivity.
  - apply read_string_escape.
Qed.

(** *** Documents *)

(** Induction on documents, with the hypothesis for every item of an
    array and every value of an object. *)
Lemma json_nested_ind (P : json -> Prop) :
  P JNull ->
  (forall b, P (JBool b)) ->
  (forall z, P (JInt z)) ->
  (forall s, P (JStr s)) ->
  (forall items, Forall P items -> P (JArr items)) ->
  (forall fields, Forall (fun kv => P (snd kv)) fields -> P (JObj fields)) ->
  forall j, P j.
Proof.
  intros Hnull Hbool Hint Hstr Harr Hobj.
  refine (fix IH (j : json) : P j :=
            match j with
            | JNull => Hnull
            | JBool b => Hbool b
            | JInt z => Hint z
            | JStr s => Hstr s
            | JArr items =>
                Harr items
                  ((fix all (l : list json) : Forall P l :=
                      match l with
                      | [] => List.Forall_nil P
                      | x :: l' => List.Forall_cons P x l' (IH x) (all l')
                      end) items)
            | JObj fields =>
                Hobj fields
                  ((fix all (l : list (string * json))
                      : Forall (fun kv => P (snd kv)) l :=
                      match l with
                      | [] => List.Forall_nil _
                      | kv :: l' => List.Forall_cons _ kv l' (IH (snd kv)) (all l')
                      end) fields)
            end).
Qed.

Lemma json_size_pos (j : json) : (1 <= json_size j)%nat.
Proof. destruct j; simpl; lia. Qed.

Lemma dumps_array (items : list json) :
  CompactJson.dumps (JArr items) = "[" +:+ dumps_items items +:+ "]".
Proof. reflexivity. Qed.

Lemma dumps_object (fields : list (string * json)) :
  CompactJson.dumps (JObj fields) = "{" +:+ dumps_fields fields +:+ "}".
Proof. reflexivity. Qed.

Lemma parse_value_number (fuel : nat) (c : ascii) (r : string) :
  CompactJson.is_number_char c = true ->
  CompactJson.parse_value (S fuel) (String c r)
  = match CompactJson.read_int (String c r) with
    | Some (z, r') => Some (JInt z, r')
    | None => None
    end.
Proof.
  intros Hc.
  destruct c as [[] [] [] [] [] [] [] []];
    try (vm_compute in Hc; discriminate Hc); reflexivity.
Qed.

Lemma parse_value_array (fuel : nat) (c : ascii) (r : string) :
  Ascii.eqb c "]" = false ->
  CompactJson.parse_value (S fuel) (String "[" (String c r))
  = match CompactJson.parse_items fuel (String c r) with
    | Some (items, r') => Some (JArr items, r')
    | None => None
    end.
Proof.
  intros Hc.
  destruct c as [[] [] [] [] [] [] [] []];
    try (vm_compute in Hc; discriminate Hc); reflexivity.
Qed.

Lemma parse_value_object (fuel : nat) (r : string) :
  CompactJson.parse_value (S fuel) (String "{" (String CompactJson.dquote r))
  = match CompactJson.parse_fields fuel (String CompactJson.dquote r) with
    | Some (fields, r') => Some (JObj fields, r')
    | None => None
    end.
Proof. reflexivity. Qed.

(** No document starts with a closing bracket. *)
Lemma dumps_head (j : json) (rest : string) :
  exists c r, CompactJson.dumps j +:+ rest = String c r /\ Ascii.eqb c "]" = false.
Proof.
  destruct j as [| [] | z | s | items | fields].
  - do 2 eexists. split; reflexivity.
  - do 2 eexists. split; reflexivity.
  - do 2 eexists. split; reflexivity.
  - destruct (str_of_Z_head z) as (c & r & Hz & Hc).
    exists c, (r +:+ rest). split.
    + change (CompactJson.dumps (JInt z)) with (str_of_Z z). rewrite Hz. reflexivity.
    + destruct c as [[] [] [] [] [] [] [] []];
        try (vm_compute in Hc; discriminate Hc); reflexivity.
  - do 2 eexists. split; reflexivity.
  - rewrite dumps_array. do 2 eexists. split; reflexivity.
  - rewrite dumps_object. do 2 eexists. split; reflexivity.
Qed.

Lemma parse_items_dumps (items : list json) :
  Forall reads_value items ->
  items <> [] ->
  forall (fuel : nat) (rest : string),
    (2 * items_size items + 1 <= fuel)%nat ->
    CompactJson.parse_items fuel (dumps_items items +:+ String "]" rest)
    = Some (items, rest).
Proof.
  intros Hall. induction Hall as [| x items Hx Hall IH]; [congruence |].
  intros _ fuel rest Hfuel.
  destruct fuel as [| fuel]; [lia |].
  pose proof (json_size_pos x) as Hpos.
  destruct items as [| y items].
  - change (dumps_items [x]) with (CompactJson.dumps x).
    simpl in Hfuel. simpl CompactJson.parse_items.
    rewrite (Hx fuel (String "]" rest)) by (try reflexivity; lia).
    reflexivity.
  - change (dumps_items (x :: y :: items))
      with (CompactJson.dumps x +:+ "," +:+ dumps_items (y :: items)).
    rewrite !append_assoc_string, append_cons, append_empty_l.
    change (items_size (x :: y :: items))
      with (json_size x + items_size (y :: items))%nat in Hfuel.
    simpl CompactJson.parse_items.
    rewrite (Hx fuel) by (try reflexivity; lia).
    rewrite IH by (try discriminate; lia).
    reflexivity.
Qed.

Lemma parse_fields_dumps (fields : list (string * json)) :
  Forall (fun kv => reads_value (snd kv)) fields ->
  fields <> [] ->
  forall (fuel : nat) (rest : string),
    (2 * fields_size fields + 1 <= fuel)%nat ->
    CompactJson.parse_fields fuel (dumps_fields fields +:+ String "}" rest)
    = Some (fields, rest).
Proof.
  intros Hall. induction Hall as [| [k v] fields Hv Hall IH]; [congruence |].
  intros _ fuel rest Hfuel.
  destruct fuel as [| fuel]; [lia |].
  pose proof (json_size_pos v) as Hpos.
  simpl in Hv.
  destruct fields as [| [k' v'] fields].
  - change (dumps_fields [(k, v)])
      with (CompactJson.quote k +:+ ":" +:+ CompactJson.dumps v).
    rewrite append_assoc_string.
    destruct (read_string_quote k ((":" +:+ CompactJson.dumps v) +:+ String "}" rest))
      as (r & -> & Hkey).
    simpl in Hfuel. simpl CompactJson.parse_fields. rewrite Hkey.
    rewrite append_assoc_string, append_cons, append_empty_l.
    rewrite (Hv fuel (String "}" rest)) by (try reflexivity; lia).
    reflexivity.
  - change (dumps_fields ((k, v) :: (k', v') :: fields))
      with (CompactJson.quote k +:+ ":" +:+ CompactJson.dumps v +:+ ","
            +:+ dumps_fields ((k', v') :: fields)).
    rewrite append_assoc_string.
    destruct (read_string_quote k
                ((":" +:+ CompactJson.dumps v +:+ ","
                  +:+ dumps_fields ((k', v') :: fields)) +:+ String "}" rest))
      as (r & -> & Hkey).
    change (fields_size ((k, v) :: (k', v') :: fields))
      with (json_size v + fields_size ((k', v') :: fields))%nat in Hfuel.
    simpl CompactJson.parse_fields. rewrite Hkey.
    rewrite !append_assoc_string, append_cons, append_empty_l.
    rewrite !append_cons, append_empty_l.
    rewrite (Hv fuel) by (try reflexivity; lia).
    rewrite IH by (try discriminate; lia).
    reflexivity.
Qed.

Lemma bracketed (o c : ascii) (inner rest : string) :
  (String o EmptyString +:+ inner +:+ String c EmptyString) +:+ rest
  = String o (inner +:+ String c rest).
Proof.
  rewrite append_cons, append_empty_l, append_cons, append_assoc_string.
  reflexivity.
Qed.

Lemma dumps_items_head (items : list json) (rest : string) :
  items <> [] ->
  exists c r, dumps_items items +:+ rest = String c r /\ Ascii.eqb c "]" = false.
Proof.
  destruct items as [| x [| y items]]; [congruence | |]; intros _.
  - apply dumps_head.
  - change (dumps_items (x :: y :: items))
      with (CompactJson.dumps x +:+ "," +:+ dumps_items (y :: items)).
    rewrite append_assoc_string. apply dumps_head.
Qed.

Lemma dumps_fields_head (fields : list (string * json)) (rest : string) :
  fields <> [] ->
  exists r, dumps_fields fields +:+ rest = String CompactJson.dquote r.
Proof.
  destruct fields as [| [k v] [| [k' v'] fields]]; [congruence | |]; intros _.
  - change (dumps_fields [(k, v)])
      with (CompactJson.quote k +:+ ":" +:+ CompactJson.dumps v).
    rewrite append_assoc_string.
    destruct (read_string_quote k ((":" +:+ CompactJson.dumps v) +:+ rest))
      as (r & Hq & _).
    eauto.
  - change (dumps_fields ((k, v) :: (k', v') :: fields))
      with (CompactJson.quote k +:+ ":" +:+ CompactJson.dumps v +:+ ","
            +:+ dumps_fields ((k', v') :: fields)).
    rewrite append_assoc_string.
    destruct (read_string_quote k
                ((":" +:+ CompactJson.dumps v +:+ ","
                  +:+ dumps_fields ((k', v') :: fields)) +:+ rest))
      as (r & Hq & _).
    eauto.
Qed.

Lemma parse_value_dumps (j : json) : reads_value j.
Proof.
  induction j as [| b | z | s | items IH | fields IH] using json_nested_ind;
    intros fuel rest Hfuel Hrest;
    (destruct fuel as [| fuel]; [simpl in Hfuel; lia |]).
  - reflexivity.
  - destruct b; reflexivity.
  - change (CompactJson.dumps (JInt z)) with (str_of_Z z).
    destruct (str_of_Z_head z) as (c & r & Hz & Hc).
    pose proof (read_int_str_of_Z z rest Hrest) as Hread.
    rewrite Hz, append_cons in *.
    rewrite (parse_value_number _ _ _ Hc), Hread. reflexivity.
  - destruct (read_string_quote s rest) as (r & Hq & Hread).
    change (CompactJson.dumps (JStr s)) with (CompactJson.quote s).
    rewrite Hq.
    change (CompactJson.parse_value (S fuel) (String CompactJson.dquote r))
      with (match CompactJson.read_string r with
            | Some (t, r') => Some (JStr t, r')
            | None => None
            end).
    rewrite Hread. reflexivity.
  - rewrite dumps_array.
    destruct items as [| x items]; [reflexivity |].
    rewrite bracketed.
    destruct (dumps_items_head (x :: items) (String "]" rest)) as (c & r & Hhead & Hc);
      [discriminate |].
    rewrite Hhead, (parse_value_array _ _ _ Hc), <- Hhead.
    rewrite parse_items_dumps; [reflexivity | exact IH | discriminate |].
    change (json_size (JArr (x :: items))) with (S (items_size (x :: items))) in Hfuel.
    lia.
  - rewrite dumps_object.
    destruct fields as [| kv fields]; [reflexivity |].
    rewrite bracketed.
    destruct (dumps_fields_head (kv :: fields) (String "}" rest)) as (r & Hhead);
      [discriminate |].
    rewrite Hhead, parse_value_object, <- Hhead.
    rewrite parse_fields_dumps; [reflexivity | exact IH | discriminate |].
    change (json_size (JObj (kv :: fields))) with (S (fields_size (kv :: fields)))
      in Hfuel.
    lia.
Qed.

Lemma length_append_string (a b : string) :
  String.length (a +:+ b) = (String.length a + String.length b)%nat.
Proof.
  induction a as [| c a IH]; [reflexivity |].
  rewrite append_cons. simpl. rewrite IH. reflexivity.
Qed.

Lemma items_size_le_length (items : list json) :
  Forall (fun x => (json_size x <= String.length (CompactJson.dumps x))%nat) items ->
  (items_size items <= String.length (dumps_items items))%nat.
Proof.
  intros Hall. induction Hall as [| x items Hx _ IH]; [simpl; lia |].
  destruct items as [| y items].
  - change (dumps_items [x]) with (CompactJson.dumps x). simpl. lia.
  - change (dumps_items (x :: y :: items))
      with (CompactJson.dumps x +:+ "," +:+ dumps_items (y :: items)).
    change (items_size (x :: y :: items))
      with (json_size x + items_size (y :: items))%nat.
    rewrite !length_append_string. lia.
Qed.

Lemma fields_size_le_length (fields : list (string * json)) :
  Forall (fun kv => (json_size (snd kv) <= String.length (CompactJson.dumps (snd kv)))%nat)
    fields ->
  (fields_size fields <= String.length (dumps_fields fields))%nat.
Proof.
  intros Hall. induction Hall as [| [k v] fields Hv _ IH]; [simpl; lia |].
  simpl in Hv.
  destruct fields as [| [k' v'] fields].
  - change (dumps_fields [(k, v)])
      with (CompactJson.quote k +:+ ":" +:+ CompactJson.dumps v).
    rewrite !length_append_string. simpl. lia.
  - change (dumps_fields ((k, v) :: (k', v') :: fields))
      with (CompactJson.quote k +:+ ":" +:+ CompactJson.dumps v +:+ ","
            +:+ dumps_fields ((k', v') :: fields)).
    change (fields_size ((k, v) :: (k', v') :: fields))
      with (json_size v + fields_size ((k', v') :: fields))%nat.
    rewrite !length_append_string. lia.
Qed.

Lemma json_size_le_length (j : json) :
  (json_size j <= String.length (CompactJson.dumps j))%nat.
Proof.
  induction j as [| b | z | s | items IH | fields IH] using json_nested_ind.
  - simpl. lia.
  - destruct b; simpl; lia.
  - change (CompactJson.dumps (JInt z)) with (str_of_Z z).
    destruct (str_of_Z_head z) as (c & r & -> & _). simpl. lia.
  - simpl. lia.
  - rewrite dumps_array, !length_append_string.
    pose proof (items_size_le_length items IH).
    change (json_size (JArr items)) with (S (items_size items)). simpl. lia.
  - rewrite dumps_object, !length_append_string.
    pose proof (fields_size_le_length fields IH).
    change (json_size (JObj fields)) with (S (fields_size fields)). simpl. lia.
Qed.

(** The compact codec reads every document back from the text it writes
    for it. *)
Lemma compact_json_faithful (j : json) :
  faithful CompactJson.dumps CompactJson.loads j.
Proof.
  unfold faithful, CompactJson.loads.
  pose proof (json_size_le_length j) as Hsize.
  pose proof (parse_value_dumps j (2 * String.length (CompactJson.dumps j) + 2)%nat
                EmptyString) as Hparse.
  rewrite append_empty_r in Hparse.
  rewrite Hparse; [reflexivity | lia | reflexivity].
Qed.

(** With this codec the exporter needs no assumption on the payloads. *)
Lemma compact_export_appends (new_data : json) (name : string) (w : world)
    (s : string) (old : list json) :
  files w !! (name +:+ ".json") = Some s ->
  CompactJson.loads s = Some (JArr old) ->
  exists w',
    build_json_file CompactJson.dumps CompactJson.loads new_data name w = (Ok tt, w') /\
    parsed_file CompactJson.loads w' (name +:+ ".json") = Some (JArr (old ++ [new_data])).
Proof.
  intros Hfile Hparse. eexists. split.
  - eapply export_present_array; eassumption.
  - apply parsed_file_insert. apply compact_json_faithful.
Qed.

(** ** The scripts on concrete inputs *)

(** C4, counterexample.  The first export of a list of two submissions
    leaves a file that parses to that list of two, not to a one-element
    array around it. *)
Lemma creates_singleton_array_fails :
  ~ creates_singleton_array CompactJson.dumps CompactJson.loads
      two_submissions "submissions_2020-04-01" (empty_world "2020-04-01").
Proof.
  unfold creates_singleton_array. intros H.
  destruct (H eq_refl) as (w' & Hrun & Hparsed).
  rewrite export_absent in Hrun by reflexivity.
  injection Hrun as <-.
  vm_compute in Hparsed. discriminate Hparsed.
Qed.

Lemma build_json_file_creates_payload_document_witness :
  files (empty_world "2020-04-01") !! ("submissions_2020-04-01" +:+ ".json") = None /\
  exists w',
    build_json_file CompactJson.dumps CompactJson.loads two_submissions
      "submissions_2020-04-01" (empty_world "2020-04-01") = (Ok tt, w') /\
    parsed_file CompactJson.loads w' ("submissions_2020-04-01" +:+ ".json")
      = Some two_submissions.
Proof.
  split; [reflexivity |].
  destruct (build_json_file_creates_payload_document
              CompactJson.dumps CompactJson.loads two_submissions
              "submissions_2020-04-01" (empty_world "2020-04-01") eq_refl)
    as (w' & Hrun & _ & Hback).
  exists w'. split; [exact Hrun |].
  apply Hback. vm_compute. reflexivity.
Defined.

(** C5, counterexample.  After the export of a list of two submissions
    and then of a list of one, the file parses to three elements (the
    two submissions and the second list), not to the array of the two
    payloads. *)
Lemma creates_pair_array_fails :
  ~ creates_pair_array CompactJson.dumps CompactJson.loads
      two_submissions one_submission "submissions_2020-04-01"
      (empty_world "2020-04-01").
Proof.
  unfold creates_pair_array. intros H.
  destruct (H eq_refl) as (w1 & w2 & Hone & Htwo & Hparsed).
  rewrite export_absent in Hone by reflexivity.
  injection Hone as <-.
  erewrite export_present_array in Htwo;
    [| simpl; apply lookup_insert_eq | vm_compute; reflexivity ].
  injection Htwo as <-.
  vm_compute in Hparsed. discriminate Hparsed.
Qed.

Lemma build_json_file_twice_witness :
  (files (empty_world "2020-04-01") !! ("submissions_2020-04-01" +:+ ".json") = None /\
   faithful CompactJson.dumps CompactJson.loads two_submissions) /\
  exists w1 w2,
    build_json_file CompactJson.dumps CompactJson.loads two_submissions
      "submissions_2020-04-01" (empty_world "2020-04-01") = (Ok tt, w1) /\
    build_json_file CompactJson.dumps CompactJson.loads one_submission
      "submissions_2020-04-01" w1 = (Ok tt, w2) /\
    parsed_file CompactJson.loads w2 ("submissions_2020-04-01" +:+ ".json")
      = Some (JArr [JObj [("id", JStr "fk3a1")]; JObj [("id", JStr "fk3b2")];
                    one_submission]).
Proof.
  assert (Hback : faithful CompactJson.dumps CompactJson.loads two_submissions)
    by (vm_compute; reflexivity).
  split; [split; [reflexivity | exact Hback] |].
  destruct (build_json_file_twice CompactJson.dumps CompactJson.loads
              two_submissions one_submission "submissions_2020-04-01"
              (empty_world "2020-04-01") eq_refl Hback) as [Harray _].
  destruct (Harray _ eq_refl) as (w1 & w2 & Hone & Htwo & Hparsed & _);
    [vm_compute; reflexivity |].
  exists w1, w2. auto.
Defined.

Lemma build_json_file_appends_one_witness :
  let w := set_files (insert "comments_2020-04-01.json" "[1,2]")
             (empty_world "2020-04-01") in
  (files w !! ("comments_2020-04-01" +:+ ".json") = Some "[1,2]" /\
   CompactJson.loads "[1,2]" = Some (JArr [JInt 1; JInt 2]) /\
   faithful CompactJson.dumps CompactJson.loads
     (JArr ([JInt 1; JInt 2] ++ [JStr "new"]))) /\
  exists w',
    build_json_file CompactJson.dumps CompactJson.loads (JStr "new")
      "comments_2020-04-01" w = (Ok tt, w') /\
    parsed_file CompactJson.loads w' ("comments_2020-04-01" +:+ ".json")
      = Some (JArr [JInt 1; JInt 2; JStr "new"]).
Proof.
  intros w.
  assert (Hfile : files w !! ("comments_2020-04-01" +:+ ".json") = Some "[1,2]")
    by (vm_compute; reflexivity).
  assert (Hold : CompactJson.loads "[1,2]" = Some (JArr [JInt 1; JInt 2]))
    by (vm_compute; reflexivity).
  assert (Hback : faithful CompactJson.dumps CompactJson.loads
                    (JArr ([JInt 1; JInt 2] ++ [JStr "new"])))
    by (vm_compute; reflexivity).
  split; [auto |].
  destruct (build_json_file_appends_one CompactJson.dumps CompactJson.loads
              (JStr "new") "comments_2020-04-01" w "[1,2]" [JInt 1; JInt 2]
              Hfile Hold Hback)
    as (w' & items & Hrun & Hparsed & Hlen & Hfirst & Hlast & _).
  exists w'. split; [exact Hrun |].
  rewrite Hparsed. f_equal. f_equal.
  destruct items as [| a [| b [| c [| d rest]]]]; try discriminate Hlen.
  simpl in Hfirst, Hlast. congruence.
Defined.

(** C1, counterexample.  Two HTTP errors and then an answer: the fetch
    of submissions returns the answer, but no error file has been
    written, let alone two lines of it. *)
Lemma two_failures_two_lines_fails :
  ~ two_failures_two_lines
      (replay [bad_gateway; bad_gateway; answer submissions_answer])
      CompactJson.loads CollectRedditPSIOData_init
      "covid" "Canada" "1583557200" "1583643600" (empty_world "2020-04-01").
Proof.
  intros Hclaim.
  destruct (Hclaim (HTTPError "502 Bad Gateway") (HTTPError "502 Bad Gateway")
              {| text := CompactJson.dumps submissions_answer |} submissions_answer)
    as (w' & Hrun & Hcount).
  - exact I.
  - exact I.
  - repeat split.
  - vm_compute. reflexivity.
  - reflexivity.
  - apply (f_equal snd) in Hrun. simpl in Hrun. subst w'.
    vm_compute in Hcount. discriminate Hcount.
Qed.

Lemma failed_attempts_logged_witness :
  let http_get := replay [bad_body; bad_body; answer submissions_answer] in
  let url := submissions_url CollectRedditPSIOData_init
               "covid" "Canada" "1583557200" "1583643600" in
  (plays http_get url (requests (empty_world "2020-04-01"))
     [GetRaises JSONDecodeError; GetRaises JSONDecodeError;
      Responded {| text := CompactJson.dumps submissions_answer |}] /\
   CompactJson.loads (CompactJson.dumps submissions_answer) = Some submissions_answer /\
   files (empty_world "2020-04-01") !! "submissions_error.txt" = None /\
   one_line url = true) /\
  exists w',
    get_submissions http_get CompactJson.loads CollectRedditPSIOData_init
      "covid" "Canada" "1583557200" "1583643600" 2 (empty_world "2020-04-01")
      = (Ok submissions_answer, w') /\
    file_line_count w' "submissions_error.txt" = 2%nat.
Proof.
  intros http_get url.
  assert (Hplay : plays http_get url (requests (empty_world "2020-04-01"))
            [GetRaises JSONDecodeError; GetRaises JSONDecodeError;
             Responded {| text := CompactJson.dumps submissions_answer |}])
    by (repeat split).
  assert (Hload : CompactJson.loads (CompactJson.dumps submissions_answer)
                  = Some submissions_answer) by (vm_compute; reflexivity).
  assert (Hline : one_line url = true) by (vm_compute; reflexivity).
  split; [split; [exact Hplay | split; [exact Hload | split; [reflexivity | exact Hline]]] |].
  destruct (failed_attempts_logged http_get CompactJson.loads no_repr
              CollectRedditPSIOData_init) as (_ & _ & _ & _ & Htwice).
  destruct (Htwice "covid" "Canada" "1583557200" "1583643600"
              (empty_world "2020-04-01") _ submissions_answer Hplay Hload)
    as (w' & Hrun & _ & Hcount).
  exists w'. split; [exact Hrun |].
  apply Hcount; [reflexivity | exact Hline].
Defined.



Lemma get_comment_ids_pairs_witness :
  let http_get := replay [bad_gateway; answer comment_ids_answer] in
  let w := empty_world "2020-04-01" in
  (Forall (lookup_fails CompactJson.loads) [bad_gateway] /\
   (length [bad_gateway] < Z.to_nat (1 + 1))%nat /\
   plays http_get (comment_ids_url no_repr (JStr "fk3a1")) (requests w)
     ([bad_gateway] ++ [answer comment_ids_answer]) /\
   CompactJson.loads (CompactJson.dumps comment_ids_answer) = Some comment_ids_answer /\
   py_getitem comment_ids_answer "data" = Ok (JArr [JStr "c1"; JStr "c2"])) /\
  exists w',
    get_comments_id_from_submissions_id http_get CompactJson.loads no_repr
      CollectRedditPSIOData_init (JStr "fk3a1") 1 w
    = (Ok [JObj [("submission_id", JStr "fk3a1"); ("comment_id", JStr "c1")];
           JObj [("submission_id", JStr "fk3a1"); ("comment_id", JStr "c2")]], w').
Proof.
  intros http_get w.
  assert (Hfail : Forall (lookup_fails CompactJson.loads) [bad_gateway])
    by (repeat constructor).
  assert (Hlen : (length [bad_gateway] < Z.to_nat (1 + 1))%nat)
    by (vm_compute; lia).
  assert (Hplay : plays http_get (comment_ids_url no_repr (JStr "fk3a1")) (requests w)
                    ([bad_gateway] ++ [answer comment_ids_answer]))
    by (repeat split).
  assert (Hload : CompactJson.loads (CompactJson.dumps comment_ids_answer)
                  = Some comment_ids_answer) by (vm_compute; reflexivity).
  split; [split; [exact Hfail | split; [exact Hlen | split; [exact Hplay |
            split; [exact Hload | reflexivity]]]] |].
  destruct (get_comment_ids_pairs http_get CompactJson.loads no_repr
              CollectRedditPSIOData_init (JStr "fk3a1") 1 w [bad_gateway] _
              comment_ids_answer [JStr "c1"; JStr "c2"] Hfail Hlen Hplay Hload eq_refl)
    as (w' & pairs & Hrun & -> & _).
  exists w'. exact Hrun.
Defined.

Lemma make_date_range_days_witness :
  (valid_date march_7 /\ valid_date march_10 /\
   toordinal march_7 <= toordinal march_10) /\
  exists stamps : list Z,
    make_date_range tz_toronto_2020 march_7 march_10
      = Ok (map (fun unix => NilZero.string_of_int (Z.to_int unix)) stamps) /\
    Z.of_nat (length stamps) = 3 + 1 /\
    stamps !! 2%nat = Some 1583726400.
Proof.
  assert (H7 : valid_date march_7) by (unfold valid_date, date_max_ordinal; simpl; lia).
  assert (H10 : valid_date march_10) by (unfold valid_date, date_max_ordinal; simpl; lia).
  assert (Hle : toordinal march_7 <= toordinal march_10) by (simpl; lia).
  split; [split; [exact H7 | split; [exact H10 | exact Hle]] |].
  destruct (make_date_range_days tz_toronto_2020 march_7 march_10 H7 H10 Hle)
    as (stamps & Hrange & Hlen & Hnth & _).
  exists stamps. split; [exact Hrange |]. split; [exact Hlen |].
  rewrite (Hnth 2%nat) by (simpl; lia). reflexivity.
Defined.

Lemma str_of_Z_inj (a b : Z) : str_of_Z a = str_of_Z b -> a = b.
Proof.
  intros Heq.
  pose proof (read_int_str_of_Z a "" eq_refl) as Ha.
  pose proof (read_int_str_of_Z b "" eq_refl) as Hb.
  rewrite Heq, Hb in Ha. congruence.
Qed.

(** C6, counterexample.  In Apia the day buckets from December 29 to
    December 31, 2011 hold the same UNIX time twice: Samoa left out
    December 30, and the midnight that would have started it is the
    instant that started December 31. *)
Lemma days_strictly_increasing_fails :
  valid_date december_29_2011 /\ valid_date december_31_2011 /\
  toordinal december_29_2011 <= toordinal december_31_2011 /\
  make_date_range tz_apia_2011 december_29_2011 december_31_2011
    = Ok ["1325152800"; "1325239200"; "1325239200"] /\
  ~ days_strictly_increasing tz_apia_2011 december_29_2011 december_31_2011.
Proof.
  assert (Hrange : make_date_range tz_apia_2011 december_29_2011 december_31_2011
                   = Ok ["1325152800"; "1325239200"; "1325239200"])
    by (vm_compute; reflexivity).
  split; [unfold valid_date, date_max_ordinal; simpl; lia |].
  split; [unfold valid_date, date_max_ordinal; simpl; lia |].
  split; [simpl; lia |].
  split; [exact Hrange |].
  intros (stamps & Hstamps & Hincreasing).
  rewrite Hrange in Hstamps. injection Hstamps as Hstamps.
  destruct stamps as [| a [| b [| c rest]]]; try discriminate Hstamps.
  simpl in Hstamps. injection Hstamps as _ Hb Hc _.
  assert (Hbc : b = c) by (apply str_of_Z_inj; congruence).
  specialize (Hincreasing 1%nat b c eq_refl eq_refl). lia.
Qed.

Lemma run_reddit_psio_query_same_day_witness :
  valid_date march_7 /\
  run_reddit_psio_query (replay []) CompactJson.dumps CompactJson.loads no_repr
    tz_toronto_2020 "covid" "Canada" march_7 march_7 (empty_world "2020-04-01")
  = (Ok tt, empty_world "2020-04-01").
Proof.
  assert (H7 : valid_date march_7) by (unfold valid_date, date_max_ordinal; simpl; lia).
  split; [exact H7 |].
  apply (run_reddit_psio_query_same_day (replay []) CompactJson.dumps CompactJson.loads
           no_repr tz_toronto_2020 "covid" "Canada" march_7 (empty_world "2020-04-01") H7).
Defined.

(** The calls of the run over two windows, in order. *)
Example two_windows_call_log :
  calls (snd (run_reddit_psio_query (replay two_window_outcomes)
                CompactJson.dumps CompactJson.loads no_repr tz_toronto_2020
                "covid" "Canada" march_7 march_9 (empty_world "2020-04-01")))
  = [CallGetSubmissions "covid" "Canada" "1583557200" "1583643600";
     CallBuildJson two_submissions "submissions_2020-04-01";
     CallGetCommentIds (JStr "fk3a1");
     CallBuildJson (JArr [id_pair (JStr "fk3a1") (JStr "c1");
                          id_pair (JStr "fk3a1") (JStr "c2")])
       "submission_id_to_comment_id_2020-04-01";
     CallGetComments [JStr "c1"; JStr "c2"];
     CallBuildJson (JArr [JObj [("id", JStr "c1")]; JObj [("id", JStr "c2")]])
       "comments_2020-04-01";
     CallGetCommentIds (JStr "fk3b2");
     CallBuildJson (JArr [id_pair (JStr "fk3b2") (JStr "N/A")])
       "submission_id_to_comment_id_2020-04-01";
     CallGetSubmissions "covid" "Canada" "1583643600" "1583726400";
     CallBuildJson (JArr []) "submissions_2020-04-01"].
Proof. vm_compute. reflexivity. Qed.

Lemma run_reddit_psio_query_schedule_witness :
  let run := run_reddit_psio_query (replay two_window_outcomes)
               CompactJson.dumps CompactJson.loads no_repr tz_toronto_2020
               "covid" "Canada" march_7 march_9 (empty_world "2020-04-01") in
  run = (Ok tt, snd run) /\
  exists cs : list call,
    calls (snd run) = cs /\
    count_calls is_submissions_fetch cs = 2%nat.
Proof.
  intros run.
  assert (Hrun : run = (Ok tt, snd run)) by (vm_compute; reflexivity).
  split; [exact Hrun |].
  destruct (run_reddit_psio_query_schedule (replay two_window_outcomes)
              CompactJson.dumps CompactJson.loads no_repr tz_toronto_2020
              "covid" "Canada" march_7 march_9 (empty_world "2020-04-01") (snd run) Hrun)
    as (date_range & cs & Hrange & _ & _ & _ & _ & Hcalls & Hcount).
  exists cs. split; [exact Hcalls |].
  rewrite Hcount.
  assert (Hthree : make_date_range tz_toronto_2020 march_7 march_9
                   = Ok ["1583557200"; "1583643600"; "1583726400"])
    by (vm_compute; reflexivity).
  rewrite Hthree in Hrange. injection Hrange as <-. reflexivity.
Defined.

(** Iterating a string gives its characters: the two bytes of a
    two-byte character stay together. *)
Example chars_of_two_byte_character :
  let e_acute := String (ascii_of_nat 195) (String (ascii_of_nat 169) EmptyString) in
  py_iter (JStr ("caf" +:+ e_acute +:+ "s"))
  = Ok [JStr "c"; JStr "a"; JStr "f"; JStr e_acute; JStr "s"].
Proof. vm_compute. reflexivity. Qed.

(** The decoding of the answer sits behind the retry loop of
    [get_submissions]: an answer that does not decode is not retried,
    the failure leaves the function. *)
Example get_submissions_undecodable_answer :
  fst (get_submissions (replay [Responded {| text := "<html>" |}; answer submissions_answer])
         CompactJson.loads CollectRedditPSIOData_init
         "covid" "Canada" "1583557200" "1583643600" 1 (empty_world "2020-04-01"))
  = Raise JSONDecodeError.
Proof. vm_compute. reflexivity. Qed.

(** The same answer is retried by the comment-id lookup, which decodes
    inside its loop. *)
Example get_comment_ids_undecodable_answer :
  fst (get_comments_id_from_submissions_id
         (replay [Responded {| text := "<html>" |}; answer comment_ids_answer])
         CompactJson.loads no_repr CollectRedditPSIOData_init (JStr "fk3a1") 1
         (empty_world "2020-04-01"))
  = Ok [id_pair (JStr "fk3a1") (JStr "c1"); id_pair (JStr "fk3a1") (JStr "c2")].
Proof. vm_compute. reflexivity. Qed.

(** A run ends at the first exception that nothing catches: when both
    attempts of the first fetch of submissions fail, the reference error
    of [get_submissions] leaves the driver after that one call, with the
    second window never reached. *)
Example run_stops_at_reference_error :
  let run := run_reddit_psio_query (replay [bad_gateway; bad_gateway])
               CompactJson.dumps CompactJson.loads no_repr tz_toronto_2020
               "covid" "Canada" march_7 march_9 (empty_world "2020-04-01") in
  fst run = Raise (UnboundLocalError "submissions_requests") /\
  calls (snd run) = [CallGetSubmissions "covid" "Canada" "1583557200" "1583643600"] /\
  files (snd run) = ∅.
Proof. vm_compute. repeat split. Qed.

(** * Further properties *)

(** ** The file exporter, call after call *)

Lemma build_error_text_file_run (new_data file_export_name : string) (w : world) :
  build_error_text_file new_data file_export_name w
  = (Ok tt,
     set_files (append_line (file_export_name +:+ ".txt") (new_data +:+ newline)) w).
Proof.
  unfold build_error_text_file, append_text, modify, set_files, append_line.
  destruct (files w !! (file_export_name +:+ ".txt")); reflexivity.
Qed.

Lemma append_line_other (path line p : string) (fs : gmap string string) :
  p <> path -> append_line path line fs !! p = fs !! p.
Proof. intros Hp. unfold append_line. apply lookup_insert_ne. congruence. Qed.

Lemma append_line_same (path line : string) (fs : gmap string string) :
  append_line path line fs !! path = Some (default "" (fs !! path) +:+ line).
Proof. unfold append_line. apply lookup_insert_eq. Qed.

Lemma append_lines_lookup (path : string) (lines : list string) :
  forall fs : gmap string string,
    lines <> [] ->
    fold_left (fun fs l => append_line path (l +:+ newline) fs) lines fs !! path
    = Some (default "" (fs !! path) +:+ join_lines lines).
Proof.
  induction lines as [| l lines IH]; intros fs Hne; [congruence |].
  simpl fold_left. destruct lines as [| l' lines].
  - simpl. rewrite append_line_same, append_empty_r. reflexivity.
  - rewrite IH by discriminate. rewrite append_line_same. simpl default.
    change (join_lines (l :: l' :: lines))
      with ((l +:+ newline) +:+ join_lines (l' :: lines)).
    rewrite append_assoc_string. reflexivity.
Qed.

Lemma append_lines_other (path p : string) (lines : list string) :
  p <> path ->
  forall fs : gmap string string,
    fold_left (fun fs l => append_line path (l +:+ newline) fs) lines fs !! p = fs !! p.
Proof.
  intros Hp. induction lines as [| l lines IH]; intros fs; [reflexivity |].
  simpl. rewrite IH. apply append_line_other. exact Hp.
Qed.

Lemma text_lines_join (lines : list string) :
  forallb one_line lines = true -> text_lines (join_lines lines) = lines.
Proof.
  unfold text_lines. induction lines as [| l lines IH]; intros Hall; [reflexivity |].
  simpl in Hall. apply andb_true_iff in Hall as [Hl Hall].
  change (join_lines (l :: lines)) with ((l +:+ newline) +:+ join_lines lines).
  rewrite append_assoc_string, text_lines_from_line by exact Hl.
  rewrite append_empty_l, IH by exact Hall. reflexivity.
Qed.

Lemma error_lines_run (file_export_name : string) (lines : list string) :
  forall w : world,
    for_each lines (fun l => build_error_text_file l file_export_name) w
    = (Ok tt,
       set_files (fun fs =>
                    fold_left (fun fs l =>
                                 append_line (file_export_name +:+ ".txt")
                                   (l +:+ newline) fs) lines fs) w).
Proof.
  induction lines as [| l lines IH]; intros w.
  - destruct w; reflexivity.
  - simpl for_each. unfold bind. rewrite build_error_text_file_run, IH.
    reflexivity.
Qed.

(** X1.  Records written one after the other with [build_error_text_file]
    end up behind what the file held, one line each and in the order of
    the calls; no other file changes.  Written to a file that did not
    exist, records without line feeds are exactly the lines of the
    file. *)
Theorem build_error_text_file_keeps_lines :
  forall (file_export_name : string) (lines : list string) (w : world),
    lines <> [] ->
    exists w',
      for_each lines (fun l => build_error_text_file l file_export_name) w = (Ok tt, w') /\
      files w' !! (file_export_name +:+ ".txt")
        = Some (default "" (files w !! (file_export_name +:+ ".txt"))
                +:+ join_lines lines) /\
      (forall p, p <> file_export_name +:+ ".txt" -> files w' !! p = files w !! p) /\
      (files w !! (file_export_name +:+ ".txt") = None ->
       forallb one_line lines = true ->
       option_map text_lines (files w' !! (file_export_name +:+ ".txt")) = Some lines).
Proof.
  intros file_export_name lines w Hne.
  eexists. split; [apply error_lines_run |].
  assert (Hfile : files (set_files (fun fs =>
                    fold_left (fun fs l =>
                                 append_line (file_export_name +:+ ".txt")
                                   (l +:+ newline) fs) lines fs) w)
                  !! (file_export_name +:+ ".txt")
                  = Some (default "" (files w !! (file_export_name +:+ ".txt"))
                          +:+ join_lines lines)).
  { simpl. apply append_lines_lookup. exact Hne. }
  split; [exact Hfile |].
  split.
  - intros p Hp. simpl. apply append_lines_other. exact Hp.
  - intros Habsent Hlines. rewrite Hfile, Habsent. simpl.
    rewrite append_empty_l, text_lines_join by exact Hlines. reflexivity.
Qed.

Lemma array_or_other (doc : json) :
  (exists items, doc = JArr items) \/ (forall items, doc <> JArr items).
Proof. destruct doc; try (right; discriminate). left. eauto. Qed.

Section ExporterFurther.

Variable json_dumps : json -> string.
Variable json_loads : string -> option json.

Local Abbreviation export := (build_json_file json_dumps json_loads).

Lemma export_present_undecodable (new_data : json) (name : string) (w : world)
    (s : string) :
  files w !! (name +:+ ".json") = Some s ->
  json_loads s = None ->
  export new_data name w
  = (Raise JSONDecodeError, add_call (CallBuildJson new_data name) w).
Proof.
  intros Hfile Hparse.
  unfold build_json_file, bind, modify, os_path_exists, gets, json_load, json_dump, lift;
    simpl.
  repeat (rewrite ?Hfile, ?Hparse; simpl). reflexivity.
Qed.

(** X2.  An export changes no file but the one it is given.  Onto a
    file that cannot be extended the export fails before it writes: when
    the contents of the file are not read as a JSON document, and when
    they are a document that is not an array (then with
    [AttributeError], for the missing [append]), it raises and every
    file, the one it was given included, holds what it held. *)
Theorem build_json_file_failure :
  forall (new_data : json) (name : string) (w : world),
    (forall p, p <> name +:+ ".json" ->
               files (snd (export new_data name w)) !! p = files w !! p) /\
    (forall s,
        files w !! (name +:+ ".json") = Some s ->
        json_loads s = None ->
        exists e w',
          export new_data name w = (Raise e, w') /\ files w' = files w) /\
    (forall s doc,
        files w !! (name +:+ ".json") = Some s ->
        json_loads s = Some doc ->
        (forall items, doc <> JArr items) ->
        exists w',
          export new_data name w = (Raise (AttributeError "append"), w') /\
          files w' = files w).
Proof.
  intros new_data name w. split; [| split].
  - destruct (files w !! (name +:+ ".json")) as [s |] eqn:Hfile.
    + destruct (json_loads s) as [doc |] eqn:Hparse.
      * destruct (array_or_other doc) as [[old ->] | Hother].
        -- rewrite (export_present_array json_dumps json_loads new_data name w s old
                      Hfile Hparse).
           intros p Hp. simpl. apply lookup_insert_ne. congruence.
        -- rewrite (export_present_other json_dumps json_loads new_data name w s doc
                      Hfile Hparse Hother).
           reflexivity.
      * rewrite (export_present_undecodable new_data name w s Hfile Hparse).
        reflexivity.
    + rewrite (export_absent json_dumps json_loads new_data name w Hfile).
      intros p Hp. simpl. apply lookup_insert_ne. congruence.
  - intros s Hfile Hparse.
    rewrite (export_present_undecodable new_data name w s Hfile Hparse).
    eexists _, _. split; reflexivity.
  - intros s doc Hfile Hparse Hother.
    rewrite (export_present_other json_dumps json_loads new_data name w s doc
               Hfile Hparse Hother).
    eexists. split; reflexivity.
Qed.

Hypothesis codec_faithful : forall j, faithful json_dumps json_loads j.



End ExporterFurther.
(** ** The data source client, attempt by attempt *)

Lemma for_loop_raises {A S : Type} (x : A) (xs : list A) (body : A -> S -> M (ctl * S))
    (s : S) (w w' : world) (e : exn) :
  body x s w = (Raise e, w') -> for_loop (x :: xs) body s w = (Raise e, w').
Proof. intros Hbody. simpl. unfold bind. rewrite Hbody. reflexivity. Qed.

Lemma for_loop_breaks {A S : Type} (x : A) (xs : list A) (body : A -> S -> M (ctl * S))
    (s s' : S) (w w' : world) :
  body x s w = (Ok (Break, s'), w') -> for_loop (x :: xs) body s w = (Ok s', w').
Proof. intros Hbody. simpl. unfold bind. rewrite Hbody. reflexivity. Qed.

Lemma for_loop_continues {A S : Type} (x : A) (xs : list A)
    (body : A -> S -> M (ctl * S)) (s s' : S) (w w' : world) :
  body x s w = (Ok (Continue, s'), w') ->
  for_loop (x :: xs) body s w = for_loop xs body s' w'.
Proof. intros Hbody. simpl. unfold bind. rewrite Hbody. reflexivity. Qed.

Lemma replicate_snoc {A : Type} (n : nat) (x : A) :
  replicate n x ++ [x] = replicate (S n) x.
Proof. induction n as [| n IH]; simpl; [reflexivity | rewrite IH; reflexivity]. Qed.

Lemma failures_effect_nil (url error_file : string) (w : world) :
  failures_effect url error_file [] w w.
Proof.
  unfold failures_effect. simpl. rewrite !app_nil_r. repeat split.
Qed.

Lemma failures_effect_cons (url error_file : string) (e : exn) (es : list exn)
    (w w1 w' : world) :
  failures_effect url error_file [e] w w1 ->
  failures_effect url error_file es w1 w' ->
  failures_effect url error_file (e :: es) w w'.
Proof.
  intros (Hl1 & Hf1 & Hr1 & Hs1 & Hc1 & Ht1) (Hl & Hf & Hr & Hs & Hc & Ht).
  unfold failures_effect.
  rewrite Hl, Hl1, Hf, Hf1, Hr, Hr1, Hs, Hs1, Hc, Hc1, Ht, Ht1.
  simpl flat_map. rewrite !app_nil_r, <- !app_assoc.
  repeat split.
  destruct e; try reflexivity.
  symmetry. apply Nat.iter_succ_r.
Qed.

Section ClientFurther.

Variable http_get : list string -> string -> get_outcome.
Variable json_loads : string -> option json.
Variable py_repr : json -> string.

Section AttemptEffects.

Context {S : Type} (rest : S -> response -> M (ctl * S)).
Variables (url error_file : string).

Local Abbreviation attempt :=
  (fun local : S =>
     try_catch (r <- requests_get http_get url ;; rest local r)
       (on_error url error_file local)).

(** One caught failure. *)
Lemma attempt_caught_effect (local : S) (w : world) (e : exn) :
  caught e ->
  http_get (requests w) url = GetRaises e ->
  exists w',
    attempt local w = (Ok (Continue, local), w') /\
    failures_effect url error_file [e] w w'.
Proof.
  intros He Hget. destruct e; try contradiction.
  - destruct (attempt_json_failure http_get (rest local) url error_file local w Hget)
      as (w' & Hrun & (Hl & Hf & Hr) & Hs & Hc & Ht).
    exists w'. split; [exact Hrun |].
    unfold failures_effect. simpl. rewrite ?app_nil_r. repeat split; assumption.
  - destruct (attempt_http_failure http_get (rest local) url error_file local w msg Hget)
      as (w' & Hrun & (Hl & Hf & Hr) & Hs & Hc & Ht).
    exists w'. split; [exact Hrun |].
    unfold failures_effect. simpl. rewrite ?app_nil_r. repeat split; assumption.
Qed.

(** An exception no clause names leaves the attempt as it came. *)
Lemma attempt_uncaught (local : S) (w : world) (e : exn) :
  ~ caught e ->
  http_get (requests w) url = GetRaises e ->
  attempt local w = (Raise e, add_request url w).
Proof.
  intros He Hget. unfold try_catch, bind, requests_get. rewrite Hget.
  destruct e; simpl in He; try reflexivity; exfalso; apply He; exact I.
Qed.

(** The failed passes of a retry loop, with what they leave behind. *)
Lemma retry_loop_effects (es : list exn) :
  forall (xs : list nat) (local : S) (w : world),
    Forall caught es ->
    plays http_get url (requests w) (map GetRaises es) ->
    (length es <= length xs)%nat ->
    exists w',
      for_loop xs (fun _ => attempt) local w
        = for_loop (drop (length es) xs) (fun _ => attempt) local w' /\
      failures_effect url error_file es w w'.
Proof.
  induction es as [| e es IH]; intros xs local w Hcaught Hplay Hlen.
  - exists w. split; [rewrite drop_0; reflexivity | apply failures_effect_nil].
  - destruct xs as [| x xs]; [simpl in Hlen; lia |].
    inversion Hcaught as [| ? ? He Hes]; subst.
    destruct Hplay as [Hget Hplay].
    destruct (attempt_caught_effect local w e He Hget) as (w1 & Hrun & Hone).
    assert (Hreq : requests w1 = requests w ++ [url]).
    { destruct Hone as (_ & _ & Hr & _). exact Hr. }
    rewrite <- Hreq in Hplay.
    destruct (IH xs local w1 Hes Hplay) as (w' & Hloop & Hrest);
      [simpl in Hlen; lia |].
    exists w'. split.
    + rewrite (for_loop_continues _ _ _ _ _ _ _ Hrun). exact Hloop.
    + eapply failures_effect_cons; eassumption.
Qed.

End AttemptEffects.

(** *** The two searches *)

Section Search.

Variables (delay : Z) (url error_file : string).

Local Abbreviation search_attempt :=
  (fun local : option response =>
     try_catch (r <- requests_get http_get url ;;
                time_sleep delay ;;; ret (Break, Some r))
       (on_error url error_file local)).

Lemma search_loop_answered (num_retries : Z) (w : world) (es : list exn) (r : response) :
  Forall caught es ->
  (length es < Z.to_nat (num_retries + 1))%nat ->
  plays http_get url (requests w) (map GetRaises es ++ [Responded r]) ->
  exists w1,
    failures_effect url error_file es w w1 /\
    for_loop (py_range (num_retries + 1)) (fun _ => search_attempt) None w
    = (Ok (Some r), add_sleep delay (add_request url w1)).
Proof.
  intros Hcaught Hlen Hplay.
  apply (plays_app http_get json_loads) in Hplay as [Hplay [Hget _]].
  rewrite length_map in Hget.
  destruct (retry_loop_effects (fun (_ : option response) r =>
                                  time_sleep delay ;;; ret (Break, Some r))
              url error_file es (py_range (num_retries + 1)) None w Hcaught Hplay)
    as (w1 & Hloop & Heffect).
  { rewrite py_range_length. lia. }
  exists w1. split; [exact Heffect |].
  rewrite Hloop. rewrite py_range_drop by exact Hlen.
  apply for_loop_breaks.
  destruct Heffect as (_ & _ & Hreq & _). rewrite <- Hreq in Hget.
  unfold try_catch, bind, requests_get. rewrite Hget. reflexivity.
Qed.

Lemma search_loop_uncaught (num_retries : Z) (w : world) (es : list exn) (e : exn) :
  Forall caught es ->
  (length es < Z.to_nat (num_retries + 1))%nat ->
  ~ caught e ->
  plays http_get url (requests w) (map GetRaises es ++ [GetRaises e]) ->
  exists w1,
    failures_effect url error_file es w w1 /\
    for_loop (py_range (num_retries + 1)) (fun _ => search_attempt) None w
    = (Raise e, add_request url w1).
Proof.
  intros Hcaught Hlen He Hplay.
  apply (plays_app http_get json_loads) in Hplay as [Hplay [Hget _]].
  rewrite length_map in Hget.
  destruct (retry_loop_effects (fun (_ : option response) r =>
                                  time_sleep delay ;;; ret (Break, Some r))
              url error_file es (py_range (num_retries + 1)) None w Hcaught Hplay)
    as (w1 & Hloop & Heffect).
  { rewrite py_range_length. lia. }
  exists w1. split; [exact Heffect |].
  rewrite Hloop. rewrite py_range_drop by exact Hlen.
  apply for_loop_raises.
  destruct Heffect as (_ & _ & Hreq & _). rewrite <- Hreq in Hget.
  apply (attempt_uncaught (fun (_ : option response) r =>
                             time_sleep delay ;;; ret (Break, Some r))
           url error_file None w1 e He Hget).
Qed.

End Search.

(** What a search that was answered after the failures [es] has done to
    the world. *)
Lemma get_submissions_answered (self : CollectRedditPSIOData)
    (query subreddit before_date after_date : string) (num_retries : Z) (w : world)
    (es : list exn) (r : response) :
  let url := submissions_url self query subreddit before_date after_date in
  Forall caught es ->
  (length es < Z.to_nat (num_retries + 1))%nat ->
  plays http_get url (requests w) (map GetRaises es ++ [Responded r]) ->
  exists w',
    get_submissions http_get json_loads self query subreddit before_date after_date
      num_retries w = (response_json json_loads r, w') /\
    logs w' = logs w ++ flat_map (failure_messages url) es /\
    files w' = Nat.iter (decode_failures es)
                 (append_line ("submissions_error" +:+ ".txt") (url +:+ newline))
                 (files w) /\
    requests w' = requests w ++ replicate (S (length es)) url /\
    slept w' = slept w + time_delay self.
Proof.
  intros url Hcaught Hlen Hplay.
  destruct (search_loop_answered (time_delay self) url "submissions_error" num_retries
              (add_call (CallGetSubmissions query subreddit before_date after_date) w)
              es r Hcaught Hlen Hplay)
    as (w1 & (Hl & Hf & Hr & Hs & Hc & Ht) & Hloop).
  eexists. split.
  - unfold get_submissions, bind at 1, modify. unfold bind at 1.
    change (for_loop (py_range (num_retries + 1))
              (fun _ : nat => submissions_attempt http_get self query subreddit
                                before_date after_date) None)
      with (for_loop (py_range (num_retries + 1))
              (fun _ : nat => fun local : option response =>
                 try_catch (r <- requests_get http_get url ;;
                            time_sleep (time_delay self) ;;; ret (Break, Some r))
                   (on_error url "submissions_error" local)) None).
    rewrite Hloop. unfold lift. reflexivity.
  - simpl. rewrite Hl, Hf, Hr, Hs. simpl.
    repeat split. rewrite <- app_assoc, replicate_snoc. reflexivity.
Qed.

Lemma repeat_text_snoc (s : string) (n : nat) :
  repeat_text s n +:+ s = s +:+ repeat_text s n.
Proof.
  induction n as [| n IH]; simpl.
  - rewrite append_empty_l, append_empty_r. reflexivity.
  - rewrite append_assoc_string, IH. reflexivity.
Qed.

Lemma iter_append_line_same (path line : string) (n : nat) (fs : gmap string string) :
  Nat.iter (S n) (append_line path line) fs !! path
  = Some (default "" (fs !! path) +:+ repeat_text line (S n)).
Proof.
  induction n as [| n IH].
  - simpl. rewrite append_line_same, append_empty_r. reflexivity.
  - change (Nat.iter (S (S n)) (append_line path line) fs)
      with (append_line path line (Nat.iter (S n) (append_line path line) fs)).
    rewrite append_line_same, IH.
    change (default "" (Some ?x)) with x.
    rewrite append_assoc_string.
    rewrite (repeat_text_snoc line (S n)). reflexivity.
Qed.

Lemma iter_append_line_other (path line p : string) (n : nat)
    (fs : gmap string string) :
  p <> path -> Nat.iter n (append_line path line) fs !! p = fs !! p.
Proof.
  intros Hp. induction n as [| n IH]; [reflexivity |].
  simpl. rewrite append_line_other by exact Hp. exact IH.
Qed.

Lemma text_lines_repeat (u : string) (n : nat) :
  one_line u = true ->
  text_lines (repeat_text (u +:+ newline) n) = replicate n u.
Proof.
  intros Hu. unfold text_lines. induction n as [| n IH]; [reflexivity |].
  simpl repeat_text. rewrite append_assoc_string, text_lines_from_line by exact Hu.
  rewrite append_empty_l, IH. reflexivity.
Qed.

(** A file that did not exist and got [n] times the line [u] has [n]
    lines. *)
Lemma file_line_count_iter (w w' : world) (path u : string) (n : nat) :
  files w' = Nat.iter n (append_line path (u +:+ newline)) (files w) ->
  files w !! path = None ->
  one_line u = true ->
  file_line_count w' path = n.
Proof.
  intros Hfiles Habsent Hu. unfold file_line_count. rewrite Hfiles.
  destruct n as [| n]; [simpl; rewrite Habsent; reflexivity |].
  rewrite iter_append_line_same, Habsent. simpl default.
  rewrite append_empty_l, text_lines_repeat by exact Hu.
  apply length_replicate.
Qed.

Lemma py_join_strings (sep : string) (ss : list string) :
  py_join sep (map JStr ss) = Ok (join_strings sep ss).
Proof.
  induction ss as [| s ss IH]; [reflexivity |].
  destruct ss as [| s' ss]; [reflexivity |].
  change (py_join sep (map JStr (s :: s' :: ss)))
    with (res_bind (py_join sep (map JStr (s' :: ss)))
            (fun t => Ok (s +:+ sep +:+ t))).
  rewrite IH. reflexivity.
Qed.

Lemma py_join_not_strings (sep : string) (xs : list json) :
  forallb is_str xs = false -> py_join sep xs = Raise TypeError.
Proof.
  induction xs as [| x xs IH]; [discriminate |].
  intros Hall. destruct x; try reflexivity.
  simpl in Hall. specialize (IH Hall).
  destruct xs as [| y xs]; [discriminate Hall |].
  change (py_join sep (JStr s :: y :: xs))
    with (res_bind (py_join sep (y :: xs)) (fun t => Ok (s +:+ sep +:+ t))).
  rewrite IH. reflexivity.
Qed.

Lemma get_comments_answered (self : CollectRedditPSIOData) (list_comments_ids : list json)
    (strings_comments : string) (num_retries : Z) (w : world)
    (es : list exn) (r : response) :
  let url := comments_url strings_comments in
  py_join "," list_comments_ids = Ok strings_comments ->
  Forall caught es ->
  (length es < Z.to_nat (num_retries + 1))%nat ->
  plays http_get url (requests w) (map GetRaises es ++ [Responded r]) ->
  exists w',
    get_comments http_get json_loads self list_comments_ids num_retries w
      = (response_json json_loads r, w') /\
    logs w' = logs w ++ flat_map (failure_messages url) es /\
    files w' = Nat.iter (decode_failures es)
                 (append_line ("comment_error" +:+ ".txt") (url +:+ newline))
                 (files w) /\
    requests w' = requests w ++ replicate (S (length es)) url /\
    slept w' = slept w + time_delay self.
Proof.
  intros url Hjoin Hcaught Hlen Hplay.
  destruct (search_loop_answered (time_delay self) url "comment_error" num_retries
              (add_call (CallGetComments list_comments_ids) w)
              es r Hcaught Hlen Hplay)
    as (w1 & (Hl & Hf & Hr & Hs & Hc & Ht) & Hloop).
  eexists. split.
  - unfold get_comments, bind at 1, modify. unfold bind at 1, lift at 1.
    rewrite Hjoin. unfold bind at 1.
    change (for_loop (py_range (num_retries + 1))
              (fun _ : nat => comments_attempt http_get self strings_comments) None)
      with (for_loop (py_range (num_retries + 1))
              (fun _ : nat => fun local : option response =>
                 try_catch (r <- requests_get http_get url ;;
                            time_sleep (time_delay self) ;;; ret (Break, Some r))
                   (on_error url "comment_error" local)) None).
    rewrite Hloop. unfold lift. reflexivity.
  - simpl. rewrite Hl, Hf, Hr, Hs. simpl.
    repeat split. rewrite <- app_assoc, replicate_snoc. reflexivity.
Qed.

(** X4.  A fetch of submissions that is answered, after failures that
    the retry budget covers, with a body that decodes: it returns the
    decoded body; it has issued one request per failure and one more,
    all for the same URL; it has slept once, after the request that was
    answered; it has logged three messages per decode failure and two
    per HTTP error; and the error file has gained the URL once per
    decode failure, so that an error file that did not exist has as many
    lines as there were decode failures. *)
Theorem get_submissions_accounting :
  forall (self : CollectRedditPSIOData)
         (query subreddit before_date after_date : string) (num_retries : Z)
         (w : world) (es : list exn) (r : response) (payload : json),
    let url := submissions_url self query subreddit before_date after_date in
    Forall caught es ->
    (length es < Z.to_nat (num_retries + 1))%nat ->
    plays http_get url (requests w) (map GetRaises es ++ [Responded r]) ->
    json_loads (text r) = Some payload ->
    exists w',
      get_submissions http_get json_loads self query subreddit before_date after_date
        num_retries w = (Ok payload, w') /\
      requests w' = requests w ++ replicate (S (length es)) url /\
      slept w' = slept w + time_delay self /\
      logs w' = logs w ++ flat_map (failure_messages url) es /\
      files w' = Nat.iter (decode_failures es)
                   (append_line "submissions_error.txt" (url +:+ newline)) (files w) /\
      (files w !! "submissions_error.txt" = None ->
       one_line url = true ->
       file_line_count w' "submissions_error.txt" = decode_failures es).
Proof.
  intros self query subreddit before_date after_date num_retries w es r payload url
    Hcaught Hlen Hplay Hpayload.
  destruct (get_submissions_answered self query subreddit before_date after_date
              num_retries w es r Hcaught Hlen Hplay)
    as (w' & Hrun & Hl & Hf & Hr & Hs).
  unfold response_json in Hrun. rewrite Hpayload in Hrun.
  exists w'. repeat split; try assumption.
  intros Habsent Hline. eapply file_line_count_iter; eassumption.
Qed.

(** X5.  A fetch of comments for ids that are all strings asks for the
    ids joined by commas; answered, after failures that the retry budget
    covers, with a body that decodes, it returns the decoded body and
    has done to the world what a fetch of submissions does, with
    "comment_error.txt" as its error file. *)
Theorem get_comments_accounting :
  forall (self : CollectRedditPSIOData) (ids : list string) (num_retries : Z)
         (w : world) (es : list exn) (r : response) (payload : json),
    let url := "https://api.pushshift.io/reddit/search/comment?ids="
               +:+ join_strings "," ids in
    Forall caught es ->
    (length es < Z.to_nat (num_retries + 1))%nat ->
    plays http_get url (requests w) (map GetRaises es ++ [Responded r]) ->
    json_loads (text r) = Some payload ->
    exists w',
      get_comments http_get json_loads self (map JStr ids) num_retries w
        = (Ok payload, w') /\
      requests w' = requests w ++ replicate (S (length es)) url /\
      slept w' = slept w + time_delay self /\
      logs w' = logs w ++ flat_map (failure_messages url) es /\
      files w' = Nat.iter (decode_failures es)
                   (append_line "comment_error.txt" (url +:+ newline)) (files w) /\
      (files w !! "comment_error.txt" = None ->
       one_line url = true ->
       file_line_count w' "comment_error.txt" = decode_failures es).
Proof.
  intros self ids num_retries w es r payload url Hcaught Hlen Hplay Hpayload.
  destruct (get_comments_answered self (map JStr ids) (join_strings "," ids)
              num_retries w es r (py_join_strings "," ids) Hcaught Hlen Hplay)
    as (w' & Hrun & Hl & Hf & Hr & Hs).
  unfold response_json in Hrun. rewrite Hpayload in Hrun.
  exists w'. repeat split; try assumption.
  intros Habsent Hline. eapply file_line_count_iter; eassumption.
Qed.

(** X6.  The two searches decode the answer behind their retry loop.  An
    answer whose body does not decode makes them raise [JSONDecodeError]
    at once: the request is not repeated although retries may be left,
    nothing is logged for it and no line goes to the error file. *)
Theorem search_answer_not_decoded :
  forall (self : CollectRedditPSIOData) (num_retries : Z) (w : world)
         (es : list exn) (r : response),
    Forall caught es ->
    (length es < Z.to_nat (num_retries + 1))%nat ->
    json_loads (text r) = None ->
    (forall query subreddit before_date after_date,
        let url := submissions_url self query subreddit before_date after_date in
        plays http_get url (requests w) (map GetRaises es ++ [Responded r]) ->
        exists w',
          get_submissions http_get json_loads self query subreddit before_date
            after_date num_retries w = (Raise JSONDecodeError, w') /\
          requests w' = requests w ++ replicate (S (length es)) url /\
          logs w' = logs w ++ flat_map (failure_messages url) es /\
          files w' = Nat.iter (decode_failures es)
                       (append_line "submissions_error.txt" (url +:+ newline))
                       (files w)) /\
    (forall list_comments_ids strings_comments,
        let url := comments_url strings_comments in
        py_join "," list_comments_ids = Ok strings_comments ->
        plays http_get url (requests w) (map GetRaises es ++ [Responded r]) ->
        exists w',
          get_comments http_get json_loads self list_comments_ids num_retries w
            = (Raise JSONDecodeError, w') /\
          requests w' = requests w ++ replicate (S (length es)) url /\
          logs w' = logs w ++ flat_map (failure_messages url) es /\
          files w' = Nat.iter (decode_failures es)
                       (append_line "comment_error.txt" (url +:+ newline))
                       (files w)).
Proof.
  intros self num_retries w es r Hcaught Hlen Hbody. split.
  - intros query subreddit before_date after_date url Hplay.
    destruct (get_submissions_answered self query subreddit before_date after_date
                num_retries w es r Hcaught Hlen Hplay)
      as (w' & Hrun & Hl & Hf & Hr & Hs).
    unfold response_json in Hrun. rewrite Hbody in Hrun.
    exists w'. repeat split; assumption.
  - intros list_comments_ids strings_comments url Hjoin Hplay.
    destruct (get_comments_answered self list_comments_ids strings_comments
                num_retries w es r Hjoin Hcaught Hlen Hplay)
      as (w' & Hrun & Hl & Hf & Hr & Hs).
    unfold response_json in Hrun. rewrite Hbody in Hrun.
    exists w'. repeat split; assumption.
Qed.

(** X7.  A fetch of comments for a list that holds anything but strings
    raises [TypeError] when it joins the ids, before its retry loop: no
    request is issued, nothing is logged, no file is written. *)
Theorem get_comments_rejects_non_strings :
  forall (self : CollectRedditPSIOData) (list_comments_ids : list json)
         (num_retries : Z) (w : world),
    forallb is_str list_comments_ids = false ->
    exists w',
      get_comments http_get json_loads self list_comments_ids num_retries w
        = (Raise TypeError, w') /\
      requests w' = requests w /\ logs w' = logs w /\
      files w' = files w /\ slept w' = slept w.
Proof.
  intros self list_comments_ids num_retries w Hids.
  eexists. split.
  - unfold get_comments, bind at 1, modify. unfold bind at 1, lift at 1.
    rewrite (py_join_not_strings "," _ Hids). reflexivity.
  - repeat split.
Qed.

(** *** The comment-id lookup *)

Lemma lookup_effect_nil (url error_file : string) (delay : Z) (w : world) :
  lookup_effect url error_file delay [] w w.
Proof.
  unfold lookup_effect. simpl. rewrite !app_nil_r. repeat split. lia.
Qed.

Lemma lookup_effect_cons (url error_file : string) (delay : Z) (o : get_outcome)
    (os : list get_outcome) (w w1 w' : world) :
  lookup_effect url error_file delay [o] w w1 ->
  lookup_effect url error_file delay os w1 w' ->
  lookup_effect url error_file delay (o :: os) w w'.
Proof.
  intros (Hl1 & Hf1 & Hr1 & Hs1 & Hc1 & Ht1) (Hl & Hf & Hr & Hs & Hc & Ht).
  unfold lookup_effect.
  rewrite Hl, Hl1, Hf, Hf1, Hr, Hr1, Hs, Hs1, Hc, Hc1, Ht, Ht1.
  simpl flat_map. rewrite !app_nil_r, <- !app_assoc.
  split; [reflexivity |]. split; [| split; [reflexivity | split; [| split; reflexivity]]].
  - destruct o as [r | e]; [symmetry; apply Nat.iter_succ_r |].
    destruct e; try reflexivity. symmetry. apply Nat.iter_succ_r.
  - destruct o as [r | e]; simpl answered; lia.
Qed.

Section Lookup.

Variables (self : CollectRedditPSIOData) (submission_id : json).

Local Abbreviation lookup_url := (comment_ids_url py_repr submission_id).
Local Abbreviation lookup_attempt :=
  (comment_ids_attempt http_get json_loads py_repr self submission_id).

(** One failed pass: the request raised a caught exception, or its
    answer did not decode. *)
Lemma lookup_attempt_effect (acc : list json) (w : world) (o : get_outcome) :
  lookup_fails json_loads o ->
  http_get (requests w) lookup_url = o ->
  exists w',
    lookup_attempt acc w = (Ok (Continue, acc), w') /\
    lookup_effect lookup_url "submission_id_error" (time_delay self) [o] w w'.
Proof.
  intros Hfail Hget. destruct o as [r | e]; simpl in Hfail.
  - destruct (comment_ids_attempt_bad_body http_get json_loads py_repr self submission_id
                acc w r Hget Hfail)
      as (w' & Hrun & (Hl & Hf & Hr) & Hs & Hc & Ht).
    exists w'. split; [exact Hrun |].
    unfold lookup_effect. simpl. rewrite ?app_nil_r.
    repeat split; try assumption. rewrite Hs. lia.
  - unfold comment_ids_attempt.
    match goal with
    | |- context [try_catch (r <- requests_get http_get ?u ;; @?k r) (on_error ?u ?f ?l)] =>
        destruct (attempt_caught_effect (fun _ : list json => k) u f l w e Hfail Hget)
          as (w' & Hrun & (Hl & Hf & Hr & Hs & Hc & Ht))
    end.
    exists w'. split; [exact Hrun |].
    unfold lookup_effect.
    split; [exact Hl |]. split; [destruct e; exact Hf |]. split; [exact Hr |].
    split; [rewrite Hs; simpl; lia |]. split; assumption.
Qed.

Lemma lookup_loop_effects (os : list get_outcome) :
  forall (xs : list nat) (acc : list json) (w : world),
    Forall (lookup_fails json_loads) os ->
    plays http_get lookup_url (requests w) os ->
    (length os <= length xs)%nat ->
    exists w',
      for_loop xs (fun _ => lookup_attempt) acc w
        = for_loop (drop (length os) xs) (fun _ => lookup_attempt) acc w' /\
      lookup_effect lookup_url "submission_id_error" (time_delay self) os w w'.
Proof.
  induction os as [| o os IH]; intros xs acc w Hfail Hplay Hlen.
  - exists w. split; [rewrite drop_0; reflexivity | apply lookup_effect_nil].
  - destruct xs as [| x xs]; [simpl in Hlen; lia |].
    inversion Hfail as [| ? ? Ho Hos]; subst.
    destruct Hplay as [Hget Hplay].
    destruct (lookup_attempt_effect acc w o Ho Hget) as (w1 & Hrun & Hone).
    assert (Hreq : requests w1 = requests w ++ [lookup_url]).
    { destruct Hone as (_ & _ & Hr & _). exact Hr. }
    rewrite <- Hreq in Hplay.
    destruct (IH xs acc w1 Hos Hplay) as (w' & Hloop & Hrest);
      [simpl in Hlen; lia |].
    exists w'. split.
    + rewrite (for_loop_continues x xs (fun _ => lookup_attempt) _ _ _ _ Hrun).
      exact Hloop.
    + eapply lookup_effect_cons; eassumption.
Qed.

Lemma pairs_of_body_raises (body : json) (e : exn) :
  pairs_of_body submission_id body = Raise e -> e = KeyError "data" \/ e = TypeError.
Proof.
  unfold pairs_of_body, py_getitem.
  destruct body; simpl; try (intros [= <-]; right; reflexivity).
  destruct (assoc_lookup "data" fields) as [data |]; simpl;
    [| intros [= <-]; left; reflexivity].
  destruct data; simpl; intros [= <-] || intros [=]; right; reflexivity.
Qed.

Lemma lookup_attempt_decoded (acc : list json) (w : world) (r : response) (body : json) :
  http_get (requests w) lookup_url = Responded r ->
  json_loads (text r) = Some body ->
  lookup_attempt acc w
  = (match pairs_of_body submission_id body with
     | Ok pairs => Ok (Break, acc ++ pairs)
     | Raise e => Raise e
     end,
     add_sleep (time_delay self) (add_request lookup_url w)).
Proof.
  intros Hget Hbody.
  unfold comment_ids_attempt, try_catch, bind, requests_get, lift, response_json.
  rewrite Hget. simpl. rewrite Hbody. simpl.
  destruct (pairs_of_body submission_id body) as [pairs | e] eqn:Hpairs.
  - unfold pairs_of_body in Hpairs.
    destruct (py_getitem body "data") as [data | e]; simpl in *; [| discriminate].
    destruct (py_iter data) as [ids | e]; simpl in *; [| discriminate].
    injection Hpairs as <-. reflexivity.
  - destruct (pairs_of_body_raises body e Hpairs) as [-> | ->];
      unfold pairs_of_body in Hpairs;
      destruct (py_getitem body "data") as [data | e]; simpl in *;
      try (destruct (py_iter data) as [ids | e']; simpl in *; [discriminate |]);
      injection Hpairs as ->; reflexivity.
Qed.

Lemma get_comment_ids_decoded (num_retries : Z) (w : world) (os : list get_outcome)
    (r : response) (body : json) :
  Forall (lookup_fails json_loads) os ->
  (length os < Z.to_nat (num_retries + 1))%nat ->
  plays http_get lookup_url (requests w) (os ++ [Responded r]) ->
  json_loads (text r) = Some body ->
  exists w',
    get_comments_id_from_submissions_id http_get json_loads py_repr self submission_id
      num_retries w
    = (match pairs_of_body submission_id body with
       | Ok [] => Ok [id_pair submission_id (JStr "N/A")]
       | Ok pairs => Ok pairs
       | Raise e => Raise e
       end, w') /\
    logs w' = logs w ++ flat_map (outcome_messages lookup_url) os /\
    files w' = Nat.iter (outcome_decode_failures os)
                 (append_line "submission_id_error.txt" (lookup_url +:+ newline))
                 (files w) /\
    requests w' = requests w ++ replicate (S (length os)) lookup_url /\
    slept w' = slept w + time_delay self * Z.of_nat (S (answered os)).
Proof.
  intros Hfail Hlen Hplay Hbody.
  apply (plays_app http_get json_loads) in Hplay as [Hplay [Hget _]].
  destruct (lookup_loop_effects os (py_range (num_retries + 1)) []
              (add_call (CallGetCommentIds submission_id) w) Hfail Hplay)
    as (w1 & Hloop & (Hl & Hf & Hr & Hs & Hc & Ht)).
  { rewrite py_range_length. lia. }
  simpl in Hr. rewrite <- Hr in Hget.
  pose proof (lookup_attempt_decoded [] w1 r body Hget Hbody) as Hrun.
  eexists. split.
  - unfold get_comments_id_from_submissions_id, bind at 1, modify. unfold bind at 1.
    rewrite Hloop. rewrite py_range_drop by exact Hlen.
    destruct (pairs_of_body submission_id body) as [pairs | e].
    + rewrite (for_loop_breaks (length os) _ (fun _ => lookup_attempt) _ _ _ _ Hrun). simpl.
      destruct pairs; reflexivity.
    + rewrite (for_loop_raises (length os) _ (fun _ => lookup_attempt) _ _ _ _ Hrun).
      reflexivity.
  - destruct (pairs_of_body submission_id body) as [[| p pairs] | e]; simpl;
      rewrite Hl, Hf, Hr, Hs; simpl;
      (split; [reflexivity |]); (split; [reflexivity |]);
      (split; [rewrite <- app_assoc, replicate_snoc; reflexivity | lia]).
Qed.

End Lookup.

Lemma caught_lookup_fails (es : list exn) :
  Forall caught es -> Forall (lookup_fails json_loads) (map GetRaises es).
Proof.
  induction 1 as [| e es He _ IH]; simpl;
    [apply List.Forall_nil | apply List.Forall_cons; assumption].
Qed.

Lemma answered_raises (es : list exn) : answered (map GetRaises es) = 0%nat.
Proof. induction es as [| e es IH]; [reflexivity | exact IH]. Qed.

Lemma for_loop_invariant {A S : Type} (P : S -> Prop) (body : A -> S -> M (ctl * S)) :
  (forall x s w c s' w', P s -> body x s w = (Ok (c, s'), w') -> P s') ->
  forall xs s w s' w', P s -> for_loop xs body s w = (Ok s', w') -> P s'.
Proof.
  intros Hbody xs. induction xs as [| x xs IH]; intros s w s' w' Hs Hrun.
  - simpl in Hrun. unfold ret in Hrun. injection Hrun as <- _. exact Hs.
  - simpl in Hrun. unfold bind in Hrun.
    destruct (body x s w) as [[[c s1] | e] w1] eqn:Hstep; [| discriminate].
    specialize (Hbody x s w c s1 w1 Hs Hstep).
    destruct c; simpl in Hrun.
    + exact (IH s1 w1 s' w' Hbody Hrun).
    + unfold ret in Hrun. injection Hrun as <- _. exact Hbody.
Qed.

Lemma on_error_requests {S : Type} (url error_file : string) (local : S) (e : exn)
    (w : world) :
  requests (snd (on_error url error_file local e w)) = requests w.
Proof. destruct e; reflexivity. Qed.

Lemma for_loop_requests {A St : Type} (url : string) (body : A -> St -> M (ctl * St)) :
  (forall x s w, requests (snd (body x s w)) = requests w ++ [url]) ->
  forall xs s w,
    exists k : nat,
      (k <= length xs)%nat /\
      requests (snd (for_loop xs body s w)) = requests w ++ replicate k url.
Proof.
  intros Hbody xs. induction xs as [| x xs IH]; intros s w.
  - exists 0%nat. split; [lia | simpl; rewrite app_nil_r; reflexivity].
  - simpl. unfold bind. specialize (Hbody x s w).
    destruct (body x s w) as [[[c s'] | e] w1]; simpl in *.
    + destruct c; simpl.
      * destruct (IH s' w1) as (k & Hk & Hreq).
        exists (S k). split; [lia |].
        rewrite Hreq, Hbody, <- app_assoc. reflexivity.
      * exists 1%nat. split; [lia | exact Hbody].
    + exists 1%nat. split; [lia | exact Hbody].
Qed.

Lemma submissions_attempt_requests (self : CollectRedditPSIOData)
    (query subreddit before_date after_date : string) (local : option response)
    (w : world) :
  requests (snd (submissions_attempt http_get self query subreddit before_date after_date
                   local w))
  = requests w ++ [submissions_url self query subreddit before_date after_date].
Proof.
  unfold submissions_attempt, try_catch, bind, requests_get.
  destruct (http_get _ _) as [r | e]; simpl; [reflexivity |].
  rewrite on_error_requests. reflexivity.
Qed.

Lemma comments_attempt_requests (self : CollectRedditPSIOData) (strings_comments : string)
    (local : option response) (w : world) :
  requests (snd (comments_attempt http_get self strings_comments local w))
  = requests w ++ [comments_url strings_comments].
Proof.
  unfold comments_attempt, try_catch, bind, requests_get.
  destruct (http_get _ _) as [r | e]; simpl; [reflexivity |].
  rewrite on_error_requests. reflexivity.
Qed.

Lemma comment_ids_attempt_requests (self : CollectRedditPSIOData) (submission_id : json)
    (acc : list json) (w : world) :
  requests (snd (comment_ids_attempt http_get json_loads py_repr self submission_id acc w))
  = requests w ++ [comment_ids_url py_repr submission_id].
Proof.
  unfold comment_ids_attempt, try_catch, bind, requests_get, lift, response_json.
  destruct (http_get _ _) as [r | e]; simpl.
  - destruct (json_loads (text r)) as [body |]; simpl; [| reflexivity].
    destruct (py_getitem body "data") as [data | e]; simpl.
    + destruct (py_iter data) as [ids | e]; simpl; [reflexivity |].
      rewrite on_error_requests. reflexivity.
    + rewrite on_error_requests. reflexivity.
  - rewrite on_error_requests. reflexivity.
Qed.

Lemma comment_ids_attempt_extends (self : CollectRedditPSIOData) (submission_id : json)
    (acc acc' : list json) (c : ctl) (w w' : world) :
  comment_ids_attempt http_get json_loads py_repr self submission_id acc w
    = (Ok (c, acc'), w') ->
  exists comment_ids, acc' = acc ++ map (id_pair submission_id) comment_ids.
Proof.
  unfold comment_ids_attempt, try_catch, bind, requests_get, lift, response_json.
  destruct (http_get _ _) as [r | e]; simpl.
  - destruct (json_loads (text r)) as [body |]; simpl.
    + destruct (py_getitem body "data") as [data | e]; simpl.
      * destruct (py_iter data) as [ids | e]; simpl.
        -- intros [= _ <- _]. exists ids. reflexivity.
        -- destruct e; simpl; intros [= _ <- _] || intros [=];
             exists []; rewrite app_nil_r; reflexivity.
      * destruct e; simpl; intros [= _ <- _] || intros [=];
          exists []; rewrite app_nil_r; reflexivity.
    + intros [= _ <- _]. exists []. rewrite app_nil_r. reflexivity.
  - destruct e; simpl; intros [= _ <- _] || intros [=];
      exists []; rewrite app_nil_r; reflexivity.
Qed.

Lemma comment_ids_of_pairs (submission_id : json) (comment_ids : list json) :
  res_all (fun comment => py_getitem comment "comment_id")
    (map (id_pair submission_id) comment_ids) = Ok comment_ids.
Proof.
  induction comment_ids as [| c cs IH]; [reflexivity |].
  simpl. simpl in IH. rewrite IH. reflexivity.
Qed.

Lemma pairs_carry_submission_id (submission_id : json) (comment_ids : list json) :
  Forall (fun pair => py_getitem pair "submission_id" = Ok submission_id)
    (map (id_pair submission_id) comment_ids).
Proof.
  induction comment_ids as [| c cs IH]; simpl;
    [apply List.Forall_nil | apply List.Forall_cons; [reflexivity | exact IH]].
Qed.

(** X8.  A comment-id lookup that is answered, after failed attempts
    that the retry budget covers, with a body whose "data" is a list of
    ids: beside its result (the pairs, or the sentinel pair for no ids)
    it has issued one request per attempt, all for the same URL;
    it has slept once per request that was answered, the failed
    attempts whose body did not decode included; it has logged the three
    messages for each decode failure and two for each HTTP error; and
    the error file has gained the URL once per decode failure. *)
Theorem get_comment_ids_accounting :
  forall (self : CollectRedditPSIOData) (submission_id : json) (num_retries : Z)
         (w : world) (os : list get_outcome) (r : response) (body : json)
         (comment_ids : list json),
    let url := comment_ids_url py_repr submission_id in
    Forall (lookup_fails json_loads) os ->
    (length os < Z.to_nat (num_retries + 1))%nat ->
    plays http_get url (requests w) (os ++ [Responded r]) ->
    json_loads (text r) = Some body ->
    py_getitem body "data" = Ok (JArr comment_ids) ->
    exists w',
      get_comments_id_from_submissions_id http_get json_loads py_repr self submission_id
        num_retries w
      = (Ok (match comment_ids with
             | [] => [JObj [("submission_id", submission_id);
                            ("comment_id", JStr "N/A")]]
             | _ =>
                 map (fun comment_id =>
                        JObj [("submission_id", submission_id);
                              ("comment_id", comment_id)])
                   comment_ids
             end), w') /\
      requests w' = requests w ++ replicate (S (length os)) url /\
      slept w' = slept w + time_delay self * Z.of_nat (S (answered os)) /\
      logs w' = logs w ++ flat_map (outcome_messages url) os /\
      files w' = Nat.iter (outcome_decode_failures os)
                   (append_line "submission_id_error.txt" (url +:+ newline)) (files w) /\
      (files w !! "submission_id_error.txt" = None ->
       one_line url = true ->
       file_line_count w' "submission_id_error.txt" = outcome_decode_failures os).
Proof.
  intros self submission_id num_retries w os r body comment_ids url
    Hfail Hlen Hplay Hbody Hdata.
  destruct (get_comment_ids_decoded self submission_id num_retries w os r body
              Hfail Hlen Hplay Hbody)
    as (w' & Hrun & Hl & Hf & Hr & Hs).
  unfold pairs_of_body in Hrun. rewrite Hdata in Hrun. simpl in Hrun.
  exists w'. split; [| repeat split; try assumption].
  - rewrite Hrun. destruct comment_ids; reflexivity.
  - intros Habsent Hline. eapply file_line_count_iter; eassumption.
Qed.

(** X9.  The comment-id lookup catches decode failures and HTTP errors
    only.  An answer that decodes but has no "data", or whose "data"
    cannot be iterated, makes the lookup raise [KeyError] or
    [TypeError]: the request is not repeated although retries may be
    left, and nothing is logged or written for it. *)
Theorem get_comment_ids_malformed_answer :
  forall (self : CollectRedditPSIOData) (submission_id : json) (num_retries : Z)
         (w : world) (os : list get_outcome) (r : response) (body : json) (e : exn),
    let url := comment_ids_url py_repr submission_id in
    Forall (lookup_fails json_loads) os ->
    (length os < Z.to_nat (num_retries + 1))%nat ->
    plays http_get url (requests w) (os ++ [Responded r]) ->
    json_loads (text r) = Some body ->
    res_bind (py_getitem body "data") py_iter = Raise e ->
    exists w',
      get_comments_id_from_submissions_id http_get json_loads py_repr self submission_id
        num_retries w = (Raise e, w') /\
      (e = KeyError "data" \/ e = TypeError) /\
      requests w' = requests w ++ replicate (S (length os)) url /\
      logs w' = logs w ++ flat_map (outcome_messages url) os /\
      files w' = Nat.iter (outcome_decode_failures os)
                   (append_line "submission_id_error.txt" (url +:+ newline)) (files w).
Proof.
  intros self submission_id num_retries w os r body e url
    Hfail Hlen Hplay Hbody Hdata.
  assert (Hpairs : pairs_of_body submission_id body = Raise e).
  { unfold pairs_of_body.
    destruct (py_getitem body "data") as [data | e']; simpl in *; [| exact Hdata].
    destruct (py_iter data) as [ids | e']; simpl in *; [discriminate | exact Hdata]. }
  destruct (get_comment_ids_decoded self submission_id num_retries w os r body
              Hfail Hlen Hplay Hbody)
    as (w' & Hrun & Hl & Hf & Hr & Hs).
  rewrite Hpairs in Hrun.
  exists w'. split; [exact Hrun |].
  split; [exact (pairs_of_body_raises submission_id body e Hpairs) |].
  repeat split; assumption.
Qed.

(** X10.  An exception of the request that no [except] clause names (a
    connection error, say) ends each of the three fetch operations with
    that exception: the request that raised it is the last one, although
    retries may be left, and no sleep follows it. *)
Theorem uncaught_exception_ends_fetch :
  forall (self : CollectRedditPSIOData) (num_retries : Z) (w : world)
         (es : list exn) (e : exn),
    Forall caught es ->
    (length es < Z.to_nat (num_retries + 1))%nat ->
    ~ caught e ->
    (forall query subreddit before_date after_date,
        let url := submissions_url self query subreddit before_date after_date in
        plays http_get url (requests w) (map GetRaises es ++ [GetRaises e]) ->
        exists w',
          get_submissions http_get json_loads self query subreddit before_date
            after_date num_retries w = (Raise e, w') /\
          requests w' = requests w ++ replicate (S (length es)) url /\
          slept w' = slept w) /\
    (forall submission_id,
        let url := comment_ids_url py_repr submission_id in
        plays http_get url (requests w) (map GetRaises es ++ [GetRaises e]) ->
        exists w',
          get_comments_id_from_submissions_id http_get json_loads py_repr self
            submission_id num_retries w = (Raise e, w') /\
          requests w' = requests w ++ replicate (S (length es)) url /\
          slept w' = slept w) /\
    (forall list_comments_ids strings_comments,
        let url := comments_url strings_comments in
        py_join "," list_comments_ids = Ok strings_comments ->
        plays http_get url (requests w) (map GetRaises es ++ [GetRaises e]) ->
        exists w',
          get_comments http_get json_loads self list_comments_ids num_retries w
            = (Raise e, w') /\
          requests w' = requests w ++ replicate (S (length es)) url /\
          slept w' = slept w).
Proof.
  intros self num_retries w es e Hcaught Hlen He. split; [| split].
  - intros query subreddit before_date after_date url Hplay.
    destruct (search_loop_uncaught (time_delay self) url "submissions_error" num_retries
                (add_call (CallGetSubmissions query subreddit before_date after_date) w)
                es e Hcaught Hlen He Hplay)
      as (w1 & (Hl & Hf & Hr & Hs & Hc & Ht) & Hloop).
    eexists. split.
    + unfold get_submissions, bind at 1, modify. unfold bind at 1.
      change (for_loop (py_range (num_retries + 1))
                (fun _ : nat => submissions_attempt http_get self query subreddit
                                  before_date after_date) None)
        with (for_loop (py_range (num_retries + 1))
                (fun _ : nat => fun local : option response =>
                   try_catch (r <- requests_get http_get url ;;
                              time_sleep (time_delay self) ;;; ret (Break, Some r))
                     (on_error url "submissions_error" local)) None).
      rewrite Hloop. reflexivity.
    + simpl. rewrite Hr, Hs. simpl.
      split; [rewrite <- app_assoc, replicate_snoc |]; reflexivity.
  - intros submission_id url Hplay.
    apply (plays_app http_get json_loads) in Hplay as [Hplay [Hget _]].
    destruct (lookup_loop_effects self submission_id (map GetRaises es)
                (py_range (num_retries + 1)) []
                (add_call (CallGetCommentIds submission_id) w)
                (caught_lookup_fails es Hcaught) Hplay)
      as (w1 & Hloop & (Hl & Hf & Hr & Hs & Hc & Ht)).
    { rewrite py_range_length, length_map. lia. }
    rewrite length_map in *.
    change (requests w1 = requests w ++ replicate (length es) url) in Hr.
    rewrite <- Hr in Hget.
    eexists. split.
    + unfold get_comments_id_from_submissions_id, bind at 1, modify. unfold bind at 1.
      rewrite Hloop. rewrite py_range_drop by exact Hlen.
      rewrite (for_loop_raises (length es) _
                 (fun _ => comment_ids_attempt http_get json_loads py_repr self
                             submission_id) [] w1 (add_request url w1) e).
      * reflexivity.
      * unfold comment_ids_attempt.
        match goal with
        | |- try_catch (r <- requests_get http_get ?u ;; @?k r) (on_error ?u ?f ?l) _ = _ =>
            apply (attempt_uncaught (fun _ : list json => k) u f l w1 e He Hget)
        end.
    + simpl. rewrite Hr, Hs, answered_raises. simpl.
      split; [rewrite <- app_assoc, replicate_snoc; reflexivity | lia].
  - intros list_comments_ids strings_comments url Hjoin Hplay.
    destruct (search_loop_uncaught (time_delay self) url "comment_error" num_retries
                (add_call (CallGetComments list_comments_ids) w)
                es e Hcaught Hlen He Hplay)
      as (w1 & (Hl & Hf & Hr & Hs & Hc & Ht) & Hloop).
    eexists. split.
    + unfold get_comments, bind at 1, modify. unfold bind at 1, lift at 1.
      rewrite Hjoin. unfold bind at 1.
      change (for_loop (py_range (num_retries + 1))
                (fun _ : nat => comments_attempt http_get self strings_comments) None)
        with (for_loop (py_range (num_retries + 1))
                (fun _ : nat => fun local : option response =>
                   try_catch (r <- requests_get http_get url ;;
                              time_sleep (time_delay self) ;;; ret (Break, Some r))
                     (on_error url "comment_error" local)) None).
      rewrite Hloop. reflexivity.
    + simpl. rewrite Hr, Hs. simpl.
      split; [rewrite <- app_assoc, replicate_snoc |]; reflexivity.
Qed.

(** X11.  The retry budget bounds the traffic of every fetch, whatever
    the network does: a fetch issues at most [num_retries + 1] requests,
    all for one URL, and none when [num_retries] is negative. *)
Theorem fetch_requests_within_budget :
  forall (self : CollectRedditPSIOData) (num_retries : Z) (w : world),
    (forall query subreddit before_date after_date,
        exists k : nat,
          (k <= Z.to_nat (num_retries + 1))%nat /\
          requests (snd (get_submissions http_get json_loads self query subreddit
                           before_date after_date num_retries w))
          = requests w
            ++ replicate k (submissions_url self query subreddit before_date after_date)) /\
    (forall submission_id,
        exists k : nat,
          (k <= Z.to_nat (num_retries + 1))%nat /\
          requests (snd (get_comments_id_from_submissions_id http_get json_loads py_repr
                           self submission_id num_retries w))
          = requests w ++ replicate k (comment_ids_url py_repr submission_id)) /\
    (forall list_comments_ids,
        exists (k : nat) (strings_comments : string),
          (k <= Z.to_nat (num_retries + 1))%nat /\
          requests (snd (get_comments http_get json_loads self list_comments_ids
                           num_retries w))
          = requests w ++ replicate k (comments_url strings_comments)).
Proof.
  intros self num_retries w. split; [| split].
  - intros query subreddit before_date after_date.
    destruct (for_loop_requests _ _
                (fun _ : nat => submissions_attempt_requests self query subreddit
                                  before_date after_date)
                (py_range (num_retries + 1)) None
                (add_call (CallGetSubmissions query subreddit before_date after_date) w))
      as (k & Hk & Hreq).
    rewrite py_range_length in Hk. exists k. split; [exact Hk |].
    unfold get_submissions, bind, modify.
    destruct (for_loop _ _ _ _) as [[[r |] | e] w1]; exact Hreq.
  - intros submission_id.
    destruct (for_loop_requests _ _
                (fun _ : nat => comment_ids_attempt_requests self submission_id)
                (py_range (num_retries + 1)) []
                (add_call (CallGetCommentIds submission_id) w))
      as (k & Hk & Hreq).
    rewrite py_range_length in Hk. exists k. split; [exact Hk |].
    unfold get_comments_id_from_submissions_id, bind, modify.
    destruct (for_loop _ _ _ _) as [[acc | e] w1]; [| exact Hreq].
    destruct (length acc =? 0)%nat; exact Hreq.
  - intros list_comments_ids.
    unfold get_comments, bind, modify, lift.
    destruct (py_join "," list_comments_ids) as [strings_comments | e].
    + destruct (for_loop_requests _ _
                  (fun _ : nat => comments_attempt_requests self strings_comments)
                  (py_range (num_retries + 1)) None
                  (add_call (CallGetComments list_comments_ids) w))
        as (k & Hk & Hreq).
      rewrite py_range_length in Hk. exists k, strings_comments. split; [exact Hk |].
      destruct (for_loop _ _ _ _) as [[[r |] | e] w1]; exact Hreq.
    + exists 0%nat, "". split; [lia |]. simpl. rewrite app_nil_r. reflexivity.
Qed.

(** X12.  Whatever the network does, a list the comment-id lookup
    returns is a non-empty list of pairs, each the dict with the two
    keys "submission_id", bound to the submission id asked for, and
    "comment_id": taking the "comment_id" of each pair, as the driver
    does, raises nothing and gives a list that has a first element. *)
Theorem get_comment_ids_result_shape :
  forall (self : CollectRedditPSIOData) (submission_id : json) (num_retries : Z)
         (w w' : world) (pairs : list json),
    get_comments_id_from_submissions_id http_get json_loads py_repr self submission_id
      num_retries w = (Ok pairs, w') ->
    exists (first_id : json) (more_ids : list json),
      pairs = map (fun comment_id =>
                     JObj [("submission_id", submission_id);
                           ("comment_id", comment_id)])
                (first_id :: more_ids) /\
      Forall (fun pair => py_getitem pair "submission_id" = Ok submission_id) pairs /\
      res_all (fun comment => py_getitem comment "comment_id") pairs
        = Ok (first_id :: more_ids) /\
      list_getitem (first_id :: more_ids) 0 = Ok first_id.
Proof.
  intros self submission_id num_retries w w' pairs.
  unfold get_comments_id_from_submissions_id, bind, modify.
  destruct (for_loop _ _ _ _) as [[acc | e] w1] eqn:Hloop; [| discriminate].
  assert (Hacc : exists cids, acc = map (id_pair submission_id) cids).
  { eapply (for_loop_invariant
              (fun acc => exists cids, acc = map (id_pair submission_id) cids)
              (fun _ : nat => comment_ids_attempt http_get json_loads py_repr self
                                submission_id));
      [| | exact Hloop].
    - intros _ s w0 c s' w0' [cids ->] Hstep.
      destruct (comment_ids_attempt_extends self submission_id _ _ _ _ _ Hstep)
        as [ids ->].
      exists (cids ++ ids). rewrite map_app. reflexivity.
    - exists []. reflexivity. }
  destruct Hacc as [cids ->].
  destruct cids as [| c cids]; simpl; unfold ret; intros [= <- _].
  - exists (JStr "N/A"), []. split; [reflexivity |].
    split; [apply (pairs_carry_submission_id submission_id [JStr "N/A"]) |].
    split; reflexivity.
  - exists c, cids. split; [reflexivity |].
    split; [apply (pairs_carry_submission_id submission_id (c :: cids)) |].
    split; [| reflexivity].
    apply (comment_ids_of_pairs submission_id (c :: cids)).
Qed.

End ClientFurther.

(** ** The day buckets and the driver, whatever the network does *)

Lemma grows_refl (paths : list string) (w : world) : grows paths w w.
Proof.
  unfold grows. repeat split; try (intros; assumption);
    exists []; rewrite app_nil_r; reflexivity.
Qed.

Lemma grows_trans (paths : list string) (w1 w2 w3 : world) :
  grows paths w1 w2 -> grows paths w2 w3 -> grows paths w1 w3.
Proof.
  intros (Ht1 & Hf1 & He1 & [r1 Hr1] & [l1 Hl1]) (Ht2 & Hf2 & He2 & [r2 Hr2] & [l2 Hl2]).
  unfold grows. split; [congruence |].
  split; [intros p Hp; rewrite Hf2, Hf1 by exact Hp; reflexivity |].
  split; [intros p Hp; apply He2, He1, Hp |].
  split.
  - exists (r1 ++ r2). rewrite Hr2, Hr1, <- app_assoc. reflexivity.
  - exists (l1 ++ l2). rewrite Hl2, Hl1, <- app_assoc. reflexivity.
Qed.

(** A step that leaves the files alone. *)
Lemma grows_same_files (paths : list string) (w w' : world) :
  today w' = today w -> files w' = files w ->
  (exists more, requests w' = requests w ++ more) ->
  (exists more, logs w' = logs w ++ more) ->
  grows paths w w'.
Proof.
  intros Ht Hf Hr Hl. unfold grows. rewrite Hf. repeat split; auto.
Qed.

(** A step that writes one file of [paths]. *)
Lemma grows_write (paths : list string) (path : string)
    (content : gmap string string -> string) (w : world) :
  path ∈ paths ->
  grows paths w (set_files (fun fs => <[path := content fs]> fs) w).
Proof.
  intros Hin. unfold grows. simpl.
  split; [reflexivity |]. split; [| split; [| split; exists []; rewrite app_nil_r; reflexivity]].
  - intros p Hp. apply lookup_insert_ne. intros ->. exact (Hp Hin).
  - intros p Hp. destruct (decide (path = p)) as [-> | Hne].
    + rewrite lookup_insert_eq. eexists. reflexivity.
    + rewrite lookup_insert_ne by exact Hne. exact Hp.
Qed.

Section Within.

Variables (curr_datetime : string) (paths : list string).

Local Abbreviation ok := (within curr_datetime paths).

Lemma within_ret {A : Type} (a : A) : ok (ret a).
Proof. intros w _. apply grows_refl. Qed.

Lemma within_raise {A : Type} (e : exn) : ok (@raise A e).
Proof. intros w _. apply grows_refl. Qed.

Lemma within_lift {A : Type} (r : res A) : ok (lift r).
Proof. intros w _. apply grows_refl. Qed.

Lemma within_gets {A : Type} (f : world -> A) : ok (gets f).
Proof. intros w _. apply grows_refl. Qed.

Lemma within_bind {A B : Type} (m : M A) (k : A -> M B) :
  ok m -> (forall a, ok (k a)) -> ok (bind m k).
Proof.
  intros Hm Hk w Hw. unfold bind. specialize (Hm w Hw).
  destruct (m w) as [[a | e] w1]; simpl in *; [| exact Hm].
  eapply grows_trans; [exact Hm |].
  apply Hk. destruct Hm as [Ht _]. congruence.
Qed.

Lemma within_try_catch {A : Type} (m : M A) (h : exn -> M A) :
  ok m -> (forall e, ok (h e)) -> ok (try_catch m h).
Proof.
  intros Hm Hh w Hw. unfold try_catch. specialize (Hm w Hw).
  destruct (m w) as [[a | e] w1]; simpl in *; [exact Hm |].
  eapply grows_trans; [exact Hm |].
  apply Hh. destruct Hm as [Ht _]. congruence.
Qed.

Lemma within_for_loop {A St : Type} (body : A -> St -> M (ctl * St)) :
  (forall x s, ok (body x s)) -> forall xs s, ok (for_loop xs body s).
Proof.
  intros Hbody xs. induction xs as [| x xs IH]; intros s; simpl.
  - apply within_ret.
  - apply within_bind; [apply Hbody |].
    intros [c s']. destruct c; simpl; [apply IH | apply within_ret].
Qed.

Lemma within_for_each {A : Type} (body : A -> M unit) :
  (forall x, ok (body x)) -> forall xs, ok (for_each xs body).
Proof.
  intros Hbody xs. induction xs as [| x xs IH]; simpl.
  - apply within_ret.
  - apply within_bind; [apply Hbody | intros _; exact IH].
Qed.

Lemma within_logging_info (msg : string) : ok (logging_info msg).
Proof.
  intros w _. apply grows_same_files; simpl; try reflexivity.
  - exists []. rewrite app_nil_r. reflexivity.
  - exists [msg]. reflexivity.
Qed.

Lemma within_time_sleep (secs : Z) : ok (time_sleep secs).
Proof.
  intros w _. apply grows_same_files; simpl; try reflexivity;
    exists []; rewrite app_nil_r; reflexivity.
Qed.

Lemma within_add_call (c : call) : ok (modify (add_call c)).
Proof.
  intros w _. apply grows_same_files; simpl; try reflexivity;
    exists []; rewrite app_nil_r; reflexivity.
Qed.

Lemma within_method {A : Type} (obj : option CollectRedditPSIOData) (name : string)
    (f : CollectRedditPSIOData -> M A) :
  (forall self, ok (f self)) -> ok (method obj name f).
Proof. intros Hf. destruct obj; simpl; [apply Hf | apply within_raise]. Qed.

Section WithinPlatform.

Variable http_get : list string -> string -> get_outcome.
Variable json_dumps : json -> string.
Variable json_loads : string -> option json.
Variable py_repr : json -> string.

Lemma within_requests_get (url : string) : ok (requests_get http_get url).
Proof.
  intros w _. unfold requests_get.
  destruct (http_get (requests w) url); simpl;
    (apply grows_same_files; simpl; try reflexivity;
     [exists [url]; reflexivity | exists []; rewrite app_nil_r; reflexivity]).
Qed.

Lemma within_json_load (path : string) : ok (json_load json_loads path).
Proof.
  intros w _. unfold json_load.
  destruct (files w !! path) as [s |]; [destruct (json_loads s) |]; apply grows_refl.
Qed.

Lemma within_json_dump (data : json) (path : string) :
  path ∈ paths -> ok (json_dump json_dumps data path).
Proof.
  intros Hin w _. exact (grows_write paths path (fun _ => json_dumps data) w Hin).
Qed.

Lemma within_build_json_file (new_data : json) (file_export_name : string) :
  (file_export_name +:+ ".json") ∈ paths ->
  ok (build_json_file json_dumps json_loads new_data file_export_name).
Proof.
  intros Hin. unfold build_json_file.
  apply within_bind; [apply within_add_call | intros _].
  apply within_bind; [apply within_gets | intros ex].
  destruct ex; simpl.
  - apply within_bind; [apply within_json_load | intros existing_data].
    apply within_bind; [apply within_lift | intros existing_data'].
    apply within_json_dump, Hin.
  - apply within_json_dump, Hin.
Qed.

Lemma within_build_error_text_file (new_data file_export_name : string) :
  (file_export_name +:+ ".txt") ∈ paths ->
  ok (build_error_text_file new_data file_export_name).
Proof.
  intros Hin w _.
  exact (grows_write paths (file_export_name +:+ ".txt")
           (fun fs => match fs !! (file_export_name +:+ ".txt") with
                      | Some old => old +:+ (new_data +:+ newline)
                      | None => new_data +:+ newline
                      end) w Hin).
Qed.

Lemma within_on_error {St : Type} (api_call error_file : string) (local : St) (e : exn) :
  (error_file +:+ ".txt") ∈ paths ->
  ok (on_error api_call error_file local e).
Proof.
  intros Hin. destruct e; simpl; try apply within_raise.
  - apply within_bind; [apply within_logging_info | intros _].
    apply within_bind; [apply within_logging_info | intros _].
    apply within_bind; [apply within_build_error_text_file, Hin | intros _].
    apply within_bind; [apply within_logging_info | intros _].
    apply within_ret.
  - apply within_bind; [apply within_logging_info | intros _].
    apply within_bind; [apply within_logging_info | intros _].
    apply within_ret.
Qed.

Lemma within_get_submissions (self : CollectRedditPSIOData)
    (query subreddit before_date after_date : string) (num_retries : Z) :
  ("submissions_error" +:+ ".txt") ∈ paths ->
  ok (get_submissions http_get json_loads self query subreddit before_date after_date
        num_retries).
Proof.
  intros Hin. unfold get_submissions.
  apply within_bind; [apply within_add_call | intros _].
  apply within_bind.
  - apply within_for_loop. intros _ local. unfold submissions_attempt.
    apply within_try_catch; [| intros e; apply within_on_error, Hin].
    apply within_bind; [apply within_requests_get | intros r].
    apply within_bind; [apply within_time_sleep | intros _]. apply within_ret.
  - intros [r |]; [apply within_lift | apply within_raise].
Qed.

Lemma within_get_comments (self : CollectRedditPSIOData) (list_comments_ids : list json)
    (num_retries : Z) :
  ("comment_error" +:+ ".txt") ∈ paths ->
  ok (get_comments http_get json_loads self list_comments_ids num_retries).
Proof.
  intros Hin. unfold get_comments.
  apply within_bind; [apply within_add_call | intros _].
  apply within_bind; [apply within_lift | intros strings_comments].
  apply within_bind.
  - apply within_for_loop. intros _ local. unfold comments_attempt.
    apply within_try_catch; [| intros e; apply within_on_error, Hin].
    apply within_bind; [apply within_requests_get | intros r].
    apply within_bind; [apply within_time_sleep | intros _]. apply within_ret.
  - intros [r |]; [apply within_lift | apply within_raise].
Qed.

Lemma within_get_comment_ids (self : CollectRedditPSIOData) (submission_id : json)
    (num_retries : Z) :
  ("submission_id_error" +:+ ".txt") ∈ paths ->
  ok (get_comments_id_from_submissions_id http_get json_loads py_repr self submission_id
        num_retries).
Proof.
  intros Hin. unfold get_comments_id_from_submissions_id.
  apply within_bind; [apply within_add_call | intros _].
  apply within_bind.
  - apply within_for_loop. intros _ local. unfold comment_ids_attempt.
    apply within_try_catch; [| intros e; apply within_on_error, Hin].
    apply within_bind; [apply within_requests_get | intros r].
    apply within_bind; [apply within_time_sleep | intros _].
    apply within_bind; [apply within_lift | intros body].
    apply within_bind; [apply within_lift | intros data].
    apply within_bind; [apply within_lift | intros comment_ids].
    apply within_ret.
  - intros acc. destruct (length acc =? 0)%nat; apply within_ret.
Qed.

End WithinPlatform.

End Within.

Section DriverFurther.

Variable http_get : list string -> string -> get_outcome.
Variable json_dumps : json -> string.
Variable json_loads : string -> option json.
Variable py_repr : json -> string.
Variable utcoffset : Z -> Z.
Variable clock : list string -> Z -> string.

Ltac driver_file :=
  unfold driver_files;
  repeat first [apply list_elem_of_here | apply list_elem_of_further].

Lemma within_retrieve_comments (reddit_historical : option CollectRedditPSIOData)
    (curr_datetime : string) (sub_id : json) :
  within curr_datetime (driver_files curr_datetime)
    (retrieve_comments http_get json_dumps json_loads py_repr reddit_historical
       curr_datetime sub_id).
Proof.
  unfold retrieve_comments.
  apply within_bind.
  { apply within_method. intros self. apply within_get_comment_ids. driver_file. }
  intros subs_id_to_comm_id.
  apply within_bind; [apply within_build_json_file; driver_file | intros _].
  apply within_bind; [apply within_lift | intros list_comments_ids].
  apply within_bind; [apply within_lift | intros first_id].
  destruct (py_ne_str first_id "N/A"); [| apply within_ret].
  apply within_bind.
  { apply within_method. intros self. apply within_get_comments. driver_file. }
  intros comments.
  apply within_bind; [apply within_lift | intros comments_data].
  apply within_build_json_file. driver_file.
Qed.

Lemma within_retrieve_window (reddit_historical : option CollectRedditPSIOData)
    (curr_datetime query subreddit : string) (date_range : list string) (idx : nat) :
  within curr_datetime (driver_files curr_datetime)
    (retrieve_window http_get json_dumps json_loads py_repr reddit_historical
       curr_datetime query subreddit date_range idx).
Proof.
  unfold retrieve_window.
  apply within_bind; [apply within_lift | intros start_date].
  apply within_bind; [apply within_lift | intros end_date].
  apply within_bind.
  { apply within_method. intros self. apply within_get_submissions. driver_file. }
  intros submissions.
  apply within_bind; [apply within_lift | intros submissions_data].
  apply within_bind; [apply within_build_json_file; driver_file | intros _].
  apply within_bind; [apply within_lift | intros submissions_data'].
  apply within_bind; [apply within_lift | intros submission_list].
  apply within_bind; [apply within_lift | intros subs_id].
  apply within_for_each. intros sub_id. apply within_retrieve_comments.
Qed.

Lemma within_run_reddit_psio_query (curr_datetime query subreddit : string)
    (start_date end_date : date) :
  within curr_datetime (driver_files curr_datetime)
    (run_reddit_psio_query http_get json_dumps json_loads py_repr utcoffset
       query subreddit start_date end_date).
Proof.
  intros w Hw. unfold run_reddit_psio_query, bind at 1, gets. rewrite Hw.
  revert w Hw.
  change (within curr_datetime (driver_files curr_datetime)
            (date_range <- lift (make_date_range utcoffset start_date end_date) ;;
             for_each (py_range (Z.of_nat (length date_range) - 1))
               (retrieve_window http_get json_dumps json_loads py_repr
                  (get_data_source "reddit-historical") curr_datetime query subreddit
                  date_range))).
  apply within_bind; [apply within_lift | intros date_range].
  apply within_for_each. intros idx. apply within_retrieve_window.
Qed.

(** X13.  For an end date before the start date the day buckets are the
    empty list, and the driver returns with the world as it found it:
    no request, no file, no log entry. *)
Theorem run_reddit_psio_query_inverted_range :
  forall (query subreddit : string) (start_date end_date : date) (w : world),
    toordinal end_date < toordinal start_date ->
    make_date_range utcoffset start_date end_date = Ok [] /\
    run_reddit_psio_query http_get json_dumps json_loads py_repr utcoffset
      query subreddit start_date end_date w = (Ok tt, w).
Proof.
  intros query subreddit start_date end_date w Hlt.
  assert (Hrange : make_date_range utcoffset start_date end_date = Ok []).
  { unfold make_date_range, py_range, date_sub. simpl days.
    replace (Z.to_nat (toordinal end_date - toordinal start_date + 1)) with 0%nat by lia.
    reflexivity. }
  split; [exact Hrange |].
  unfold run_reddit_psio_query, bind, gets, lift. rewrite Hrange. reflexivity.
Qed.

(** X14.  Whatever the network answers and whether the run completes or
    an exception ends it, a run of the driver only adds to the world,
    and only in six files: the three JSON files named with the current
    day and the three error files.  No other file changes, no file
    disappears, and the requests and the log only get longer. *)
Theorem run_reddit_psio_query_only_grows :
  forall (query subreddit : string) (start_date end_date : date) (w : world),
    grows (driver_files (today w)) w
      (snd (run_reddit_psio_query http_get json_dumps json_loads py_repr utcoffset
              query subreddit start_date end_date w)).
Proof.
  intros query subreddit start_date end_date w.
  exact (within_run_reddit_psio_query (today w) query subreddit start_date end_date
           w eq_refl).
Qed.

Lemma grows_where_refl (allowed : string -> Prop) (w : world) :
  grows_where allowed w w.
Proof.
  unfold grows_where. repeat split; try (intros; assumption);
    exists []; rewrite app_nil_r; reflexivity.
Qed.

Lemma grows_where_trans (allowed : string -> Prop) (w1 w2 w3 : world) :
  grows_where allowed w1 w2 -> grows_where allowed w2 w3 -> grows_where allowed w1 w3.
Proof.
  intros (Hf1 & He1 & [r1 Hr1] & [l1 Hl1]) (Hf2 & He2 & [r2 Hr2] & [l2 Hl2]).
  unfold grows_where.
  split; [intros p Hp; rewrite Hf2, Hf1 by exact Hp; reflexivity |].
  split; [intros p Hp; apply He2, He1, Hp |].
  split.
  - exists (r1 ++ r2). rewrite Hr2, Hr1, <- app_assoc. reflexivity.
  - exists (l1 ++ l2). rewrite Hl2, Hl1, <- app_assoc. reflexivity.
Qed.

Lemma grows_grows_where (paths : list string) (allowed : string -> Prop) (w w' : world) :
  (forall p, p ∈ paths -> allowed p) ->
  grows paths w w' -> grows_where allowed w w'.
Proof.
  intros Hsub (_ & Hf & He & Hr & Hl). unfold grows_where.
  split; [| auto]. intros p Hp. apply Hf. intros Hin. exact (Hp (Hsub p Hin)).
Qed.

Lemma grows_where_bind {A B : Type} (allowed : string -> Prop) (m : M A) (k : A -> M B) :
  (forall w, grows_where allowed w (snd (m w))) ->
  (forall a w, grows_where allowed w (snd (k a w))) ->
  forall w, grows_where allowed w (snd (bind m k w)).
Proof.
  intros Hm Hk w. unfold bind. specialize (Hm w).
  destruct (m w) as [[a | e] w1]; simpl in *; [| exact Hm].
  eapply grows_where_trans; [exact Hm | apply Hk].
Qed.

Lemma grows_where_for_each {A : Type} (allowed : string -> Prop) (body : A -> M unit) :
  (forall x w, grows_where allowed w (snd (body x w))) ->
  forall xs w, grows_where allowed w (snd (for_each xs body w)).
Proof.
  intros Hbody xs. induction xs as [| x xs IH]; simpl.
  - intros w. apply grows_where_refl.
  - apply grows_where_bind; [apply Hbody | intros _; exact IH].
Qed.

Lemma grows_where_logging_info (allowed : string -> Prop) (msg : string) (w : world) :
  grows_where allowed w (snd (logging_info msg w)).
Proof.
  unfold grows_where. simpl. repeat split; try (intros; assumption).
  - exists []. rewrite app_nil_r. reflexivity.
  - exists [msg]. reflexivity.
Qed.

(** A run of the driver right after the clock was read. *)
Lemma grows_where_clocked_run (query subreddit : string) (start_date end_date : date)
    (w : world) :
  grows_where (script_files clock) w
    (snd ((read_clock clock ;;;
           run_reddit_psio_query http_get json_dumps json_loads py_repr utcoffset
             query subreddit start_date end_date) w)).
Proof.
  unfold bind, read_clock, modify.
  set (day := clock (requests w) (slept w)).
  apply (grows_grows_where (driver_files day) (script_files clock) (set_today day w)).
  - intros p Hp. exists (requests w), (slept w). exact Hp.
  - exact (within_run_reddit_psio_query day query subreddit start_date end_date
             (set_today day w) eq_refl).
Qed.

(** X15.  The whole script, which reads the day anew in each of its runs
    of the driver and may run across midnights: whatever the network
    answers and whether it completes or an exception ends it, it only
    adds to the world, and only in the six files of the driver for the
    days that the clock shows.  No other file changes, no file
    disappears, and the requests and the log only get longer. *)
Theorem main_only_grows :
  forall w : world,
    grows_where (script_files clock) w
      (snd (main http_get json_dumps json_loads py_repr utcoffset clock w)).
Proof.
  unfold main.
  apply grows_where_bind; [intros w; apply grows_where_refl | intros start_date].
  apply grows_where_bind; [intros w; apply grows_where_refl | intros end_date].
  apply grows_where_for_each. intros query.
  apply grows_where_bind; [apply grows_where_logging_info | intros _].
  apply grows_where_for_each. intros subreddit.
  apply grows_where_bind; [apply grows_where_logging_info | intros _].
  apply grows_where_clocked_run.
Qed.

(** X16.  The driver reads "data" and the "id" of every submission
    without a guard.  An answer without "data" ends the run with the
    exception of the lookup right after the fetch, before anything is
    saved.  A "data" that cannot be iterated, or one submission without
    "id", ends the run after the submissions are saved and before the
    comments of any submission are asked for. *)
Theorem run_reddit_psio_query_malformed_submissions :
  forall (query subreddit : string) (start_date end_date : date) (w w1 : world)
         (stamp0 stamp1 : string) (stamps : list string) (payload : json) (e : exn),
    make_date_range utcoffset start_date end_date = Ok (stamp0 :: stamp1 :: stamps) ->
    get_submissions http_get json_loads CollectRedditPSIOData_init
      query subreddit stamp0 stamp1 1 w = (Ok payload, w1) ->
    (py_getitem payload "data" = Raise e ->
     run_reddit_psio_query http_get json_dumps json_loads py_repr utcoffset
       query subreddit start_date end_date w = (Raise e, w1)) /\
    (forall (data : json) (w2 : world),
        py_getitem payload "data" = Ok data ->
        build_json_file json_dumps json_loads data ("submissions_" +:+ today w) w1
          = (Ok tt, w2) ->
        res_bind (py_iter data)
          (res_all (fun submission_id => py_getitem submission_id "id")) = Raise e ->
        run_reddit_psio_query http_get json_dumps json_loads py_repr utcoffset
          query subreddit start_date end_date w = (Raise e, w2)).
Proof.
  intros query subreddit start_date end_date w w1 stamp0 stamp1 stamps payload e
    Hrange Hfetch.
  assert (Hrun : forall r,
            retrieve_window http_get json_dumps json_loads py_repr
              (Some CollectRedditPSIOData_init) (today w) query subreddit
              (stamp0 :: stamp1 :: stamps) 0 w = (Raise e, r) ->
            run_reddit_psio_query http_get json_dumps json_loads py_repr utcoffset
              query subreddit start_date end_date w = (Raise e, r)).
  { intros r Hwindow.
    unfold run_reddit_psio_query, bind at 1, gets. unfold bind at 1, lift at 1.
    rewrite Hrange.
    change (get_data_source "reddit-historical") with (Some CollectRedditPSIOData_init).
    replace (py_range (Z.of_nat (length (stamp0 :: stamp1 :: stamps)) - 1))
      with (0%nat :: seq 1 (length stamps)).
    - simpl for_each. unfold bind at 1. rewrite Hwindow. reflexivity.
    - unfold py_range. simpl length.
      replace (Z.to_nat (Z.of_nat (S (S (length stamps))) - 1)) with (S (length stamps))
        by lia.
      reflexivity. }
  split.
  - intros Hdata. apply Hrun.
    unfold retrieve_window, method, bind, lift, list_getitem. simpl.
    rewrite Hfetch, Hdata. reflexivity.
  - intros data w2 Hdata Hsave Hids. apply Hrun.
    unfold retrieve_window, method, bind, lift, list_getitem. simpl.
    rewrite Hfetch, Hdata, Hsave.
    destruct (py_iter data) as [submission_list | e']; simpl in Hids.
    + rewrite Hids. reflexivity.
    + injection Hids as ->. reflexivity.
Qed.

End DriverFurther.

(** ** The further properties on concrete inputs *)

Lemma build_error_text_file_keeps_lines_witness :
  ["first url"; "second url"] <> [] /\
  exists w',
    for_each ["first url"; "second url"]
      (fun l => build_error_text_file l "submissions_error") (empty_world "2020-04-01")
      = (Ok tt, w') /\
    option_map text_lines (files w' !! "submissions_error.txt")
      = Some ["first url"; "second url"].
Proof.
  assert (Hne : ["first url"; "second url"] <> []) by discriminate.
  split; [exact Hne |].
  destruct (build_error_text_file_keeps_lines "submissions_error"
              ["first url"; "second url"] (empty_world "2020-04-01") Hne)
    as (w' & Hrun & _ & _ & Hlines).
  exists w'. split; [exact Hrun |].
  apply Hlines; reflexivity.
Defined.


Lemma get_submissions_accounting_witness :
  let http_get := replay [bad_body; bad_gateway; answer submissions_answer] in
  let url := submissions_url CollectRedditPSIOData_init
               "covid" "Canada" "1583557200" "1583643600" in
  let w := empty_world "2020-04-01" in
  let es := [JSONDecodeError; HTTPError "502 Bad Gateway"] in
  (Forall caught es /\
   (length es < Z.to_nat (2 + 1))%nat /\
   plays http_get url (requests w)
     (map GetRaises es ++ [Responded {| text := CompactJson.dumps submissions_answer |}]) /\
   CompactJson.loads (CompactJson.dumps submissions_answer) = Some submissions_answer) /\
  exists w',
    get_submissions http_get CompactJson.loads CollectRedditPSIOData_init
      "covid" "Canada" "1583557200" "1583643600" 2 w = (Ok submissions_answer, w') /\
    requests w' = [url; url; url] /\
    slept w' = 2 /\
    file_line_count w' "submissions_error.txt" = 1%nat.
Proof.
  intros http_get url w es.
  assert (Hcaught : Forall caught es) by (repeat constructor).
  assert (Hlen : (length es < Z.to_nat (2 + 1))%nat) by (vm_compute; lia).
  assert (Hplay : plays http_get url (requests w)
                    (map GetRaises es
                     ++ [Responded {| text := CompactJson.dumps submissions_answer |}]))
    by (repeat split).
  assert (Hload : CompactJson.loads (CompactJson.dumps submissions_answer)
                  = Some submissions_answer) by (vm_compute; reflexivity).
  split; [split; [exact Hcaught | split; [exact Hlen | split; [exact Hplay | exact Hload]]] |].
  destruct (get_submissions_accounting http_get CompactJson.loads
              CollectRedditPSIOData_init "covid" "Canada" "1583557200" "1583643600" 2
              w es _ submissions_answer Hcaught Hlen Hplay Hload)
    as (w' & Hrun & Hreq & Hslept & _ & _ & Hcount).
  exists w'. split; [exact Hrun |]. split; [exact Hreq |]. split; [exact Hslept |].
  apply Hcount; [reflexivity | vm_compute; reflexivity].
Defined.

Lemma get_comments_accounting_witness :
  let http_get := replay [bad_body; answer comments_answer] in
  let url := "https://api.pushshift.io/reddit/search/comment?ids=c1,c2" in
  let w := empty_world "2020-04-01" in
  (Forall caught [JSONDecodeError] /\
   (length [JSONDecodeError] < Z.to_nat (1 + 1))%nat /\
   plays http_get url (requests w)
     (map GetRaises [JSONDecodeError]
      ++ [Responded {| text := CompactJson.dumps comments_answer |}]) /\
   CompactJson.loads (CompactJson.dumps comments_answer) = Some comments_answer) /\
  exists w',
    get_comments http_get CompactJson.loads CollectRedditPSIOData_init
      [JStr "c1"; JStr "c2"] 1 w = (Ok comments_answer, w') /\
    requests w' = [url; url] /\
    slept w' = 2 /\
    file_line_count w' "comment_error.txt" = 1%nat.
Proof.
  intros http_get url w.
  assert (Hcaught : Forall caught [JSONDecodeError]) by (repeat constructor).
  assert (Hlen : (length [JSONDecodeError] < Z.to_nat (1 + 1))%nat) by (vm_compute; lia).
  assert (Hplay : plays http_get url (requests w)
                    (map GetRaises [JSONDecodeError]
                     ++ [Responded {| text := CompactJson.dumps comments_answer |}]))
    by (repeat split).
  assert (Hload : CompactJson.loads (CompactJson.dumps comments_answer)
                  = Some comments_answer) by (vm_compute; reflexivity).
  split; [split; [exact Hcaught | split; [exact Hlen | split; [exact Hplay | exact Hload]]] |].
  destruct (get_comments_accounting http_get CompactJson.loads
              CollectRedditPSIOData_init ["c1"; "c2"] 1 w [JSONDecodeError] _
              comments_answer Hcaught Hlen Hplay Hload)
    as (w' & Hrun & Hreq & Hslept & _ & _ & Hcount).
  exists w'. split; [exact Hrun |]. split; [exact Hreq |]. split; [exact Hslept |].
  apply Hcount; [reflexivity | vm_compute; reflexivity].
Defined.

Lemma search_answer_not_decoded_witness :
  let r := {| text := "<html>Bad Gateway</html>" |} in
  let http_get := replay [bad_gateway; Responded r; answer submissions_answer] in
  let url := submissions_url CollectRedditPSIOData_init
               "covid" "Canada" "1583557200" "1583643600" in
  let w := empty_world "2020-04-01" in
  let es := [HTTPError "502 Bad Gateway"] in
  (Forall caught es /\
   (length es < Z.to_nat (5 + 1))%nat /\
   CompactJson.loads (text r) = None /\
   plays http_get url (requests w) (map GetRaises es ++ [Responded r])) /\
  exists w',
    get_submissions http_get CompactJson.loads CollectRedditPSIOData_init
      "covid" "Canada" "1583557200" "1583643600" 5 w = (Raise JSONDecodeError, w') /\
    requests w' = [url; url] /\
    files w' = files w.
Proof.
  intros r http_get url w es.
  assert (Hcaught : Forall caught es) by (repeat constructor).
  assert (Hlen : (length es < Z.to_nat (5 + 1))%nat) by (vm_compute; lia).
  assert (Hbody : CompactJson.loads (text r) = None) by (vm_compute; reflexivity).
  assert (Hplay : plays http_get url (requests w) (map GetRaises es ++ [Responded r]))
    by (repeat split).
  split; [split; [exact Hcaught | split; [exact Hlen | split; [exact Hbody | exact Hplay]]] |].
  destruct (search_answer_not_decoded http_get CompactJson.loads
              CollectRedditPSIOData_init 5 w es r Hcaught Hlen Hbody) as [Hsubs _].
  destruct (Hsubs "covid" "Canada" "1583557200" "1583643600" Hplay)
    as (w' & Hrun & Hreq & _ & Hfiles).
  exists w'. split; [exact Hrun |]. split; [exact Hreq | exact Hfiles].
Defined.

Lemma get_comments_rejects_non_strings_witness :
  let w := empty_world "2020-04-01" in
  forallb is_str [JStr "c1"; JInt 7] = false /\
  exists w',
    get_comments (replay [answer comments_answer]) CompactJson.loads
      CollectRedditPSIOData_init [JStr "c1"; JInt 7] 1 w = (Raise TypeError, w') /\
    requests w' = [].
Proof.
  intros w.
  assert (Hids : forallb is_str [JStr "c1"; JInt 7] = false) by reflexivity.
  split; [exact Hids |].
  destruct (get_comments_rejects_non_strings (replay [answer comments_answer])
              CompactJson.loads CollectRedditPSIOData_init [JStr "c1"; JInt 7] 1 w Hids)
    as (w' & Hrun & Hreq & _).
  exists w'. split; [exact Hrun | exact Hreq].
Defined.

Lemma get_comment_ids_accounting_witness :
  let r := {| text := "<html>Bad Gateway</html>" |} in
  let http_get := replay [Responded r; bad_gateway; answer comment_ids_answer] in
  let url := comment_ids_url no_repr (JStr "fk3a1") in
  let w := empty_world "2020-04-01" in
  let os := [Responded r; bad_gateway] in
  (Forall (lookup_fails CompactJson.loads) os /\
   (length os < Z.to_nat (2 + 1))%nat /\
   plays http_get url (requests w) (os ++ [answer comment_ids_answer]) /\
   CompactJson.loads (CompactJson.dumps comment_ids_answer) = Some comment_ids_answer /\
   py_getitem comment_ids_answer "data" = Ok (JArr [JStr "c1"; JStr "c2"])) /\
  exists w',
    get_comments_id_from_submissions_id http_get CompactJson.loads no_repr
      CollectRedditPSIOData_init (JStr "fk3a1") 2 w
    = (Ok [JObj [("submission_id", JStr "fk3a1"); ("comment_id", JStr "c1")];
           JObj [("submission_id", JStr "fk3a1"); ("comment_id", JStr "c2")]], w') /\
    requests w' = [url; url; url] /\
    slept w' = 4 /\
    file_line_count w' "submission_id_error.txt" = 1%nat.
Proof.
  intros r http_get url w os.
  assert (Hfail : Forall (lookup_fails CompactJson.loads) os).
  { apply List.Forall_cons; [vm_compute; reflexivity |].
    apply List.Forall_cons; [exact I | apply List.Forall_nil]. }
  assert (Hlen : (length os < Z.to_nat (2 + 1))%nat) by (vm_compute; lia).
  assert (Hplay : plays http_get url (requests w) (os ++ [answer comment_ids_answer]))
    by (repeat split).
  assert (Hload : CompactJson.loads (CompactJson.dumps comment_ids_answer)
                  = Some comment_ids_answer) by (vm_compute; reflexivity).
  split; [split; [exact Hfail | split; [exact Hlen | split; [exact Hplay |
            split; [exact Hload | reflexivity]]]] |].
  destruct (get_comment_ids_accounting http_get CompactJson.loads no_repr
              CollectRedditPSIOData_init (JStr "fk3a1") 2 w os _ comment_ids_answer
              [JStr "c1"; JStr "c2"] Hfail Hlen Hplay Hload eq_refl)
    as (w' & Hrun & Hreq & Hslept & _ & _ & Hcount).
  exists w'. split; [exact Hrun |]. split; [exact Hreq |]. split; [exact Hslept |].
  apply Hcount; [reflexivity | vm_compute; reflexivity].
Defined.

Lemma get_comment_ids_malformed_answer_witness :
  let body := JObj [("error", JStr "rate limit")] in
  let http_get := replay [answer body; answer comment_ids_answer] in
  let url := comment_ids_url no_repr (JStr "fk3a1") in
  let w := empty_world "2020-04-01" in
  (Forall (lookup_fails CompactJson.loads) [] /\
   (length (@nil get_outcome) < Z.to_nat (1 + 1))%nat /\
   plays http_get url (requests w) ([] ++ [answer body]) /\
   CompactJson.loads (CompactJson.dumps body) = Some body /\
   res_bind (py_getitem body "data") py_iter = Raise (KeyError "data")) /\
  exists w',
    get_comments_id_from_submissions_id http_get CompactJson.loads no_repr
      CollectRedditPSIOData_init (JStr "fk3a1") 1 w = (Raise (KeyError "data"), w') /\
    requests w' = [url].
Proof.
  intros body http_get url w.
  assert (Hfail : Forall (lookup_fails CompactJson.loads) []) by apply List.Forall_nil.
  assert (Hlen : (length (@nil get_outcome) < Z.to_nat (1 + 1))%nat) by (vm_compute; lia).
  assert (Hplay : plays http_get url (requests w) ([] ++ [answer body]))
    by (repeat split).
  assert (Hload : CompactJson.loads (CompactJson.dumps body) = Some body)
    by (vm_compute; reflexivity).
  split; [split; [exact Hfail | split; [exact Hlen | split; [exact Hplay |
            split; [exact Hload | reflexivity]]]] |].
  destruct (get_comment_ids_malformed_answer http_get CompactJson.loads no_repr
              CollectRedditPSIOData_init (JStr "fk3a1") 1 w [] _ body (KeyError "data")
              Hfail Hlen Hplay Hload eq_refl)
    as (w' & Hrun & _ & Hreq & _).
  exists w'. split; [exact Hrun | exact Hreq].
Defined.

Lemma uncaught_exception_ends_fetch_witness :
  let http_get := replay [bad_gateway] in
  let url := submissions_url CollectRedditPSIOData_init
               "covid" "Canada" "1583557200" "1583643600" in
  let w := empty_world "2020-04-01" in
  let es := [HTTPError "502 Bad Gateway"] in
  let e := OtherError "ConnectionError" in
  (Forall caught es /\
   (length es < Z.to_nat (5 + 1))%nat /\
   ~ caught e /\
   plays http_get url (requests w) (map GetRaises es ++ [GetRaises e])) /\
  exists w',
    get_submissions http_get CompactJson.loads CollectRedditPSIOData_init
      "covid" "Canada" "1583557200" "1583643600" 5 w = (Raise e, w') /\
    requests w' = [url; url] /\
    slept w' = 0.
Proof.
  intros http_get url w es e.
  assert (Hcaught : Forall caught es) by (repeat constructor).
  assert (Hlen : (length es < Z.to_nat (5 + 1))%nat) by (vm_compute; lia).
  assert (He : ~ caught e) by (exact (fun H : False => H)).
  assert (Hplay : plays http_get url (requests w) (map GetRaises es ++ [GetRaises e]))
    by (repeat split).
  split; [split; [exact Hcaught | split; [exact Hlen | split; [exact He | exact Hplay]]] |].
  destruct (uncaught_exception_ends_fetch http_get CompactJson.loads no_repr
              CollectRedditPSIOData_init 5 w es e Hcaught Hlen He) as [Hsubs _].
  destruct (Hsubs "covid" "Canada" "1583557200" "1583643600" Hplay)
    as (w' & Hrun & Hreq & Hslept).
  exists w'. split; [exact Hrun |]. split; [exact Hreq | exact Hslept].
Defined.

Lemma get_comment_ids_result_shape_witness :
  let run := get_comments_id_from_submissions_id
               (replay [bad_gateway; answer comment_ids_answer]) CompactJson.loads no_repr
               CollectRedditPSIOData_init (JStr "fk3a1") 1 (empty_world "2020-04-01") in
  let pairs := [JObj [("submission_id", JStr "fk3a1"); ("comment_id", JStr "c1")];
                JObj [("submission_id", JStr "fk3a1"); ("comment_id", JStr "c2")]] in
  run = (Ok pairs, snd run) /\
  exists first_id more_ids,
    res_all (fun comment => py_getitem comment "comment_id") pairs
      = Ok (first_id :: more_ids).
Proof.
  intros run pairs.
  assert (Hrun : run = (Ok pairs, snd run)) by (vm_compute; reflexivity).
  split; [exact Hrun |].
  destruct (get_comment_ids_result_shape
              (replay [bad_gateway; answer comment_ids_answer]) CompactJson.loads no_repr
              CollectRedditPSIOData_init (JStr "fk3a1") 1 (empty_world "2020-04-01")
              (snd run) pairs Hrun)
    as (first_id & more_ids & _ & _ & Hids & _).
  exists first_id, more_ids. exact Hids.
Defined.

Lemma run_reddit_psio_query_inverted_range_witness :
  toordinal march_7 < toordinal march_9 /\
  make_date_range tz_toronto_2020 march_9 march_7 = Ok [] /\
  run_reddit_psio_query (replay two_window_outcomes) CompactJson.dumps CompactJson.loads
    no_repr tz_toronto_2020 "covid" "Canada" march_9 march_7 (empty_world "2020-04-01")
  = (Ok tt, empty_world "2020-04-01").
Proof.
  assert (Hlt : toordinal march_7 < toordinal march_9) by (simpl; lia).
  split; [exact Hlt |].
  exact (run_reddit_psio_query_inverted_range (replay two_window_outcomes)
           CompactJson.dumps CompactJson.loads no_repr tz_toronto_2020
           "covid" "Canada" march_9 march_7 (empty_world "2020-04-01") Hlt).
Defined.

Lemma run_reddit_psio_query_malformed_submissions_witness :
  let payload := JObj [("error", JStr "rate limit")] in
  let http_get := replay [answer payload; answer comment_ids_answer] in
  let w := empty_world "2020-04-01" in
  let fetch := get_submissions http_get CompactJson.loads CollectRedditPSIOData_init
                 "covid" "Canada" "1583557200" "1583643600" 1 w in
  (make_date_range tz_toronto_2020 march_7 march_9
     = Ok ["1583557200"; "1583643600"; "1583726400"] /\
   fetch = (Ok payload, snd fetch) /\
   py_getitem payload "data" = Raise (KeyError "data")) /\
  run_reddit_psio_query http_get CompactJson.dumps CompactJson.loads no_repr
    tz_toronto_2020 "covid" "Canada" march_7 march_9 w
  = (Raise (KeyError "data"), snd fetch).
Proof.
  intros payload http_get w fetch.
  assert (Hrange : make_date_range tz_toronto_2020 march_7 march_9
                   = Ok ["1583557200"; "1583643600"; "1583726400"])
    by (vm_compute; reflexivity).
  assert (Hfetch : fetch = (Ok payload, snd fetch)) by (vm_compute; reflexivity).
  assert (Hdata : py_getitem payload "data" = Raise (KeyError "data")) by reflexivity.
  split; [split; [exact Hrange | split; [exact Hfetch | exact Hdata]] |].
  exact (proj1 (run_reddit_psio_query_malformed_submissions http_get CompactJson.dumps
                  CompactJson.loads no_repr tz_toronto_2020 "covid" "Canada"
                  march_7 march_9 w (snd fetch) "1583557200" "1583643600" ["1583726400"]
                  payload (KeyError "data") Hrange Hfetch) Hdata).
Defined.
